(** * dba-noise-meter: the level estimator and the overlay compositor

    A shallow embedding of [modules/constants.js], [utils/helpers.js],
    [modules/AudioAnalyzer.js], [modules/GeolocationManager.js] and
    [modules/CanvasOverlay.js], followed by the properties the specification
    states about them.

    Numbers.  A JavaScript Number is modelled by [number]: the three special
    values NaN, -Infinity, +Infinity, and the finite values as exact rationals.
    The arithmetic of finite values is exact: the rounding of IEEE-754
    binary64 is not part of the model, and the two zeros are one value.
    Everything that depends on NaN and the infinities (comparisons that are
    false on NaN, [Math.max] and [Math.min] that propagate NaN, the [||]
    operator that rejects 0 and NaN) is modelled as ECMAScript defines it. *)

From Stdlib Require Import QArith Qround Qabs Qreduction Qminmax Qpower ZArith Lia Lra Psatz.
From Stdlib Require Import List String Ascii Bool Strings.Byte DecimalString.
Import ListNotations.


(* ================================================================== *)
(** ** JavaScript numbers *)

Module JS.

Inductive number : Type :=
| NaN
| NegInf
| Fin (q : Q)
| PosInf.

Definition fin (q : Q) : number := Fin (Qred q).

Definition Qltb (a b : Q) : bool := negb (Qle_bool b a).

(** Sign of a finite value: -1, 0 or 1. *)
Definition Qsgn (q : Q) : Z := Z.sgn (Qnum q).

Definition is_nan (x : number) : bool :=
  match x with NaN => true | _ => false end.

Definition is_finite (x : number) : bool :=
  match x with Fin _ => true | _ => false end.

(** ToBoolean on a number: 0 and NaN are falsy. *)
Definition truthy (x : number) : bool :=
  match x with
  | NaN => false
  | Fin q => negb (Qeq_bool q 0)
  | _ => true
  end.

(** [a || b] on numbers. *)
Definition or_else (a b : number) : number := if truthy a then a else b.

Definition neg (x : number) : number :=
  match x with
  | NaN => NaN
  | NegInf => PosInf
  | PosInf => NegInf
  | Fin q => fin (- q)
  end.

Definition add (x y : number) : number :=
  match x, y with
  | NaN, _ | _, NaN => NaN
  | PosInf, NegInf | NegInf, PosInf => NaN
  | PosInf, _ | _, PosInf => PosInf
  | NegInf, _ | _, NegInf => NegInf
  | Fin a, Fin b => fin (a + b)
  end.

Definition sub (x y : number) : number := add x (neg y).

(** The infinity whose sign is the sign [s] (s is not 0). *)
Definition inf_of_sign (s : Z) : number :=
  if (s <? 0)%Z then NegInf else PosInf.

Definition sign_of (x : number) : Z :=
  match x with
  | NaN => 0%Z
  | NegInf => (-1)%Z
  | PosInf => 1%Z
  | Fin q => Qsgn q
  end.

Definition mul (x y : number) : number :=
  match x, y with
  | NaN, _ | _, NaN => NaN
  | Fin a, Fin b => fin (a * b)
  | _, _ =>
      (* at least one infinity: Infinity * 0 is NaN *)
      let s := (sign_of x * sign_of y)%Z in
      if (s =? 0)%Z then NaN else inf_of_sign s
  end.

Definition div (x y : number) : number :=
  match x, y with
  | NaN, _ | _, NaN => NaN
  | Fin a, Fin b =>
      if Qeq_bool b 0
      then (if Qeq_bool a 0 then NaN else inf_of_sign (Qsgn a))
      else fin (a / b)
  | Fin _, _ => Fin 0
  | _, Fin b =>
      if Qeq_bool b 0 then x
      else inf_of_sign (sign_of x * Qsgn b)%Z
  | _, _ => NaN
  end.

(** [x < y]; false as soon as one side is NaN. *)
Definition lt (x y : number) : bool :=
  match x, y with
  | NaN, _ | _, NaN => false
  | _, NegInf => false
  | NegInf, _ => true
  | PosInf, _ => false
  | Fin _, PosInf => true
  | Fin a, Fin b => Qltb a b
  end.

Definition gt (x y : number) : bool := lt y x.

(** [x >= y]; false as soon as one side is NaN. *)
Definition ge (x y : number) : bool :=
  match x, y with
  | NaN, _ | _, NaN => false
  | _, NegInf => true
  | NegInf, _ => false
  | PosInf, _ => true
  | Fin _, PosInf => false
  | Fin a, Fin b => Qle_bool b a
  end.

(** [x === y] on numbers. *)
Definition strict_eq (x y : number) : bool :=
  match x, y with
  | NegInf, NegInf | PosInf, PosInf => true
  | Fin a, Fin b => Qeq_bool a b
  | _, _ => false
  end.

Definition Math_max (x y : number) : number :=
  match x, y with
  | NaN, _ | _, NaN => NaN
  | _, _ => if lt x y then y else x
  end.

Definition Math_min (x y : number) : number :=
  match x, y with
  | NaN, _ | _, NaN => NaN
  | _, _ => if lt y x then y else x
  end.

Definition Math_floor (x : number) : number :=
  match x with
  | Fin q => Fin (inject_Z (Qfloor q))
  | _ => x
  end.

(** [Math.round]: the nearest integer, ties towards +Infinity. *)
Definition Math_round (x : number) : number :=
  match x with
  | Fin q => Fin (inject_Z (Qfloor (q + (1 # 2))))
  | _ => x
  end.

(** The value of [Math.PI], the binary64 number nearest to pi. *)
Definition Math_PI : number := fin (884279719003555 # 281474976710656).

(** ToNumber of an integer. *)
Definition of_Z (z : Z) : number := Fin (inject_Z z).
Definition of_nat (n : nat) : number := of_Z (Z.of_nat n).

(** The parts of [Math] that have no rational value: [Math.sqrt] and
    [Math.log10]. *)
Class MathLib : Type := {
  Math_sqrt : number -> number;
  Math_log10 : number -> number
}.

(** What ECMAScript fixes about the two at the arguments the analyser can
    pass. *)
Class MathContract (M : MathLib) : Prop := {
  sqrt_zero : forall q, q == 0 -> Math_sqrt (Fin q) = Fin 0;
  sqrt_pos : forall q, 0 < q -> exists r, Math_sqrt (Fin q) = Fin r /\ 0 < r;
  sqrt_neg : forall q, q < 0 -> Math_sqrt (Fin q) = NaN;
  sqrt_nan : Math_sqrt NaN = NaN;
  sqrt_inf : Math_sqrt PosInf = PosInf;
  log10_zero : forall q, q == 0 -> Math_log10 (Fin q) = NegInf;
  log10_pos : forall q, 0 < q -> exists r, Math_log10 (Fin q) = Fin r;
  log10_neg : forall q, q < 0 -> Math_log10 (Fin q) = NaN;
  log10_nan : Math_log10 NaN = NaN;
  log10_inf : Math_log10 PosInf = PosInf
}.

End JS.

Export JS.

Declare Scope js_scope.
Delimit Scope js_scope with js.
Bind Scope js_scope with number.
Infix "+" := JS.add : js_scope.
Infix "-" := JS.sub : js_scope.
Infix "*" := JS.mul : js_scope.
Infix "/" := JS.div : js_scope.
Infix "<" := JS.lt : js_scope.
Infix ">" := JS.gt : js_scope.
Infix ">=" := JS.ge : js_scope.
Infix "===" := JS.strict_eq (at level 70, no associativity) : js_scope.
Infix "||" := JS.or_else : js_scope.

Open Scope string_scope.
Open Scope list_scope.

(* ================================================================== *)
(** ** modules/constants.js *)

Module Level.
(** One entry of [DBA_LEVELS]. *)
Record t : Type := {
  max : number;
  text : string;
  class : string;
  color : string
}.
End Level.

Definition DBA_LEVELS : list Level.t := [
  {| Level.max := fin 40; Level.text := "Rất yên tĩnh";
     Level.class := "level-quiet"; Level.color := "#00ff88" |};
  {| Level.max := fin 60; Level.text := "Yên tĩnh";
     Level.class := "level-quiet"; Level.color := "#00ff88" |};
  {| Level.max := fin 70; Level.text := "Vừa phải";
     Level.class := "level-moderate"; Level.color := "#ffff00" |};
  {| Level.max := fin 85; Level.text := "Ồn";
     Level.class := "level-loud"; Level.color := "#ff9900" |};
  {| Level.max := PosInf; Level.text := "Rất ồn - Có hại!";
     Level.class := "level-very-loud"; Level.color := "#ff4444" |}
].

Module AudioConfig.
Record t : Type := {
  fftSize : nat;
  smoothingTimeConstant : number;
  dbaSmoothing : number;
  dbaOffset : number;
  minDBA : number;
  maxDBA : number;
  displayUpdateInterval : number
}.
End AudioConfig.

Definition AUDIO_CONFIG : AudioConfig.t := {|
  AudioConfig.fftSize := 2048;
  AudioConfig.smoothingTimeConstant := fin 0.8;
  AudioConfig.dbaSmoothing := fin 0.92;
  AudioConfig.dbaOffset := fin 20;
  AudioConfig.minDBA := fin 20;
  AudioConfig.maxDBA := fin 120;
  AudioConfig.displayUpdateInterval := fin 500
|}.

Module VisualizerConfig.
Record t : Type := {
  barCount : nat;
  barCountMobile : nat;
  barSpacing : number;
  waveformSamples : nat
}.
End VisualizerConfig.

Definition VISUALIZER_CONFIG : VisualizerConfig.t := {|
  VisualizerConfig.barCount := 64;
  VisualizerConfig.barCountMobile := 32;
  VisualizerConfig.barSpacing := fin 2;
  VisualizerConfig.waveformSamples := 256
|}.

Module DbaBox.
Record t : Type := {
  widthPortrait : number;
  widthLandscape : number;
  heightPortrait : number;
  heightLandscape : number;
  borderRadius : number;
  background : string;
  borderColor : string;
  borderWidth : number
}.
End DbaBox.

Module InfoBox.
Record t : Type := {
  widthPortrait : number;
  widthLandscape : number;
  heightPortrait : number;
  heightLandscape : number;
  borderRadius : number
}.
End InfoBox.

Module RecIndicator.
Record t : Type := {
  widthPortrait : number;
  widthLandscape : number;
  heightPortrait : number;
  heightLandscape : number;
  background : string
}.
End RecIndicator.

Module MiniVisualizer.
Record t : Type := {
  heightPortrait : number;
  heightLandscape : number;
  bottomOffsetPortrait : number;
  bottomOffsetLandscape : number;
  paddingRatio : number;
  minPadding : number;
  maxWidthRatio : number;
  maxWidth : number;
  borderRadius : number;
  background : string;
  innerPadding : number
}.
End MiniVisualizer.

Module Watermark.
Record t : Type := {
  text : string;
  color : string;
  bottomOffset : number
}.
End Watermark.

Module OverlayConfig.
Record t : Type := {
  baseWidthPortrait : number;
  baseWidthLandscape : number;
  minScale : number;
  dbaBox : DbaBox.t;
  infoBox : InfoBox.t;
  recIndicator : RecIndicator.t;
  miniVisualizer : MiniVisualizer.t;
  watermark : Watermark.t
}.
End OverlayConfig.

Definition OVERLAY_CONFIG : OverlayConfig.t := {|
  OverlayConfig.baseWidthPortrait := fin 720;
  OverlayConfig.baseWidthLandscape := fin 1920;
  OverlayConfig.minScale := fin 0.5;
  OverlayConfig.dbaBox := {|
    DbaBox.widthPortrait := fin 120;
    DbaBox.widthLandscape := fin 160;
    DbaBox.heightPortrait := fin 120;
    DbaBox.heightLandscape := fin 140;
    DbaBox.borderRadius := fin 15;
    DbaBox.background := "rgba(0, 0, 0, 0.8)";
    DbaBox.borderColor := "rgba(255, 255, 255, 0.25)";
    DbaBox.borderWidth := fin 2 |};
  OverlayConfig.infoBox := {|
    InfoBox.widthPortrait := fin 200;
    InfoBox.widthLandscape := fin 280;
    InfoBox.heightPortrait := fin 50;
    InfoBox.heightLandscape := fin 70;
    InfoBox.borderRadius := fin 12 |};
  OverlayConfig.recIndicator := {|
    RecIndicator.widthPortrait := fin 60;
    RecIndicator.widthLandscape := fin 90;
    RecIndicator.heightPortrait := fin 24;
    RecIndicator.heightLandscape := fin 32;
    RecIndicator.background := "rgba(255, 0, 0, 0.9)" |};
  OverlayConfig.miniVisualizer := {|
    MiniVisualizer.heightPortrait := fin 60;
    MiniVisualizer.heightLandscape := fin 100;
    MiniVisualizer.bottomOffsetPortrait := fin 80;
    MiniVisualizer.bottomOffsetLandscape := fin 100;
    MiniVisualizer.paddingRatio := fin 0.028;
    MiniVisualizer.minPadding := fin 20;
    MiniVisualizer.maxWidthRatio := fin 0.5;
    MiniVisualizer.maxWidth := fin 180;
    MiniVisualizer.borderRadius := fin 10;
    MiniVisualizer.background := "rgba(0, 0, 0, 0.7)";
    MiniVisualizer.innerPadding := fin 6 |};
  OverlayConfig.watermark := {|
    Watermark.text := "DBA Noise Meter";
    Watermark.color := "rgba(255, 255, 255, 0.4)";
    Watermark.bottomOffset := fin 8 |}
|}.

Module GeolocationMessages.
Definition na : string := "N/A".
End GeolocationMessages.

(* ================================================================== *)
(** ** utils/helpers.js *)

(** [clamp(value, min, max)] *)
Definition clamp (value min max : number) : number :=
  Math_max min (Math_min max value).

(** A CSS colour as the canvas receives it.  [hexToRgba] builds the text
    [rgba(r, g, b, alpha)] from the three channels parsed out of [hex]; the
    channel parsing is kept symbolic in [RgbaOfHex]. *)
Inductive css_color : Type :=
| CssText (s : string)
| RgbaOfHex (hex : string) (alpha : number).

Definition startsWith (s pre : string) : bool := String.prefix pre s.

Definition hexToRgba (hex : string) (alpha : number) : css_color :=
  if negb (startsWith hex "#") then CssText hex
  else RgbaOfHex hex alpha.

(* ================================================================== *)
(** ** Completions and typed arrays *)

(** The outcome of a call: a value, or an exception that leaves the call. *)
Inductive completion (A : Type) : Type :=
| Return (a : A)
| Throw (e : string).
Arguments Return {A} a.
Arguments Throw {A} e.
Arguments JS.fin : simpl never.

Definition TypeError : string := "TypeError".
Definition RangeError : string := "RangeError".
Definition IndexSizeError : string := "IndexSizeError".

(** What [getByteFrequencyData(arr)], [getByteTimeDomainData(arr)] and
    [getFloatTimeDomainData(arr)] do to [arr]: the node's current block [src]
    is copied over the front of the array, whose length does not change. *)
Definition copy_into {A : Type} (src arr : list A) : list A :=
  firstn (List.length arr) src ++ skipn (List.length src) arr.

(** Reading [arr[i]] from a Uint8Array and using it as a number: an index
    out of range gives [undefined], which arithmetic turns into NaN. *)
Definition byte_at (arr : list byte) (i : number) : number :=
  match i with
  | Fin q =>
      if Qeq_bool q (inject_Z (Qfloor q)) && (0 <=? Qfloor q)%Z
      then match nth_error arr (Z.to_nat (Qfloor q)) with
           | Some b => of_Z (Z.of_N (Byte.to_N b))
           | None => NaN
           end
      else NaN
  | _ => NaN
  end.

(* ================================================================== *)
(** ** modules/AudioAnalyzer.js *)

Module LevelInfo.
(** The object [getDBALevel] returns. *)
Record t : Type := {
  text : string;
  class : string;
  color : string
}.
End LevelInfo.

Module AudioAnalyzer.

Record IIRFilter : Type := {
  feedforward : list number;
  feedback : list number
}.

Definition createIIRFilter (b a : list number) : IIRFilter :=
  {| feedforward := b; feedback := a |}.

Record AnalyserNode : Type := {
  fftSize : nat;
  smoothingTimeConstant : number
}.

Definition frequencyBinCount (n : AnalyserNode) : nat := Nat.div2 (fftSize n).

Record AudioContext : Type := { sampleRate : number }.

(** The fields of an [AudioAnalyzer]; [dbaChain] is the audio graph between
    the source and [dbaAnalyser] that [setup] connects. *)
Record t : Type := {
  audioContext : option AudioContext;
  analyser : option AnalyserNode;
  dataArray : option (list byte);
  timeDataArray : option (list byte);
  dbaAnalyser : option AnalyserNode;
  dbaChain : list IIRFilter;
  dbaDataArray : option (list number);
  currentDBA : number;
  displayDBA : number;
  lastDisplayUpdate : number
}.

(** What the audio graph holds when the analyser is polled: the spectrum
    and waveform of the unweighted path and the samples of the A-weighted
    path. *)
Record Frame : Type := {
  byteFrequencyData : list byte;
  byteTimeDomainData : list byte;
  floatTimeDomainData : list number
}.

Definition constructor : t := {|
  audioContext := None;
  analyser := None;
  dataArray := None;
  timeDataArray := None;
  dbaAnalyser := None;
  dbaChain := [];
  dbaDataArray := None;
  currentDBA := fin 0;
  displayDBA := fin 0;
  lastDisplayUpdate := fin 0
|}.

Definition coeffs_44100 : list IIRFilter := [
  createIIRFilter
    [fin 0.95616638497; fin (-1.31960414122); fin 0.36343775625]
    [fin 1; fin (-1.31861375911); fin 0.32059452332];
  createIIRFilter
    [fin 0.94317138580; fin (-1.88634277160); fin 0.94317138580]
    [fin 1; fin (-1.88558607420); fin 0.88709946900]
].

Definition coeffs_48000 : list IIRFilter := [
  createIIRFilter
    [fin 0.96525096525; fin (-1.34730163086); fin 0.38205066561]
    [fin 1; fin (-1.34730722798); fin 0.34905752979];
  createIIRFilter
    [fin 0.94696969696; fin (-1.89393939393); fin 0.94696969696]
    [fin 1; fin (-1.89387049481); fin 0.89515976917]
].

(** [createAWeightingFilters(context)]; each branch pushes its two stages
    in order.  The [console.warn] of the last branch is not modelled. *)
Definition createAWeightingFilters (context : AudioContext) : list IIRFilter :=
  let sampleRate := sampleRate context in
  let filters : list IIRFilter := [] in
  if (sampleRate === fin 44100)%js then
    filters
      ++ [createIIRFilter
            [fin 0.95616638497; fin (-1.31960414122); fin 0.36343775625]
            [fin 1; fin (-1.31861375911); fin 0.32059452332]]
      ++ [createIIRFilter
            [fin 0.94317138580; fin (-1.88634277160); fin 0.94317138580]
            [fin 1; fin (-1.88558607420); fin 0.88709946900]]
  else if (sampleRate === fin 48000)%js then
    filters
      ++ [createIIRFilter
            [fin 0.96525096525; fin (-1.34730163086); fin 0.38205066561]
            [fin 1; fin (-1.34730722798); fin 0.34905752979]]
      ++ [createIIRFilter
            [fin 0.94696969696; fin (-1.89393939393); fin 0.94696969696]
            [fin 1; fin (-1.89387049481); fin 0.89515976917]]
  else if (sampleRate > fin 46000)%js then
    filters
      ++ [createIIRFilter
            [fin 0.96525096525; fin (-1.34730163086); fin 0.38205066561]
            [fin 1; fin (-1.34730722798); fin 0.34905752979]]
      ++ [createIIRFilter
            [fin 0.94696969696; fin (-1.89393939393); fin 0.94696969696]
            [fin 1; fin (-1.89387049481); fin 0.89515976917]]
  else
    filters
      ++ [createIIRFilter
            [fin 0.95616638497; fin (-1.31960414122); fin 0.36343775625]
            [fin 1; fin (-1.31861375911); fin 0.32059452332]]
      ++ [createIIRFilter
            [fin 0.94317138580; fin (-1.88634277160); fin 0.94317138580]
            [fin 1; fin (-1.88558607420); fin 0.88709946900]].

(** [setup(stream)], for a stream whose audio context runs at [rate]. *)
Definition setup (a : t) (rate : number) : t :=
  let ctx := {| sampleRate := rate |} in
  let an := {| fftSize := AudioConfig.fftSize AUDIO_CONFIG;
               smoothingTimeConstant :=
                 AudioConfig.smoothingTimeConstant AUDIO_CONFIG |} in
  let dba := {| fftSize := 2048; smoothingTimeConstant := fin 0 |} in
  let filterChain := createAWeightingFilters ctx in
  {| audioContext := Some ctx;
     analyser := Some an;
     dataArray := Some (repeat x00 (frequencyBinCount an));
     timeDataArray := Some (repeat x00 (fftSize an));
     dbaAnalyser := Some dba;
     dbaChain := if (0 <? List.length filterChain)%nat then filterChain else [];
     dbaDataArray := Some (repeat (fin 0) (fftSize dba));
     currentDBA := currentDBA a;
     displayDBA := displayDBA a;
     lastDisplayUpdate := lastDisplayUpdate a |}.

Definition isReady (a : t) : bool :=
  match analyser a with Some _ => true | None => false end.

Definition set_dataArray (a : t) (v : option (list byte)) : t :=
  {| audioContext := audioContext a; analyser := analyser a;
     dataArray := v; timeDataArray := timeDataArray a;
     dbaAnalyser := dbaAnalyser a; dbaChain := dbaChain a;
     dbaDataArray := dbaDataArray a; currentDBA := currentDBA a;
     displayDBA := displayDBA a; lastDisplayUpdate := lastDisplayUpdate a |}.

Definition set_timeDataArray (a : t) (v : option (list byte)) : t :=
  {| audioContext := audioContext a; analyser := analyser a;
     dataArray := dataArray a; timeDataArray := v;
     dbaAnalyser := dbaAnalyser a; dbaChain := dbaChain a;
     dbaDataArray := dbaDataArray a; currentDBA := currentDBA a;
     displayDBA := displayDBA a; lastDisplayUpdate := lastDisplayUpdate a |}.

Definition set_dbaDataArray (a : t) (v : option (list number)) : t :=
  {| audioContext := audioContext a; analyser := analyser a;
     dataArray := dataArray a; timeDataArray := timeDataArray a;
     dbaAnalyser := dbaAnalyser a; dbaChain := dbaChain a;
     dbaDataArray := v; currentDBA := currentDBA a;
     displayDBA := displayDBA a; lastDisplayUpdate := lastDisplayUpdate a |}.

Definition set_currentDBA (a : t) (v : number) : t :=
  {| audioContext := audioContext a; analyser := analyser a;
     dataArray := dataArray a; timeDataArray := timeDataArray a;
     dbaAnalyser := dbaAnalyser a; dbaChain := dbaChain a;
     dbaDataArray := dbaDataArray a; currentDBA := v;
     displayDBA := displayDBA a; lastDisplayUpdate := lastDisplayUpdate a |}.

Definition set_display (a : t) (d last : number) : t :=
  {| audioContext := audioContext a; analyser := analyser a;
     dataArray := dataArray a; timeDataArray := timeDataArray a;
     dbaAnalyser := dbaAnalyser a; dbaChain := dbaChain a;
     dbaDataArray := dbaDataArray a; currentDBA := currentDBA a;
     displayDBA := d; lastDisplayUpdate := last |}.

(** The loop [for (i ...) sum += arr[i] * arr[i]], started at [sum]. *)
Definition sum_squares (arr : list number) (sum : number) : number :=
  fold_left (fun s x => (s + x * x)%js) arr sum.

(** The decibel value before clamping:
    [20 * Math.log10(rms / 1) + AUDIO_CONFIG.dbaOffset]. *)
Definition raw_dba `{MathLib} (rms : number) : number :=
  (fin 20 * Math_log10 (rms / fin 1) + AudioConfig.dbaOffset AUDIO_CONFIG)%js.

(** [Math.sqrt(sum / arr.length)] *)
Definition rms_of `{MathLib} (arr : list number) : number :=
  Math_sqrt (sum_squares arr (fin 0) / of_nat (List.length arr))%js.

(** The smoothing assignment of [calculateDBA]:
    [currentDBA * dbaSmoothing + clampedDBA * (1 - dbaSmoothing)]. *)
Definition smooth (current clampedDBA : number) : number :=
  (current * AudioConfig.dbaSmoothing AUDIO_CONFIG
   + clampedDBA * (fin 1 - AudioConfig.dbaSmoothing AUDIO_CONFIG))%js.

(** [calculateDBA()], the audio graph holding [env] when it is called.
    Passing [null] to a [get...Data] method, or reading [.length] of
    [null], throws a TypeError. *)
Definition calculateDBA `{MathLib} (a : t) (env : Frame)
  : completion (t * number) :=
  match analyser a with
  | None => Return (a, fin 0)
  | Some _ =>
      match dataArray a with
      | None => Throw TypeError
      | Some data =>
          let a := set_dataArray a
                     (Some (copy_into (byteFrequencyData env) data)) in
          match dbaAnalyser a with
          | None => Return (a, fin 0)
          | Some _ =>
              match dbaDataArray a with
              | None => Throw TypeError
              | Some buf =>
                  let buf := copy_into (floatTimeDomainData env) buf in
                  let a := set_dbaDataArray a (Some buf) in
                  let rms := rms_of buf in
                  let dba := raw_dba rms in
                  let clampedDBA :=
                    clamp dba (AudioConfig.minDBA AUDIO_CONFIG)
                              (AudioConfig.maxDBA AUDIO_CONFIG) in
                  let a := set_currentDBA a (smooth (currentDBA a) clampedDBA) in
                  Return (a, Math_round (currentDBA a))
              end
          end
      end
  end.

(** [getDisplayDBA()], [now] being the value of [Date.now()]. *)
Definition getDisplayDBA (a : t) (now : number) : t * number :=
  let a :=
    if negb (truthy (lastDisplayUpdate a))
       || (now - lastDisplayUpdate a
             >= AudioConfig.displayUpdateInterval AUDIO_CONFIG)%js
    then set_display a (Math_round (currentDBA a)) now
    else a in
  (a, (displayDBA a || Math_round (currentDBA a))%js).

Definition getCurrentDBA (a : t) : number := currentDBA a.

Definition info_of (level : Level.t) : LevelInfo.t :=
  {| LevelInfo.text := Level.text level;
     LevelInfo.class := Level.class level;
     LevelInfo.color := Level.color level |}.

(** The [for ... of] loop of [getDBALevel]: the first level with
    [dba < level.max], if the loop returns. *)
Fixpoint scan_levels (levels : list Level.t) (dba : number)
  : option LevelInfo.t :=
  match levels with
  | [] => None
  | level :: rest =>
      if (dba < Level.max level)%js then Some (info_of level)
      else scan_levels rest dba
  end.

(** [getDBALevel(dba)] over a level table; [DBA_LEVELS[length - 1]] of an
    empty table is [undefined], whose [.text] throws. *)
Definition getDBALevel_of (levels : list Level.t) (dba : number)
  : completion LevelInfo.t :=
  match scan_levels levels dba with
  | Some info => Return info
  | None =>
      match nth_error levels (List.length levels - 1) with
      | Some last => Return (info_of last)
      | None => Throw TypeError
      end
  end.

Definition getDBALevel (dba : number) : completion LevelInfo.t :=
  getDBALevel_of DBA_LEVELS dba.

(** [getVisualizerColor()] *)
Definition getVisualizerColor (a : t) : completion string :=
  match getDBALevel (currentDBA a) with
  | Return level => Return (LevelInfo.color level)
  | Throw e => Throw e
  end.

(** [getFrequencyData()]; with a live analyser and no array the call
    [getByteFrequencyData(null)] throws. *)
Definition getFrequencyData (a : t) (env : Frame)
  : completion (t * option (list byte)) :=
  match analyser a, dataArray a with
  | Some _, None => Throw TypeError
  | Some _, Some data =>
      let a := set_dataArray a (Some (copy_into (byteFrequencyData env) data)) in
      Return (a, dataArray a)
  | None, _ => Return (a, dataArray a)
  end.

(** [getTimeDomainData()] *)
Definition getTimeDomainData (a : t) (env : Frame)
  : completion (t * option (list byte)) :=
  match analyser a, timeDataArray a with
  | Some _, None => Throw TypeError
  | Some _, Some data =>
      let a := set_timeDataArray a
                 (Some (copy_into (byteTimeDomainData env) data)) in
      Return (a, timeDataArray a)
  | None, _ => Return (a, timeDataArray a)
  end.

(** [destroy()] *)
Definition destroy (a : t) : t :=
  {| audioContext := None; analyser := None;
     dataArray := None; timeDataArray := None;
     dbaAnalyser := dbaAnalyser a; dbaChain := dbaChain a;
     dbaDataArray := dbaDataArray a; currentDBA := currentDBA a;
     displayDBA := displayDBA a; lastDisplayUpdate := lastDisplayUpdate a |}.

End AudioAnalyzer.

(* ================================================================== *)
(** ** Number.prototype.toFixed *)

Module ToFixed.

Definition digit_char (d : N) : ascii :=
  ascii_of_N (48 + d mod 10).

(** The last [k] decimal digits of [n], most significant first. *)
Fixpoint digits_fixed (k : nat) (n : N) : string :=
  match k with
  | O => ""
  | S k' => (digits_fixed k' (n / 10) ++ String (digit_char n) "")%string
  end.

(** The decimal digits of [n] with no leading zero ("0" for zero). *)
Definition digits_of (n : N) : string :=
  DecimalString.NilZero.string_of_uint (N.to_uint n).

(** The integer [n] for which [n / 10^f - x] is closest to zero, the larger
    one on a tie, for [x >= 0]. *)
Definition nearest_scaled (x : Q) (f : nat) : N :=
  Z.to_N (Qfloor (x * inject_Z (10 ^ Z.of_nat f) + (1 # 2))).

Definition unsigned_fixed (x : Q) (f : nat) : string :=
  let n := nearest_scaled x f in
  let p := (10 ^ N.of_nat f)%N in
  match f with
  | O => digits_of n
  | _ => (digits_of (n / p) ++ "." ++ digits_fixed f (n mod p))%string
  end.

(** [x.toFixed(f)] for [0 <= f <= 100].  A finite value of magnitude
    [10^21] or more is printed by [ToString] in exponent notation, which
    this model does not cover: the result is [None] there. *)
Definition toFixed (x : number) (f : nat) : option string :=
  match x with
  | NaN => Some "NaN"
  | PosInf => Some "Infinity"
  | NegInf => Some "-Infinity"
  | Fin q =>
      if Qle_bool (inject_Z (10 ^ 21)) (Qabs q) then None
      else if Qltb q 0
           then Some ("-" ++ unsigned_fixed (- q) f)%string
           else Some (unsigned_fixed q f)
  end.

(** The characters of [s] that follow its first ["."], if it has one. *)
Fixpoint after_point (s : string) : option string :=
  match s with
  | EmptyString => None
  | String c rest =>
      if Ascii.eqb c "."%char then Some rest else after_point rest
  end.

Definition is_digit (c : ascii) : bool :=
  (48 <=? N_of_ascii c)%N && (N_of_ascii c <=? 57)%N.

Fixpoint all_digits (s : string) : bool :=
  match s with
  | EmptyString => true
  | String c rest => is_digit c && all_digits rest
  end.

(** [s] is a decimal numeral with exactly [k] digits after the point. *)
Definition has_fraction_digits (k : nat) (s : string) : Prop :=
  exists frac, after_point s = Some frac
               /\ all_digits frac = true /\ String.length frac = k.

End ToFixed.

(* ================================================================== *)
(** ** modules/GeolocationManager.js *)

Module GeolocationManager.

Record Coords : Type := { latitude : number; longitude : number }.
Record Position : Type := { coords : Coords }.

(** The fields of a [GeolocationManager]; [notified] collects, oldest
    first, the messages passed to [notify]. *)
Record t : Type := {
  lat : option string;
  lng : option string;
  watching : bool;
  notified : list string
}.

Definition constructor : t :=
  {| lat := None; lng := None; watching := false; notified := [] |}.

Definition getCoordinates (g : t) : option string * option string :=
  (lat g, lng g).

Definition hasLocation (g : t) : bool :=
  match lat g, lng g with Some _, Some _ => true | _, _ => false end.

(** [handleSuccess(position)]: both coordinates through [toFixed(6)], the
    notification, then [startWatching()].  [None] where [toFixed] is. *)
Definition handleSuccess (g : t) (position : Position) : option t :=
  match ToFixed.toFixed (latitude (coords position)) 6,
        ToFixed.toFixed (longitude (coords position)) 6 with
  | Some la, Some lo =>
      Some {| lat := Some la; lng := Some lo; watching := true;
              notified := notified g ++ [(la ++ ", " ++ lo)%string] |}
  | _, _ => None
  end.

End GeolocationManager.

(* ================================================================== *)
(** ** The 2D canvas *)

Module Canvas.

(** A value of [ctx.font]: the template [bold <px>px Arial], or the same
    without [bold]. *)
Record Font : Type := { bold : bool; px : number }.

Record Gradient : Type := {
  x0 : number; y0 : number; x1 : number; y1 : number;
  stops : list (number * string)
}.

Inductive fill_style : Type :=
| Color (c : css_color)
| GradientStyle (g : Gradient).

(** The argument of [fillText]: a string, or a number the canvas prints. *)
Inductive text : Type :=
| Str (s : string)
| Num (n : number).

(** What reaches the context, in call order. *)
Inductive op : Type :=
| FillStyle (s : fill_style)
| StrokeStyle (s : string)
| LineWidth (w : number)
| SetFont (f : Font)
| TextAlign (s : string)
| TextBaseline (s : string)
| ShadowColor (s : string)
| ShadowBlur (n : number)
| BeginPath
| RoundRect (x y w h r : number)
| Arc (x y radius startAngle endAngle : number)
| MoveTo (x y : number)
| LineTo (x y : number)
| FillRect (x y w h : number)
| FillText (t : text) (x y : number)
| Fill
| Stroke
| Clip
| Save
| Restore.

(** The context: the current font and everything received so far. *)
Record t : Type := { font : Font; ops : list op }.

Definition blank : t := {| font := {| bold := false; px := fin 10 |}; ops := [] |}.

(** What the page supplies and the overlay only reads: the width
    [measureText] reports for a string in a font, and the text
    [formatDateTimeForOverlay(new Date())] gives when the info box is
    drawn. *)
Record Env : Type := {
  measureTextWidth : Font -> string -> number;
  dateStr : string
}.

(** The exception a call raises by the Canvas 2D standard, if any:
    [roundRect] rejects a negative radius once its rectangle is finite,
    [arc] a negative radius once its arguments are finite. *)
Definition negative (x : number) : bool := (x < fin 0)%js.

Definition op_exception (o : op) : option string :=
  match o with
  | RoundRect x y w h r =>
      if is_finite x && is_finite y && is_finite w && is_finite h
         && is_finite r && negative r
      then Some RangeError else None
  | Arc x y radius a0 a1 =>
      if is_finite x && is_finite y && is_finite radius
         && is_finite a0 && is_finite a1 && negative radius
      then Some IndexSizeError else None
  | _ => None
  end.

End Canvas.

(* ================================================================== *)
(** ** modules/CanvasOverlay.js *)

Module CanvasOverlay.
Import Canvas.

(** The [data] argument of [draw]. *)
Record OverlayData : Type := {
  currentDBA : number;
  dbaColor : string;
  level : LevelInfo.t;
  latitude : option string;
  longitude : option string;
  isRecording : bool;
  frequencyData : option (list byte);
  timeData : option (list byte)
}.

(** The object stored in [_lastInfoBox].  The fallback literal of
    [drawRecordingIndicator] has no [y]: reading it gives [undefined],
    NaN in the sum it is used in. *)
Module Box.
Record t : Type := { x : number; y : number; width : number; height : number }.
End Box.

Module Scale.
(** The object [calculateScale] returns. *)
Record t : Type := { scale : number; fontSize : number; padding : number }.
End Scale.

(** The fields of a [CanvasOverlay]. *)
Record t : Type := {
  _lastInfoBox : option Box.t;
  _lastDbaX : option number
}.

Definition constructor : t := {| _lastInfoBox := None; _lastDbaX := None |}.

(** The overlay object and the context a method works on. *)
Record World : Type := { this : t; ctx : Canvas.t }.

(** A method body: it changes the world and returns or throws. *)
Definition M (A : Type) : Type := World -> World * completion A.

Definition ret {A : Type} (a : A) : M A := fun w => (w, Return a).

Definition bind {A B : Type} (m : M A) (f : A -> M B) : M B :=
  fun w =>
    match m w with
    | (w1, Return a) => f a w1
    | (w1, Throw e) => (w1, Throw e)
    end.

Definition throw {A : Type} (e : string) : M A := fun w => (w, Throw e).

Notation "m ;; k" := (bind m (fun _ => k))
  (at level 61, right associativity).
Notation "'let*' a := m 'in' k" := (bind m (fun a => k))
  (at level 61, a name, m at next level, right associativity).

(** A call or an assignment on the context. *)
Definition call (o : op) : M unit :=
  fun w =>
    match op_exception o with
    | Some e => (w, Throw e)
    | None =>
        ({| this := this w;
            ctx := {| font := font (ctx w); ops := ops (ctx w) ++ [o] |} |},
         Return tt)
    end.

Definition set_font (f : Font) : M unit :=
  fun w =>
    ({| this := this w;
        ctx := {| font := f; ops := ops (ctx w) ++ [SetFont f] |} |},
     Return tt).

Section WithEnv.
Variable env : Env.

(** [ctx.measureText(s).width] *)
Definition measureText (s : string) : M number :=
  fun w => (w, Return (measureTextWidth env (font (ctx w)) s)).

(** [ctx.createLinearGradient]: its arguments are [double], so a NaN or
    an infinity is a TypeError. *)
Definition createLinearGradient (a b c d : number) : M Gradient :=
  if is_finite a && is_finite b && is_finite c && is_finite d
  then ret {| x0 := a; y0 := b; x1 := c; y1 := d; stops := [] |}
  else throw TypeError.

(** [gradient.addColorStop(offset, color)] with a valid colour. *)
Definition addColorStop (g : Gradient) (offset : number) (color : string)
  : M Gradient :=
  if negb (is_finite offset) then throw TypeError
  else if (offset < fin 0)%js || (offset > fin 1)%js then throw IndexSizeError
  else ret {| x0 := x0 g; y0 := y0 g; x1 := x1 g; y1 := y1 g;
              stops := stops g ++ [(offset, color)] |}.

Definition set_lastInfo (b : Box.t) (dbaX : number) : M unit :=
  fun w =>
    ({| this := {| _lastInfoBox := Some b; _lastDbaX := Some dbaX |};
        ctx := ctx w |}, Return tt).

Definition get_this : M t := fun w => (w, Return (this w)).

(** [for (let i = start; i < start + n; i++) body(i)] *)
Fixpoint for_range (start n : nat) (body : nat -> M unit) : M unit :=
  match n with
  | O => ret tt
  | S n' => body start ;; for_range (S start) n' body
  end.

(** The same loop with a variable [x] the body updates. *)
Fixpoint for_fold {X : Type} (start n : nat) (x : X)
    (body : nat -> X -> M X) : M X :=
  match n with
  | O => ret x
  | S n' => let* x' := body start x in for_fold (S start) n' x' body
  end.

(** [calculateScale(width, height, isPortrait)] *)
Definition calculateScale (width height : number) (isPortrait : bool)
  : Scale.t :=
  let baseWidth :=
    if isPortrait then OverlayConfig.baseWidthPortrait OVERLAY_CONFIG
    else OverlayConfig.baseWidthLandscape OVERLAY_CONFIG in
  let baseScale := (width / baseWidth)%js in
  let scale := Math_max (OverlayConfig.minScale OVERLAY_CONFIG) baseScale in
  let fontSize := Math_max (fin 14) (fin 22 * scale)%js in
  let padding := Math_max (fin 20) (fin 30 * scale)%js in
  {| Scale.scale := scale; Scale.fontSize := fontSize;
     Scale.padding := padding |}.

(** [drawLevelPill] *)
Definition drawLevelPill (boxX boxY boxWidth boxHeight scale fontSize : number)
    (data : OverlayData) : M unit :=
  let levelText := LevelInfo.text (level data) in
  set_font {| bold := true; px := (fontSize * fin 0.6)%js |} ;;
  let* measured := measureText levelText in
  let levelWidth :=
    Math_min (measured + fin 20 * scale)%js (boxWidth - fin 16 * scale)%js in
  let levelHeight := (fin 22 * scale)%js in
  let levelX := (boxX + (boxWidth - levelWidth) / fin 2)%js in
  let levelY := (boxY + boxHeight * fin 0.72)%js in
  call (FillStyle (Color (hexToRgba (dbaColor data) (fin 0.3)))) ;;
  call BeginPath ;;
  call (RoundRect levelX levelY levelWidth levelHeight (fin 10 * scale)%js) ;;
  call Fill ;;
  call (FillStyle (Color (CssText (dbaColor data)))) ;;
  call (TextAlign "center") ;;
  call (FillText (Str levelText) (boxX + boxWidth / fin 2)%js
                 (levelY + levelHeight / fin 2)%js).

(** [drawDBABox] *)
Definition drawDBABox (width height scale fontSize padding : number)
    (isPortrait : bool) (data : OverlayData) : M unit :=
  let config := OverlayConfig.dbaBox OVERLAY_CONFIG in
  let boxWidth :=
    if isPortrait then (DbaBox.widthPortrait config * scale)%js
    else (DbaBox.widthLandscape config * scale)%js in
  let boxHeight :=
    if isPortrait then (DbaBox.heightPortrait config * scale)%js
    else (DbaBox.heightLandscape config * scale)%js in
  let x := (width - boxWidth - padding)%js in
  let y := padding in
  call (FillStyle (Color (CssText (DbaBox.background config)))) ;;
  call BeginPath ;;
  call (RoundRect x y boxWidth boxHeight (DbaBox.borderRadius config * scale)%js) ;;
  call Fill ;;
  call (StrokeStyle (DbaBox.borderColor config)) ;;
  call (LineWidth (DbaBox.borderWidth config * scale)%js) ;;
  call Stroke ;;
  let dbaFontSize :=
    if isPortrait then (fontSize * fin 2)%js else (fontSize * fin 2.8)%js in
  call (FillStyle (Color (CssText (dbaColor data)))) ;;
  set_font {| bold := true; px := dbaFontSize |} ;;
  call (TextAlign "center") ;;
  call (TextBaseline "middle") ;;
  call (ShadowColor (dbaColor data)) ;;
  call (ShadowBlur (fin 15 * scale)%js) ;;
  call (FillText (Num (Math_round (currentDBA data)))
                 (x + boxWidth / fin 2)%js (y + boxHeight * fin 0.28)%js) ;;
  call (ShadowBlur (fin 0)) ;;
  call (FillStyle (Color (CssText "rgba(255, 255, 255, 0.85)"))) ;;
  set_font {| bold := false; px := (fontSize * fin 0.85)%js |} ;;
  call (FillText (Str "dBA") (x + boxWidth / fin 2)%js
                 (y + boxHeight * fin 0.52)%js) ;;
  drawLevelPill x y boxWidth boxHeight scale fontSize data.

(** ToBoolean of a [string|null] field: [null] and the empty string are
    falsy. *)
Definition present (s : option string) : bool :=
  match s with
  | Some EmptyString | None => false
  | Some _ => true
  end.

Definition str_of (s : option string) : string :=
  match s with Some v => v | None => "null" end.

(** The location line of the info box. *)
Definition locationStr (data : OverlayData) : string :=
  if present (latitude data) && present (longitude data)
  then ("⌖ " ++ str_of (latitude data) ++ ", " ++ str_of (longitude data))%string
  else "⌖ N/A".

(** [drawInfoBox] *)
Definition drawInfoBox (width height scale fontSize padding : number)
    (isPortrait : bool) (data : OverlayData) : M unit :=
  let config := OverlayConfig.infoBox OVERLAY_CONFIG in
  let dbaConfig := OverlayConfig.dbaBox OVERLAY_CONFIG in
  let dbaBoxWidth :=
    if isPortrait then (DbaBox.widthPortrait dbaConfig * scale)%js
    else (DbaBox.widthLandscape dbaConfig * scale)%js in
  let boxWidth :=
    if isPortrait
    then Math_min (InfoBox.widthPortrait config * scale)%js
                  (width - dbaBoxWidth - padding * fin 3)%js
    else (InfoBox.widthLandscape config * scale)%js in
  let boxHeight :=
    if isPortrait then (InfoBox.heightPortrait config * scale)%js
    else (InfoBox.heightLandscape config * scale)%js in
  let x := padding in
  let y := padding in
  set_lastInfo {| Box.x := x; Box.y := y;
                  Box.width := boxWidth; Box.height := boxHeight |}
               (width - dbaBoxWidth - padding)%js ;;
  call (FillStyle (Color (CssText
          (DbaBox.background (OverlayConfig.dbaBox OVERLAY_CONFIG))))) ;;
  call BeginPath ;;
  call (RoundRect x y boxWidth boxHeight (InfoBox.borderRadius config * scale)%js) ;;
  call Fill ;;
  call (StrokeStyle (DbaBox.borderColor (OverlayConfig.dbaBox OVERLAY_CONFIG))) ;;
  call (LineWidth
          (DbaBox.borderWidth (OverlayConfig.dbaBox OVERLAY_CONFIG) * scale)%js) ;;
  call Stroke ;;
  let infoFontSize :=
    if isPortrait then (fontSize * fin 0.7)%js else (fontSize * fin 0.85)%js in
  call (FillStyle (Color (CssText "#ffffff"))) ;;
  set_font {| bold := true; px := infoFontSize |} ;;
  call (TextAlign "left") ;;
  call (TextBaseline "middle") ;;
  call (FillText (Str ("⏱ " ++ dateStr env)%string)
                 (x + fin 8 * scale)%js (y + boxHeight * fin 0.35)%js) ;;
  call (FillStyle (Color (CssText "#aaaaaa"))) ;;
  set_font {| bold := false; px := (infoFontSize * fin 0.9)%js |} ;;
  call (FillText (Str (locationStr data))
                 (x + fin 8 * scale)%js (y + boxHeight * fin 0.7)%js).

(** The calls that draw the badge at [(recX, recY)]. *)
Definition badge (recX recY recWidth recHeight scale fontSize : number)
  : M unit :=
  let config := OverlayConfig.recIndicator OVERLAY_CONFIG in
  call (FillStyle (Color (CssText (RecIndicator.background config)))) ;;
  call BeginPath ;;
  call (RoundRect recX recY recWidth recHeight (recHeight / fin 2)%js) ;;
  call Fill ;;
  let dotRadius := (fin 4 * scale)%js in
  call (FillStyle (Color (CssText "#ffffff"))) ;;
  call BeginPath ;;
  call (Arc (recX + recWidth * fin 0.3)%js (recY + recHeight / fin 2)%js
            dotRadius (fin 0) (Math_PI * fin 2)%js) ;;
  call Fill ;;
  call (FillStyle (Color (CssText "#ffffff"))) ;;
  set_font {| bold := true; px := (fontSize * fin 0.6)%js |} ;;
  call (TextAlign "center") ;;
  call (FillText (Str "REC") (recX + recWidth * fin 0.65)%js
                 (recY + recHeight / fin 2)%js).

(** [drawRecordingIndicator] *)
Definition drawRecordingIndicator (width height scale fontSize padding : number)
    (isPortrait : bool) (data : OverlayData) : M unit :=
  let config := OverlayConfig.recIndicator OVERLAY_CONFIG in
  let recWidth :=
    if isPortrait then (RecIndicator.widthPortrait config * scale)%js
    else (RecIndicator.widthLandscape config * scale)%js in
  let recHeight :=
    if isPortrait then (RecIndicator.heightPortrait config * scale)%js
    else (RecIndicator.heightLandscape config * scale)%js in
  let* self := get_this in
  let infoBox :=
    match _lastInfoBox self with
    | Some b => b
    | None => {| Box.x := padding; Box.y := NaN;
                 Box.width := (fin 200 * scale)%js;
                 Box.height := (fin 50 * scale)%js |}
    end in
  let dbaX :=
    match _lastDbaX self with
    | Some v => (v || (width - fin 160 * scale - padding))%js
    | None => (width - fin 160 * scale - padding)%js
    end in
  let recX := (Box.x infoBox + Box.width infoBox + fin 10 * scale)%js in
  let recY := (Box.y infoBox + (Box.height infoBox - recHeight) / fin 2)%js in
  if (recX + recWidth >= dbaX - fin 5 * scale)%js then ret tt
  else badge recX recY recWidth recHeight scale fontSize.

(** One turn of the bar loop of [drawMiniVisualizer]. *)
Definition drawBar (frequencyData : list byte) (barCount : nat)
    (vizX vizY vizHeight innerPadding barWidth : number) (i : nat) : M unit :=
  let dataIndex :=
    Math_floor (of_nat i * (of_nat (List.length frequencyData) / of_nat barCount))%js in
  let maxBarHeight := (vizHeight - innerPadding * fin 2)%js in
  let barHeight :=
    Math_max (fin 2) (byte_at frequencyData dataIndex / fin 255 * maxBarHeight)%js in
  let barX := (vizX + innerPadding + of_nat i * (barWidth + fin 1))%js in
  let barY := (vizY + vizHeight - innerPadding - barHeight)%js in
  let* gradient := createLinearGradient (fin 0) (barY + barHeight)%js (fin 0) barY in
  let* gradient := addColorStop gradient (fin 0) "rgba(0, 255, 136, 0.9)" in
  let* gradient := addColorStop gradient (fin 0.4) "rgba(255, 255, 0, 0.9)" in
  let* gradient := addColorStop gradient (fin 0.7) "rgba(255, 153, 0, 0.9)" in
  let* gradient := addColorStop gradient (fin 1) "rgba(255, 68, 68, 0.9)" in
  call (FillStyle (GradientStyle gradient)) ;;
  call (FillRect barX barY (barWidth - fin 1)%js barHeight).

(** One turn of the waveform loop; it returns the new [x]. *)
Definition drawSample (timeData : list byte) (waveformSamples : nat)
    (vizY vizHeight sliceWidth : number) (i : nat) (x : number) : M number :=
  let sampleIndex :=
    Math_floor (of_nat i * of_nat (List.length timeData)
                / of_nat waveformSamples)%js in
  let v := (byte_at timeData sampleIndex / fin 128)%js in
  let y := (vizY + vizHeight / fin 2 + ((v - fin 1) * vizHeight * fin 0.4))%js in
  (if Nat.eqb i 0 then call (MoveTo x y) else call (LineTo x y)) ;;
  ret (x + sliceWidth)%js.

(** [drawMiniVisualizer]; a typed array, even an empty one, is truthy. *)
Definition drawMiniVisualizer (width height scale padding : number)
    (isPortrait : bool) (data : OverlayData) : M unit :=
  match frequencyData data, timeData data with
  | Some frequencyData, Some timeData =>
      let config := OverlayConfig.miniVisualizer OVERLAY_CONFIG in
      let vizHeight :=
        if isPortrait then (MiniVisualizer.heightPortrait config * scale)%js
        else (MiniVisualizer.heightLandscape config * scale)%js in
      let vizY :=
        (height - vizHeight
         - (if isPortrait
            then MiniVisualizer.bottomOffsetPortrait config * scale
            else MiniVisualizer.bottomOffsetLandscape config * scale))%js in
      let vizPadding :=
        Math_max (MiniVisualizer.minPadding config)
                 (width * MiniVisualizer.paddingRatio config)%js in
      let vizX := vizPadding in
      let vizWidth :=
        Math_min (width * MiniVisualizer.maxWidthRatio config)%js
                 (MiniVisualizer.maxWidth config * scale)%js in
      call Save ;;
      call BeginPath ;;
      call (RoundRect vizX vizY vizWidth vizHeight
                      (MiniVisualizer.borderRadius config * scale)%js) ;;
      call (FillStyle (Color (CssText (MiniVisualizer.background config)))) ;;
      call Fill ;;
      call Clip ;;
      let barCount :=
        if isPortrait then VisualizerConfig.barCountMobile VISUALIZER_CONFIG
        else VisualizerConfig.barCount VISUALIZER_CONFIG in
      let innerPadding := (MiniVisualizer.innerPadding config * scale)%js in
      let totalBarSpace := (vizWidth - innerPadding * fin 2)%js in
      let barWidth := (totalBarSpace / of_nat barCount - fin 1)%js in
      for_range 0 barCount
        (drawBar frequencyData barCount vizX vizY vizHeight innerPadding barWidth) ;;
      call (LineWidth (fin 2 * scale)%js) ;;
      call (StrokeStyle (dbaColor data)) ;;
      call BeginPath ;;
      let waveformSamples :=
        Nat.min (List.length timeData)
                (VisualizerConfig.waveformSamples VISUALIZER_CONFIG) in
      let sliceWidth := (vizWidth / of_nat waveformSamples)%js in
      let* _ := for_fold 0 waveformSamples vizX
                  (drawSample timeData waveformSamples vizY vizHeight sliceWidth) in
      call Stroke ;;
      call Restore
  | _, _ => ret tt
  end.

(** [drawWatermark] *)
Definition drawWatermark (width height scale fontSize : number) : M unit :=
  let config := OverlayConfig.watermark OVERLAY_CONFIG in
  call (FillStyle (Color (CssText (Watermark.color config)))) ;;
  set_font {| bold := false; px := (fontSize * fin 0.6)%js |} ;;
  call (TextAlign "center") ;;
  call (TextBaseline "bottom") ;;
  call (FillText (Str (Watermark.text config)) (width / fin 2)%js
                 (height - Watermark.bottomOffset config * scale)%js).

(** [draw(ctx, width, height, data)] *)
Definition draw (width height : number) (data : OverlayData) : M unit :=
  let isPortrait := (height > width)%js in
  let s := calculateScale width height isPortrait in
  let scale := Scale.scale s in
  let fontSize := Scale.fontSize s in
  let padding := Scale.padding s in
  drawDBABox width height scale fontSize padding isPortrait data ;;
  drawInfoBox width height scale fontSize padding isPortrait data ;;
  (if isRecording data
   then drawRecordingIndicator width height scale fontSize padding isPortrait data
   else ret tt) ;;
  drawMiniVisualizer width height scale padding isPortrait data ;;
  drawWatermark width height scale fontSize.

End WithEnv.
End CanvasOverlay.

(* ================================================================== *)
(** * Vocabulary of the statements *)

(** [den x q]: the number [x] is finite and its value is [q]. *)
Definition den (x : number) (q : Q) : Prop :=
  match x with
  | Fin p => p == q
  | _ => False
  end.

(** No level of [pre] lies strictly above [dba]. *)
Definition passed_over (dba : number) (pre : list Level.t) : Prop :=
  Forall (fun l => (dba < Level.max l)%js = false) pre.

(** The level at position [i] of the table. *)
Definition band_at (i : nat) : completion LevelInfo.t :=
  match nth_error DBA_LEVELS i with
  | Some l => Return (AudioAnalyzer.info_of l)
  | None => Throw TypeError
  end.

(** The value of [currentDBA] after [n] calls of [calculateDBA] that all
    clamp to the same [clampedDBA]. *)
Fixpoint smoothed (n : nat) (current clampedDBA : number) : number :=
  match n with
  | O => current
  | S n' => AudioAnalyzer.smooth (smoothed n' current clampedDBA) clampedDBA
  end.

(** An analyser refreshed at time 1000 whose cache and live level were 0
    then, and whose live level is 57.6 now. *)
Definition throttled_analyser : AudioAnalyzer.t :=
  AudioAnalyzer.set_currentDBA
    (AudioAnalyzer.set_display AudioAnalyzer.constructor (fin 0) (fin 1000))
    (fin 57.6).

(** [Math.sqrt] and [Math.log10] to a few digits, exact at 0: one
    implementation of [MathLib], by integer square root and binary
    logarithm. *)
Definition coarse_sqrt (x : number) : number :=
  match x with
  | NaN | NegInf => NaN
  | PosInf => PosInf
  | Fin q =>
      if Qeq_bool q 0 then Fin 0
      else if Qltb q 0 then NaN
      else Fin (inject_Z (Z.sqrt (Qceiling (q * 1000000000000))) / 1000000)
  end.

Definition coarse_log10 (x : number) : number :=
  match x with
  | NaN | NegInf => NaN
  | PosInf => PosInf
  | Fin q =>
      if Qeq_bool q 0 then NegInf
      else if Qltb q 0 then NaN
      else Fin (inject_Z (Z.log2 (Qnum q) - Z.log2 (Zpos (Qden q))) * 0.30103)
  end.

Definition coarse_math : MathLib := {|
  Math_sqrt := coarse_sqrt;
  Math_log10 := coarse_log10
|}.

(** An analyser on which [setup] has run and whose level lies in [0, 120]:
    every node and array is there, the sample array is not empty and holds
    finite samples. *)
Definition analysing (a : AudioAnalyzer.t) : Prop :=
  AudioAnalyzer.analyser a <> None
  /\ AudioAnalyzer.dataArray a <> None
  /\ AudioAnalyzer.dbaAnalyser a <> None
  /\ (exists buf, AudioAnalyzer.dbaDataArray a = Some buf
                  /\ buf <> []
                  /\ Forall (fun x => is_finite x = true) buf)
  /\ (exists c, den (AudioAnalyzer.currentDBA a) c /\ 0 <= c /\ c <= 120).

(** A frame whose A-weighted samples are all finite. *)
Definition finite_frame (env : AudioAnalyzer.Frame) : Prop :=
  Forall (fun x => is_finite x = true) (AudioAnalyzer.floatTimeDomainData env).

(** The sample array as [calculateDBA] reads it once the frame is copied
    in. *)
Definition samples_read (a : AudioAnalyzer.t) (env : AudioAnalyzer.Frame)
  : list number :=
  match AudioAnalyzer.dbaDataArray a with
  | Some buf => copy_into (AudioAnalyzer.floatTimeDomainData env) buf
  | None => []
  end.

(** An integer between 0 and 120. *)
Definition level_reading (r : number) : Prop :=
  exists z : Z, r = Fin (inject_Z z) /\ (0 <= z <= 120)%Z.

(** [calculateDBA] called once per frame, oldest frame first: the analyser
    at the end and the values returned. *)
Fixpoint poll `{MathLib} (a : AudioAnalyzer.t) (frames : list AudioAnalyzer.Frame)
  : completion (AudioAnalyzer.t * list number) :=
  match frames with
  | [] => Return (a, [])
  | env :: rest =>
      match AudioAnalyzer.calculateDBA a env with
      | Throw e => Throw e
      | Return (a1, r) =>
          match poll a1 rest with
          | Throw e => Throw e
          | Return (a2, rs) => Return (a2, r :: rs)
          end
      end
  end.

(** A frame of silence: 2048 samples, all 0. *)
Definition silent_frame : AudioAnalyzer.Frame := {|
  AudioAnalyzer.byteFrequencyData := repeat x00 1024;
  AudioAnalyzer.byteTimeDomainData := repeat x80 2048;
  AudioAnalyzer.floatTimeDomainData := repeat (fin 0) 2048
|}.

(** A new analyser set up on a 48 kHz stream. *)
Definition fresh_analyser : AudioAnalyzer.t :=
  AudioAnalyzer.setup AudioAnalyzer.constructor (fin 48000).

(** An analyser whose nodes and arrays are all there, as [setup] leaves
    them. *)
Definition initialized (a : AudioAnalyzer.t) : Prop :=
  AudioAnalyzer.analyser a <> None
  /\ AudioAnalyzer.dataArray a <> None
  /\ AudioAnalyzer.dbaAnalyser a <> None
  /\ AudioAnalyzer.dbaDataArray a <> None.

(** *** The layout of the overlay over the rationals

    The quantities [draw] computes for a surface of [W] by [H] pixels, as
    the specification writes them. *)
Module Layout.

Definition isPortrait (W H : Q) : bool := Qltb W H.

Definition baseWidth (portrait : bool) : Q := if portrait then 720 else 1920.

Definition scale_of (W : Q) (portrait : bool) : Q :=
  Qmax 0.5 (W / baseWidth portrait).

Definition fontSize_of (W : Q) (portrait : bool) : Q :=
  Qmax 14 (22 * scale_of W portrait).

Definition padding_of (W : Q) (portrait : bool) : Q :=
  Qmax 20 (30 * scale_of W portrait).

Definition scale (W H : Q) : Q := scale_of W (isPortrait W H).
Definition fontSize (W H : Q) : Q := fontSize_of W (isPortrait W H).
Definition padding (W H : Q) : Q := padding_of W (isPortrait W H).

Definition dbaBoxWidth (W H : Q) : Q :=
  (if isPortrait W H then 120 else 160) * scale W H.

(** The left edge of the dBA box. *)
Definition dbaX (W H : Q) : Q := W - dbaBoxWidth W H - padding W H.

Definition infoBoxWidth (W H : Q) : Q :=
  if isPortrait W H
  then Qmin (200 * scale W H) (W - dbaBoxWidth W H - padding W H * 3)
  else 280 * scale W H.

Definition infoBoxHeight (W H : Q) : Q :=
  (if isPortrait W H then 50 else 70) * scale W H.

Definition recWidth (W H : Q) : Q :=
  (if isPortrait W H then 60 else 90) * scale W H.

Definition recHeight (W H : Q) : Q :=
  (if isPortrait W H then 24 else 32) * scale W H.

Definition recX (W H : Q) : Q :=
  padding W H + infoBoxWidth W H + 10 * scale W H.

Definition recY (W H : Q) : Q :=
  padding W H + (infoBoxHeight W H - recHeight W H) / 2.

(** The badge fits between the info box and the dBA box. *)
Definition badge_fits (W H : Q) : bool :=
  Qltb (recX W H + recWidth W H) (dbaX W H - 5 * scale W H).

End Layout.

(** *** Calls on the canvas *)

(** The method returns on every world: no call in it throws. *)
Definition returns {A : Type} (m : CanvasOverlay.M A) : Prop :=
  forall w, exists w' a, m w = (w', Return a).

(** The world with one more call received by the context. *)
Definition received (w : CanvasOverlay.World) (o : Canvas.op) : CanvasOverlay.World :=
  {| CanvasOverlay.this := CanvasOverlay.this w;
     CanvasOverlay.ctx :=
       {| Canvas.font := Canvas.font (CanvasOverlay.ctx w);
          Canvas.ops := Canvas.ops (CanvasOverlay.ctx w) ++ [o] |} |}.

(** The arguments of the [fillText] calls among [l], in order. *)
Fixpoint texts_drawn (l : list Canvas.op) : list Canvas.text :=
  match l with
  | [] => []
  | Canvas.FillText t _ _ :: rest => t :: texts_drawn rest
  | _ :: rest => texts_drawn rest
  end.



(** A page whose text is 0.6 font sizes wide per character, at a fixed
    time. *)
Definition sample_env : Canvas.Env := {|
  Canvas.measureTextWidth :=
    fun f s => (Canvas.px f * fin 0.6 * of_nat (String.length s))%js;
  Canvas.dateStr := "14:05:09 02/11/2026"
|}.

(** The numbers [draw] passes to its steps on a surface of [W] by [H]
    pixels, and the box [drawInfoBox] stores for the recording badge. *)
Module Drawn.

Definition isPortrait (W H : Q) : bool := (Fin H > Fin W)%js.

Definition scales (W H : Q) : CanvasOverlay.Scale.t :=
  CanvasOverlay.calculateScale (Fin W) (Fin H) (isPortrait W H).

Definition scale (W H : Q) : number := CanvasOverlay.Scale.scale (scales W H).
Definition fontSize (W H : Q) : number := CanvasOverlay.Scale.fontSize (scales W H).
Definition padding (W H : Q) : number := CanvasOverlay.Scale.padding (scales W H).

Definition dbaBoxWidth (W H : Q) : number :=
  if isPortrait W H then (fin 120 * scale W H)%js else (fin 160 * scale W H)%js.

(** The [x] of the rounded rectangle [drawDBABox] draws. *)
Definition dbaX (W H : Q) : number := (Fin W - dbaBoxWidth W H - padding W H)%js.

Definition infoBox (W H : Q) : CanvasOverlay.Box.t := {|
  CanvasOverlay.Box.x := padding W H;
  CanvasOverlay.Box.y := padding W H;
  CanvasOverlay.Box.width :=
    if isPortrait W H
    then Math_min (fin 200 * scale W H)%js
                  (Fin W - dbaBoxWidth W H - padding W H * fin 3)%js
    else (fin 280 * scale W H)%js;
  CanvasOverlay.Box.height :=
    if isPortrait W H then (fin 50 * scale W H)%js else (fin 70 * scale W H)%js
|}.

Definition recWidth (W H : Q) : number :=
  if isPortrait W H then (fin 60 * scale W H)%js else (fin 90 * scale W H)%js.

Definition recHeight (W H : Q) : number :=
  if isPortrait W H then (fin 24 * scale W H)%js else (fin 32 * scale W H)%js.

Definition recX (W H : Q) : number :=
  (CanvasOverlay.Box.x (infoBox W H) + CanvasOverlay.Box.width (infoBox W H)
   + fin 10 * scale W H)%js.

Definition recY (W H : Q) : number :=
  (CanvasOverlay.Box.y (infoBox W H)
   + (CanvasOverlay.Box.height (infoBox W H) - recHeight W H) / fin 2)%js.

(** The calls that draw the badge on this surface. *)
Definition badge (W H : Q) : CanvasOverlay.M unit :=
  CanvasOverlay.badge (recX W H) (recY W H) (recWidth W H) (recHeight W H)
                      (scale W H) (fontSize W H).

End Drawn.

(** The method returns on every world, and the [fillText] calls it makes
    are those of [texts], in order. *)
Definition draws (m : CanvasOverlay.M unit) (texts : list Canvas.text) : Prop :=
  forall w,
  exists w' drawn,
    m w = (w', Return tt)
    /\ Canvas.ops (CanvasOverlay.ctx w') = Canvas.ops (CanvasOverlay.ctx w) ++ drawn
    /\ texts_drawn drawn = texts.

(** The method leaves the fields of the overlay object as they are. *)
Definition keeps_this {A : Type} (m : CanvasOverlay.M A) : Prop :=
  forall w, CanvasOverlay.this (fst (m w)) = CanvasOverlay.this w.

(** A new overlay in front of an empty canvas. *)
Definition blank_world : CanvasOverlay.World :=
  {| CanvasOverlay.this := CanvasOverlay.constructor;
     CanvasOverlay.ctx := Canvas.blank |}.

(** A position in Ho Chi Minh City. *)
Definition sample_position : GeolocationManager.Position :=
  {| GeolocationManager.coords :=
       {| GeolocationManager.latitude := fin 10.5;
          GeolocationManager.longitude := fin 106.75 |} |}.

(** A snapshot taken while recording at 57.6 dBA, with the coordinates
    [lat] and [lng] and without spectrum or waveform. *)
Definition recording_data (lat lng : option string) : CanvasOverlay.OverlayData := {|
  CanvasOverlay.currentDBA := fin 57.6;
  CanvasOverlay.dbaColor := "#00ff88";
  CanvasOverlay.level := {| LevelInfo.text := "Yên tĩnh";
                            LevelInfo.class := "level-quiet";
                            LevelInfo.color := "#00ff88" |};
  CanvasOverlay.latitude := lat;
  CanvasOverlay.longitude := lng;
  CanvasOverlay.isRecording := true;
  CanvasOverlay.frequencyData := None;
  CanvasOverlay.timeData := None
|}.

(** The texts [draw] leaves on an empty canvas. *)
Definition texts_of_draw (env : Canvas.Env) (W H : Q)
    (data : CanvasOverlay.OverlayData) : list Canvas.text :=
  texts_drawn
    (Canvas.ops (CanvasOverlay.ctx
       (fst (CanvasOverlay.draw env (Fin W) (Fin H) data blank_world)))).

(** A snapshot whose spectrum is an empty array. *)
Definition empty_spectrum_data : CanvasOverlay.OverlayData := {|
  CanvasOverlay.currentDBA := fin 57.6;
  CanvasOverlay.dbaColor := "#00ff88";
  CanvasOverlay.level := {| LevelInfo.text := "Yên tĩnh";
                            LevelInfo.class := "level-quiet";
                            LevelInfo.color := "#00ff88" |};
  CanvasOverlay.latitude := None;
  CanvasOverlay.longitude := None;
  CanvasOverlay.isRecording := false;
  CanvasOverlay.frequencyData := Some [];
  CanvasOverlay.timeData := Some [x80]
|}.


(* ================================================================== *)
(** * The analyser over its whole life *)

Module Lifecycle.

(** A method call on an [AudioAnalyzer], with what the page supplies to
    it. *)
Inductive call : Type :=
| Setup (rate : number)
| CalculateDBA (env : AudioAnalyzer.Frame)
| GetDisplayDBA (now : number)
| GetFrequencyData (env : AudioAnalyzer.Frame)
| GetTimeDomainData (env : AudioAnalyzer.Frame)
| Destroy.

(** The analyser after the call, or the exception the call throws. *)
Definition perform `{MathLib} (a : AudioAnalyzer.t) (c : call)
  : completion AudioAnalyzer.t :=
  match c with
  | Setup rate => Return (AudioAnalyzer.setup a rate)
  | CalculateDBA env =>
      match AudioAnalyzer.calculateDBA a env with
      | Return (a', _) => Return a'
      | Throw e => Throw e
      end
  | GetDisplayDBA now => Return (fst (AudioAnalyzer.getDisplayDBA a now))
  | GetFrequencyData env =>
      match AudioAnalyzer.getFrequencyData a env with
      | Return (a', _) => Return a'
      | Throw e => Throw e
      end
  | GetTimeDomainData env =>
      match AudioAnalyzer.getTimeDomainData a env with
      | Return (a', _) => Return a'
      | Throw e => Throw e
      end
  | Destroy => Return (AudioAnalyzer.destroy a)
  end.

(** The calls of [calls] one after the other, oldest first. *)
Fixpoint run `{MathLib} (a : AudioAnalyzer.t) (calls : list call)
  : completion AudioAnalyzer.t :=
  match calls with
  | [] => Return a
  | c :: rest =>
      match perform a c with
      | Return a' => run a' rest
      | Throw e => Throw e
      end
  end.

(** The audio graph delivers finite samples to [calculateDBA]. *)
Definition admissible (c : call) : Prop :=
  match c with
  | CalculateDBA env => finite_frame env
  | _ => True
  end.

(** What every call keeps: the level is finite and in [0, 120], the cached
    display value is an integer in that range, a live analyser has its two
    byte arrays of 1024 and 2048 entries and its A-weighted analyser, the
    A-weighted analyser has its 2048 finite samples, and an analyser that
    is not live has no byte arrays. *)
Definition sound (a : AudioAnalyzer.t) : Prop :=
  (exists c, den (AudioAnalyzer.currentDBA a) c /\ 0 <= c /\ c <= 120)
  /\ level_reading (AudioAnalyzer.displayDBA a)
  /\ (AudioAnalyzer.analyser a <> None ->
      AudioAnalyzer.dbaAnalyser a <> None
      /\ exists data time,
           AudioAnalyzer.dataArray a = Some data
           /\ AudioAnalyzer.timeDataArray a = Some time
           /\ List.length data = 1024%nat
           /\ List.length time = 2048%nat)
  /\ (AudioAnalyzer.dbaAnalyser a <> None ->
      exists buf,
        AudioAnalyzer.dbaDataArray a = Some buf
        /\ List.length buf = 2048%nat
        /\ Forall (fun x => is_finite x = true) buf)
  /\ (AudioAnalyzer.analyser a = None ->
      AudioAnalyzer.dataArray a = None /\ AudioAnalyzer.timeDataArray a = None).

End Lifecycle.

(* ================================================================== *)
(** * app.js *)

Module App.

(** [getOverlayData()]: the fields of the snapshot are evaluated in the
    order of the object literal, the two buffer reads last; [env] is what
    the audio graph holds during the call. *)
Definition getOverlayData (audioAnalyzer : AudioAnalyzer.t)
    (geolocation : GeolocationManager.t) (isRecording : bool)
    (env : AudioAnalyzer.Frame)
  : completion (AudioAnalyzer.t * CanvasOverlay.OverlayData) :=
  let coords := GeolocationManager.getCoordinates geolocation in
  let currentDBA := AudioAnalyzer.getCurrentDBA audioAnalyzer in
  match AudioAnalyzer.getVisualizerColor audioAnalyzer with
  | Throw e => Throw e
  | Return dbaColor =>
      match AudioAnalyzer.getDBALevel (AudioAnalyzer.getCurrentDBA audioAnalyzer) with
      | Throw e => Throw e
      | Return level =>
          match AudioAnalyzer.getFrequencyData audioAnalyzer env with
          | Throw e => Throw e
          | Return (audioAnalyzer, frequencyData) =>
              match AudioAnalyzer.getTimeDomainData audioAnalyzer env with
              | Throw e => Throw e
              | Return (audioAnalyzer, timeData) =>
                  Return (audioAnalyzer,
                          {| CanvasOverlay.currentDBA := currentDBA;
                             CanvasOverlay.dbaColor := dbaColor;
                             CanvasOverlay.level := level;
                             CanvasOverlay.latitude := fst coords;
                             CanvasOverlay.longitude := snd coords;
                             CanvasOverlay.isRecording := isRecording;
                             CanvasOverlay.frequencyData := frequencyData;
                             CanvasOverlay.timeData := timeData |})
              end
          end
      end
  end.

(** The assignment of [switchCamera]:
    [facingMode === 'environment' ? 'user' : 'environment']. *)
Definition flipFacingMode (facingMode : string) : string :=
  if String.eqb facingMode "environment" then "user" else "environment".

(** [switchCamera()], [started] telling whether [startMedia] succeeded: the
    new facing mode and the toast that is shown. *)
Definition switchCamera (facingMode : string) (started : bool) : string * string :=
  let facingMode := flipFacingMode facingMode in
  if started then (facingMode, "Đã đổi camera")
  else (flipFacingMode facingMode, "Không thể đổi camera").

End App.

(* ================================================================== *)
(** * modules/GeolocationManager.js: requests and retries *)

Module GeolocationConfig.
Record t : Type := {
  highAccuracyTimeout : number;
  lowAccuracyTimeout : number;
  maximumAge : number;
  watchMaximumAge : number;
  retryDelay : number;
  maxRetries : nat
}.
End GeolocationConfig.

Definition GEOLOCATION_CONFIG : GeolocationConfig.t := {|
  GeolocationConfig.highAccuracyTimeout := fin 15000;
  GeolocationConfig.lowAccuracyTimeout := fin 30000;
  GeolocationConfig.maximumAge := fin 60000;
  GeolocationConfig.watchMaximumAge := fin 10000;
  GeolocationConfig.retryDelay := fin 30000;
  GeolocationConfig.maxRetries := 2
|}.

(** [MESSAGES.geolocation] *)
Module GeoMessages.
Definition loading : string := "Đang lấy vị trí...".
Definition loadingNetwork : string := "Đang lấy vị trí (mạng)...".
Definition retrying : string := "Đang thử lại...".
Definition permissionDenied : string := "Quyền vị trí bị từ chối".
Definition unavailable : string := "Vị trí không khả dụng".
Definition timeout : string := "Hết thời gian chờ".
Definition notSupported : string := "GPS không khả dụng".
Definition error : string := "Không lấy được vị trí".
End GeoMessages.

Module Geolocating.

(** What [navigator.geolocation.getCurrentPosition] reports back: a
    position, or an error with its code (1 permission denied, 2 position
    unavailable, 3 timeout). *)
Inductive Outcome : Type :=
| Found (position : GeolocationManager.Position)
| Failed (code : nat).

(** The options object of a request. *)
Record PositionOptions : Type := {
  enableHighAccuracy : bool;
  timeout : number;
  maximumAge : number
}.

(** A manager together with what it has asked of the browser: the
    [getCurrentPosition] requests, oldest first, and the delays of the
    timers set with [setTimeout]. *)
Record Run : Type := {
  manager : GeolocationManager.t;
  requests : list PositionOptions;
  timers : list number
}.

Definition notify (r : Run) (message : string) : Run :=
  {| manager :=
       {| GeolocationManager.lat := GeolocationManager.lat (manager r);
          GeolocationManager.lng := GeolocationManager.lng (manager r);
          GeolocationManager.watching := GeolocationManager.watching (manager r);
          GeolocationManager.notified :=
            GeolocationManager.notified (manager r) ++ [message] |};
     requests := requests r;
     timers := timers r |}.

(** The options [tryGetPosition] passes. *)
Definition options (highAccuracy : bool) : PositionOptions :=
  {| enableHighAccuracy := highAccuracy;
     timeout := if highAccuracy
                then GeolocationConfig.highAccuracyTimeout GEOLOCATION_CONFIG
                else GeolocationConfig.lowAccuracyTimeout GEOLOCATION_CONFIG;
     maximumAge := GeolocationConfig.maximumAge GEOLOCATION_CONFIG |}.

Definition request (r : Run) (o : PositionOptions) : Run :=
  {| manager := manager r; requests := requests r ++ [o]; timers := timers r |}.

(** [handleFinalError(error)]: the message of the code, and the timer that
    will start over if there is still no latitude. *)
Definition handleFinalError (r : Run) (code : nat) : Run :=
  let message :=
    match code with
    | 1%nat => GeoMessages.permissionDenied
    | 2%nat => GeoMessages.unavailable
    | 3%nat => GeoMessages.timeout
    | _ => GeoMessages.error
    end in
  let r := notify r message in
  {| manager := manager r; requests := requests r;
     timers := timers r ++ [GeolocationConfig.retryDelay GEOLOCATION_CONFIG] |}.

(** [handleError(error, highAccuracy, retryCount)], [retry] being the call
    of [tryGetPosition] that receives the next outcome. *)
Definition handleError (retry : Run -> bool -> nat -> option Run)
    (r : Run) (code : nat) (highAccuracy : bool) (retryCount : nat)
  : option Run :=
  if Nat.eqb code 2 && highAccuracy
     && Nat.ltb retryCount (GeolocationConfig.maxRetries GEOLOCATION_CONFIG)
  then retry (notify r GeoMessages.loadingNetwork) false (retryCount + 1)%nat
  else if Nat.eqb code 3
          && Nat.ltb retryCount (GeolocationConfig.maxRetries GEOLOCATION_CONFIG)
  then retry (notify r GeoMessages.retrying) highAccuracy (retryCount + 1)%nat
  else Some (handleFinalError r code).

(** [handleSuccess(position)] inside a run. *)
Definition handleSuccess (r : Run) (position : GeolocationManager.Position)
  : option Run :=
  match GeolocationManager.handleSuccess (manager r) position with
  | Some g => Some {| manager := g; requests := requests r; timers := timers r |}
  | None => None
  end.

(** [tryGetPosition(highAccuracy, retryCount)], the browser answering the
    requests with [outcomes] in turn; with no outcome left the request stays
    pending.  [None] where [toFixed] is. *)
Fixpoint tryGetPosition (outcomes : list Outcome) (r : Run)
    (highAccuracy : bool) (retryCount : nat) : option Run :=
  let r := request r (options highAccuracy) in
  match outcomes with
  | [] => Some r
  | Found position :: _ => handleSuccess r position
  | Failed code :: rest =>
      handleError (tryGetPosition rest) r code highAccuracy retryCount
  end.

(** [start()], [supported] telling whether [navigator] has [geolocation]. *)
Definition start (supported : bool) (outcomes : list Outcome) (r : Run)
  : option Run :=
  if negb supported then Some (notify r GeoMessages.notSupported)
  else tryGetPosition outcomes (notify r GeoMessages.loading) true 0%nat.

(** A manager that has asked nothing yet. *)
Definition fresh (g : GeolocationManager.t) : Run :=
  {| manager := g; requests := []; timers := [] |}.

End Geolocating.

(* ================================================================== *)
(** * utils/helpers.js: file names and the [roundRect] polyfill *)

Module Helpers.

(** [s.replace(/[-:T]/g, '')] *)
Fixpoint strip_date_marks (s : string) : string :=
  match s with
  | EmptyString => EmptyString
  | String c rest =>
      if Ascii.eqb c "-" || Ascii.eqb c ":" || Ascii.eqb c "T"
      then strip_date_marks rest
      else String c (strip_date_marks rest)
  end.

(** [s.replace(/\./g, '-')] *)
Fixpoint dots_to_dashes (s : string) : string :=
  match s with
  | EmptyString => EmptyString
  | String c rest =>
      String (if Ascii.eqb c "." then "-"%char else c) (dots_to_dashes rest)
  end.

(** [generateFilename(prefix, extension, latitude, longitude)], [iso] being
    the text of [new Date().toISOString()]. *)
Definition generateFilename (iso : string) (prefix extension : string)
    (latitude longitude : option string) : string :=
  let dateStr := strip_date_marks (substring 0 19 iso) in
  let locationStr :=
    if CanvasOverlay.present latitude && CanvasOverlay.present longitude
    then dots_to_dashes ("_" ++ CanvasOverlay.str_of latitude
                         ++ "_" ++ CanvasOverlay.str_of longitude)%string
    else "" in
  (prefix ++ "_" ++ dateStr ++ locationStr ++ "." ++ extension)%string.

(** The path calls of the polyfill. *)
Inductive path_op : Type :=
| PMoveTo (x y : number)
| PArcTo (x1 y1 x2 y2 radius : number)
| PClosePath.

(** The radius after the two assignments
    [if (w < 2 * r) r = w / 2; if (h < 2 * r) r = h / 2;]. *)
Definition polyfill_radius (w h r : number) : number :=
  let r := if (w < fin 2 * r)%js then (w / fin 2)%js else r in
  let r := if (h < fin 2 * r)%js then (h / fin 2)%js else r in
  r.

(** The [roundRect] that [installRoundRectPolyfill] installs. *)
Definition roundRect_polyfill (x y w h r : number) : list path_op :=
  let r := polyfill_radius w h r in
  [PMoveTo (x + r)%js y;
   PArcTo (x + w)%js y (x + w)%js (y + h)%js r;
   PArcTo (x + w)%js (y + h)%js x (y + h)%js r;
   PArcTo x (y + h)%js x y r;
   PArcTo x y (x + w)%js y r;
   PClosePath].

(** What the browser's [arcTo] throws: IndexSizeError for a negative radius
    once its arguments are finite; [moveTo] and [closePath] never throw. *)
Definition path_op_exception (o : path_op) : option string :=
  match o with
  | PArcTo x1 y1 x2 y2 radius =>
      if is_finite x1 && is_finite y1 && is_finite x2 && is_finite y2
         && is_finite radius && Canvas.negative radius
      then Some IndexSizeError else None
  | _ => None
  end.

(** The number of characters [c] in [s]. *)
Fixpoint count_char (c : ascii) (s : string) : nat :=
  match s with
  | EmptyString => 0
  | String d rest => (if Ascii.eqb d c then 1 else 0) + count_char c rest
  end.

End Helpers.

(* ================================================================== *)
(** * modules/MediaCapture.js: recording *)

Module RecordingConfig.
Record t : Type := {
  frameRate : N;
  timeslice : N;
  iosMimeTypes : list string;
  defaultMimeTypes : list string;
  defaultWidth : N;
  defaultHeight : N
}.
End RecordingConfig.

Definition RECORDING_CONFIG : RecordingConfig.t := {|
  RecordingConfig.frameRate := 30;
  RecordingConfig.timeslice := 1000;
  RecordingConfig.iosMimeTypes :=
    ["video/mp4;codecs=avc1.42E01E,mp4a.40.2";
     "video/mp4";
     "video/webm;codecs=vp9,opus";
     "video/webm;codecs=vp8,opus";
     "video/webm";
     ""];
  RecordingConfig.defaultMimeTypes :=
    ["video/webm;codecs=vp9,opus";
     "video/webm;codecs=vp8,opus";
     "video/webm";
     "video/mp4;codecs=avc1.42E01E,mp4a.40.2";
     "video/mp4";
     ""];
  RecordingConfig.defaultWidth := 1280;
  RecordingConfig.defaultHeight := 720
|}.

Module RecordingMessages.
Definition started : string := "Đang quay video...".
Definition saved : string := "Đã lưu video".
Definition noData : string := "Không có dữ liệu video".
Definition empty : string := "Video rỗng (0 bytes)".
Definition error : string := "Không thể bắt đầu quay video".
End RecordingMessages.

Module MediaCapture.

(** [s.includes(sub)] *)
Fixpoint includes (s sub : string) : bool :=
  if String.prefix sub s then true
  else match s with
       | EmptyString => false
       | String _ rest => includes rest sub
       end.

(** [isIOSDevice()] of utils/helpers.js, a function of
    [navigator.userAgent], [navigator.platform] and
    [navigator.maxTouchPoints]. *)
Record Navigator : Type := {
  userAgent : string;
  platform : string;
  maxTouchPoints : N
}.

Definition isIOSDevice (navigator : Navigator) : bool :=
  (includes (userAgent navigator) "iPad"
   || includes (userAgent navigator) "iPhone"
   || includes (userAgent navigator) "iPod")
  || (String.eqb (platform navigator) "MacIntel"
      && (1 <? maxTouchPoints navigator)%N).

(** The browser as the recorder sees it; [isTypeSupported] is
    [MediaRecorder.isTypeSupported]. *)
Record Browser : Type := {
  navigator : Navigator;
  isTypeSupported : string -> bool
}.

(** The [for (const type of mimeTypes)] loop of [selectMimeType] with the
    [return ''] that follows it. *)
Fixpoint selectMimeType_loop (browser : Browser) (mimeTypes : list string) : string :=
  match mimeTypes with
  | [] => ""
  | type :: rest =>
      if String.eqb type "" || isTypeSupported browser type then type
      else selectMimeType_loop browser rest
  end.

Definition mimeTypes_of (browser : Browser) : list string :=
  if isIOSDevice (navigator browser)
  then RecordingConfig.iosMimeTypes RECORDING_CONFIG
  else RecordingConfig.defaultMimeTypes RECORDING_CONFIG.

Definition selectMimeType (browser : Browser) : string :=
  selectMimeType_loop browser (mimeTypes_of browser).

Record Blob : Type := { size : N; type : string }.

(** The fields of a [MediaCapture] that recording reads and writes. *)
Record t : Type := {
  recordedChunks : list Blob;
  isRecording : bool;
  recordingMimeType : string
}.

Definition constructor : t :=
  {| recordedChunks := []; isRecording := false; recordingMimeType := "" |}.

(** What [startRecording] has decided when it constructs the recorder. *)
Record Setup : Type := {
  width : N;
  height : N;
  mimeType : string;
  options : option string
}.

Definition NotSupportedError : string := "NotSupportedError".

(** [a || b] on the non-negative integers of [videoWidth], [videoHeight]. *)
Definition or_default (a b : N) : N := if (a =? 0)%N then b else a.

(** [startRecording] from the dimensions to [new MediaRecorder]: the record
    canvas gets [width] by [height]; the constructor throws
    NotSupportedError for a [mimeType] option the browser does not
    support.  A throw ends in the [catch] block of [startRecording]. *)
Definition startRecording_setup (browser : Browser) (camera_videoWidth camera_videoHeight : N)
  : completion Setup :=
  let videoWidth := or_default camera_videoWidth (RecordingConfig.defaultWidth RECORDING_CONFIG) in
  let videoHeight := or_default camera_videoHeight (RecordingConfig.defaultHeight RECORDING_CONFIG) in
  if (videoWidth =? 0)%N || (videoHeight =? 0)%N
  then Throw "Video dimensions not available"
  else
    let mimeType := selectMimeType browser in
    let options := if String.eqb mimeType "" then None else Some mimeType in
    match options with
    | Some m =>
        if isTypeSupported browser m
        then Return {| width := videoWidth; height := videoHeight;
                       mimeType := mimeType; options := options |}
        else Throw NotSupportedError
    | None => Return {| width := videoWidth; height := videoHeight;
                        mimeType := mimeType; options := options |}
    end.

(** The state [startRecording] leaves when nothing throws:
    [recordedChunks = []], [recordingMimeType = mimeType],
    [isRecording = true]. *)
Definition started (s : Setup) : t :=
  {| recordedChunks := []; isRecording := true; recordingMimeType := mimeType s |}.

(** [mediaRecorder.ondataavailable] *)
Definition ondataavailable (this : t) (data : Blob) : t :=
  if (0 <? size data)%N
  then {| recordedChunks := recordedChunks this ++ [data];
          isRecording := isRecording this;
          recordingMimeType := recordingMimeType this |}
  else this.

(** [stopRecording], as far as the fields go. *)
Definition stopRecording (this : t) : t :=
  {| recordedChunks := recordedChunks this;
     isRecording := false;
     recordingMimeType := recordingMimeType this |}.

(** What [saveRecording] does to the outside: calls of [this.toast] and of
    [downloadBlob]. *)
Inductive effect : Type :=
| Toast (message kind : string)
| Download (blob : Blob) (filename : string).

(** The size of [new Blob(chunks)]: the sum of the sizes of its parts. *)
Definition blob_size (chunks : list Blob) : N :=
  fold_right (fun c acc => (size c + acc)%N) 0%N chunks.

(** [Math.round(size / 1024)] on a byte count. *)
Definition kilobytes (bytes : N) : N := ((bytes + 512) / 1024)%N.

Definition string_of_N (n : N) : string := NilEmpty.string_of_uint (N.to_uint n).

Definition isMP4 (this : t) : bool :=
  negb (String.eqb (recordingMimeType this) "")
  && includes (recordingMimeType this) "mp4".

(** [saveRecording(overlayData)]; [iso] is the text of
    [new Date().toISOString()] inside [generateFilename]. *)
Definition saveRecording (this : t) (latitude longitude : option string) (iso : string)
  : list effect :=
  if (List.length (recordedChunks this) =? 0)%nat
  then [Toast RecordingMessages.noData "error"]
  else
    let blobType := if isMP4 this then "video/mp4" else "video/webm" in
    let extension := if isMP4 this then "mp4" else "webm" in
    let blob := {| size := blob_size (recordedChunks this); type := blobType |} in
    if (size blob =? 0)%N
    then [Toast RecordingMessages.empty "error"]
    else
      let filename := Helpers.generateFilename iso "VID" extension latitude longitude in
      [Download blob filename;
       Toast (RecordingMessages.saved ++ ": " ++ filename ++ " ("
              ++ string_of_N (kilobytes (size blob)) ++ " KB)")%string "success"].

End MediaCapture.

(* ================================================================== *)
(** * The web visualizer: [Visualizer] *)

Module Visualizer.
Import Canvas CanvasOverlay.

(** [VISUALIZER_CONFIG.colors] *)
Definition background : string := "rgba(0, 0, 0, 0.3)".

(** One turn of the loop of [drawWaveform]; it returns the new [x]. *)
Definition drawPoint (timeDataArray : list byte) (height sliceWidth : number)
    (i : nat) (x : number) : M number :=
  let v := (byte_at timeDataArray (of_nat i) / fin 128)%js in
  let y := (v * height / fin 2)%js in
  (if Nat.eqb i 0 then call (MoveTo x y) else call (LineTo x y)) ;;
  ret (x + sliceWidth)%js.

(** [drawWaveform(timeDataArray, width, height, color)] *)
Definition drawWaveform (timeDataArray : list byte) (width height : number)
    (color : string) : M unit :=
  call (LineWidth (fin 2)) ;;
  call (StrokeStyle color) ;;
  call BeginPath ;;
  let sliceWidth := (width / of_nat (List.length timeDataArray))%js in
  let* _ := for_fold 0 (List.length timeDataArray) (fin 0)
              (drawPoint timeDataArray height sliceWidth) in
  call (LineTo width (height / fin 2)%js) ;;
  call Stroke.

(** One turn of the loop of [drawFrequencyBars]. *)
Definition drawFrequencyBar (dataArray : list byte) (height barWidth barSpacing : number)
    (i : nat) : M unit :=
  let barHeight :=
    (byte_at dataArray (of_nat i * fin 4) / fin 255 * height * fin 0.8)%js in
  let barX := (of_nat i * (barWidth + barSpacing))%js in
  let* gradient := createLinearGradient (fin 0) height (fin 0) (height - barHeight)%js in
  let* gradient := addColorStop gradient (fin 0) "rgba(0, 255, 136, 0.8)" in
  let* gradient := addColorStop gradient (fin 0.5) "rgba(255, 255, 0, 0.8)" in
  let* gradient := addColorStop gradient (fin 1) "rgba(255, 68, 68, 0.8)" in
  call (FillStyle (GradientStyle gradient)) ;;
  call (FillRect barX (height - barHeight)%js barWidth barHeight).

(** [drawFrequencyBars(dataArray, width, height)] *)
Definition drawFrequencyBars (dataArray : list byte) (width height : number) : M unit :=
  let barCount := VisualizerConfig.barCount VISUALIZER_CONFIG in
  let barWidth := (width / of_nat barCount)%js in
  let barSpacing := VisualizerConfig.barSpacing VISUALIZER_CONFIG in
  for_range 0 barCount (drawFrequencyBar dataArray height barWidth barSpacing).

(** [draw(timeDataArray, dataArray, color)] on a canvas of [canvas_width]
    by [canvas_height] device pixels; a typed array is truthy, [null] is
    not. *)
Definition draw (canvas_width canvas_height devicePixelRatio : number)
    (timeDataArray dataArray : option (list byte)) (color : string) : M unit :=
  match timeDataArray, dataArray with
  | Some timeDataArray, Some dataArray =>
      let width := (canvas_width / devicePixelRatio)%js in
      let height := (canvas_height / devicePixelRatio)%js in
      call (FillStyle (Color (CssText background))) ;;
      call (FillRect (fin 0) (fin 0) width height) ;;
      drawWaveform timeDataArray width height color ;;
      drawFrequencyBars dataArray width height
  | _, _ => ret tt
  end.

(** The rectangles of the [fillRect] calls among [l], in order. *)
Fixpoint rects_drawn (l : list op) : list (number * number * number * number) :=
  match l with
  | [] => []
  | FillRect x y w h :: rest => (x, y, w, h) :: rects_drawn rest
  | _ :: rest => rects_drawn rest
  end.

(** The method throws [e] on every world. *)
Definition throws {A : Type} (m : M A) (e : string) : Prop :=
  forall w, exists w', m w = (w', Throw e).

End Visualizer.

(* ================================================================== *)
(** * app.js: the animation loop *)

Module Animation.

(** What one animation frame reads from the page: the audio graph and
    [Date.now()]. *)
Record Tick : Type := { audio : AudioAnalyzer.Frame; now : number }.

(** What one frame shows: the arguments of [ui.updateDBADisplay] and the
    drawing of the visualizer. *)
Record Shown : Type := {
  displayDBA : number;
  level : LevelInfo.t;
  visualizer : CanvasOverlay.M unit
}.

(** [animate()] up to its [requestAnimationFrame]; the visualizer's canvas
    is [canvas_width] by [canvas_height] device pixels. *)
Definition animate `{MathLib} (canvas_width canvas_height devicePixelRatio : number)
    (audioAnalyzer : AudioAnalyzer.t) (tick : Tick)
  : completion (AudioAnalyzer.t * Shown) :=
  match AudioAnalyzer.calculateDBA audioAnalyzer (audio tick) with
  | Throw e => Throw e
  | Return (audioAnalyzer, _) =>
      let (audioAnalyzer, displayDBA) :=
        AudioAnalyzer.getDisplayDBA audioAnalyzer (now tick) in
      match AudioAnalyzer.getDBALevel displayDBA with
      | Throw e => Throw e
      | Return level =>
          match AudioAnalyzer.getTimeDomainData audioAnalyzer (audio tick) with
          | Throw e => Throw e
          | Return (audioAnalyzer, timeDataArray) =>
              match AudioAnalyzer.getFrequencyData audioAnalyzer (audio tick) with
              | Throw e => Throw e
              | Return (audioAnalyzer, dataArray) =>
                  match AudioAnalyzer.getVisualizerColor audioAnalyzer with
                  | Throw e => Throw e
                  | Return color =>
                      Return (audioAnalyzer,
                              {| displayDBA := displayDBA;
                                 level := level;
                                 visualizer :=
                                   Visualizer.draw canvas_width canvas_height
                                     devicePixelRatio timeDataArray dataArray color |})
                  end
              end
          end
      end
  end.

(** The frames that follow one another while none throws: [animate] asks
    for the next frame in its last statement. *)
Fixpoint animation `{MathLib} (canvas_width canvas_height devicePixelRatio : number)
    (audioAnalyzer : AudioAnalyzer.t) (ticks : list Tick)
  : completion (AudioAnalyzer.t * list Shown) :=
  match ticks with
  | [] => Return (audioAnalyzer, [])
  | tick :: rest =>
      match animate canvas_width canvas_height devicePixelRatio audioAnalyzer tick with
      | Throw e => Throw e
      | Return (audioAnalyzer, shown) =>
          match animation canvas_width canvas_height devicePixelRatio
                  audioAnalyzer rest with
          | Throw e => Throw e
          | Return (audioAnalyzer, frames) => Return (audioAnalyzer, shown :: frames)
          end
      end
  end.

End Animation.

(* ================================================================== *)
(** * What the overlay leaves behind on the canvas *)

Module CanvasState.
Import Canvas CanvasOverlay.





End CanvasState.

(* ================================================================== *)
(** * app.js: the facing mode of the camera *)

Module Camera.

(** [CAMERA_CONFIG.defaultFacingMode] *)
Definition defaultFacingMode : string := "environment".

(** The facing mode after a series of [switchCamera] calls, each finished
    before the next starts; [outcomes] tells which of them got their
    stream. *)
Definition switches (outcomes : list bool) : string :=
  fold_left (fun facingMode started => fst (App.switchCamera facingMode started))
            outcomes defaultFacingMode.

End Camera.

(* ================================================================== *)
(** * Properties *)

(** ** Finite numbers and their rational values *)

Lemma Qltb_spec (a b : Q) : BoolSpec (a < b) (b <= a) (Qltb a b).
Proof.
  unfold Qltb. destruct (Qle_bool b a) eqn:E; constructor.
  - now apply Qle_bool_iff.
  - apply Qnot_le_lt. intro H. apply Qle_bool_iff in H. congruence.
Qed.

Lemma Qle_bool_spec (a b : Q) : BoolSpec (a <= b) (b < a) (Qle_bool a b).
Proof.
  destruct (Qle_bool a b) eqn:E; constructor.
  - now apply Qle_bool_iff.
  - apply Qnot_le_lt. intro H. apply Qle_bool_iff in H. congruence.
Qed.

Lemma Qeq_bool_spec (a b : Q) : BoolSpec (a == b) (~ a == b) (Qeq_bool a b).
Proof.
  destruct (Qeq_bool a b) eqn:E; constructor.
  - now apply Qeq_bool_iff.
  - intro H. apply Qeq_bool_iff in H. congruence.
Qed.

Lemma den_Fin (q : Q) : den (Fin q) q.
Proof. simpl. reflexivity. Qed.

Lemma den_fin (q : Q) : den (fin q) q.
Proof. simpl. apply Qred_correct. Qed.

Lemma den_eq (x : number) (a b : Q) : den x a -> a == b -> den x b.
Proof. destruct x; simpl; try tauto. intros H1 H2. now rewrite H1. Qed.

Lemma den_inv (x : number) (a : Q) : den x a -> exists p, x = Fin p /\ p == a.
Proof. destruct x; simpl; try tauto. eauto. Qed.

Lemma den_unique (x : number) (a b : Q) : den x a -> den x b -> a == b.
Proof. destruct x; simpl; try tauto. intros <- <-. reflexivity. Qed.

Lemma den_finite (x : number) (a : Q) : den x a -> is_finite x = true.
Proof. destruct x; simpl; tauto. Qed.

Lemma den_add (x y : number) (a b : Q) :
  den x a -> den y b -> den (x + y)%js (a + b).
Proof.
  intros (p & -> & Hp)%den_inv (r & -> & Hr)%den_inv.
  change (den (fin (p + r)) (a + b)).
  eapply den_eq; [apply den_fin | now rewrite Hp, Hr].
Qed.

Lemma den_neg (x : number) (a : Q) : den x a -> den (JS.neg x) (- a).
Proof.
  intros (p & -> & Hp)%den_inv.
  change (den (fin (- p)) (- a)).
  eapply den_eq; [apply den_fin | now rewrite Hp].
Qed.

Lemma den_sub (x y : number) (a b : Q) :
  den x a -> den y b -> den (x - y)%js (a - b).
Proof. intros Ha Hb. unfold JS.sub. apply den_add; [assumption | now apply den_neg]. Qed.

Lemma den_mul (x y : number) (a b : Q) :
  den x a -> den y b -> den (x * y)%js (a * b).
Proof.
  intros (p & -> & Hp)%den_inv (r & -> & Hr)%den_inv.
  change (den (fin (p * r)) (a * b)).
  eapply den_eq; [apply den_fin | now rewrite Hp, Hr].
Qed.

Lemma den_div (x y : number) (a b : Q) :
  den x a -> den y b -> ~ b == 0 -> den (x / y)%js (a / b).
Proof.
  intros (p & -> & Hp)%den_inv (r & -> & Hr)%den_inv Hnz.
  unfold JS.div. destruct (Qeq_bool_spec r 0) as [E | E].
  - exfalso. apply Hnz. rewrite <- Hr. exact E.
  - eapply den_eq; [apply den_fin | now rewrite Hp, Hr].
Qed.

Lemma den_max (x y : number) (a b : Q) :
  den x a -> den y b -> den (Math_max x y) (Qmax a b).
Proof.
  destruct x, y; simpl; try tauto. intros Ha Hb.
  destruct (Qltb_spec q q0) as [L | L]; simpl.
  - rewrite Hb. symmetry. apply Q.max_r. rewrite <- Ha, <- Hb. now apply Qlt_le_weak.
  - rewrite Ha. symmetry. apply Q.max_l. rewrite <- Ha, <- Hb. exact L.
Qed.

Lemma den_min (x y : number) (a b : Q) :
  den x a -> den y b -> den (Math_min x y) (Qmin a b).
Proof.
  destruct x, y; simpl; try tauto. intros Ha Hb.
  destruct (Qltb_spec q0 q) as [L | L]; simpl.
  - rewrite Hb. symmetry. apply Q.min_r. rewrite <- Ha, <- Hb. now apply Qlt_le_weak.
  - rewrite Ha. symmetry. apply Q.min_l. rewrite <- Ha, <- Hb. exact L.
Qed.

Lemma den_lt (x y : number) (a b : Q) :
  den x a -> den y b -> ((x < y)%js = true <-> a < b).
Proof.
  destruct x, y; simpl; try tauto. intros Ha Hb.
  destruct (Qltb_spec q q0) as [L | L]; rewrite <- Ha, <- Hb; split; intro H;
    try reflexivity; try assumption; try discriminate.
  exfalso. apply (Qlt_irrefl q). eapply Qlt_le_trans; eassumption.
Qed.

Lemma den_ge (x y : number) (a b : Q) :
  den x a -> den y b -> ((x >= y)%js = true <-> b <= a).
Proof.
  destruct x, y; simpl; try tauto. intros Ha Hb.
  rewrite <- Ha, <- Hb. apply Qle_bool_iff.
Qed.

Lemma den_ge_false (x y : number) (a b : Q) :
  den x a -> den y b -> ((x >= y)%js = false <-> a < b).
Proof.
  intros Ha Hb. pose proof (den_ge x y a b Ha Hb) as H.
  destruct (x >= y)%js; split; intro K; try discriminate; try reflexivity.
  - exfalso. apply (Qlt_irrefl a). eapply Qlt_le_trans; [exact K | now apply H].
  - apply Qnot_le_lt. intro L. apply H in L. discriminate.
Qed.

Lemma den_round (x : number) (a : Q) :
  den x a -> Math_round x = Fin (inject_Z (Qfloor (a + (1 # 2)))).
Proof.
  intros (p & -> & Hp)%den_inv. cbn [Math_round].
  do 2 f_equal. apply Qfloor_comp. now rewrite Hp.
Qed.

Lemma den_truthy (x : number) (a : Q) :
  den x a -> (truthy x = true <-> ~ a == 0).
Proof.
  intros (p & -> & Hp)%den_inv. cbn [truthy]. rewrite <- Hp.
  destruct (Qeq_bool_spec p 0); simpl; split; intro K; try tauto; try discriminate.
Qed.

Create HintDb den discriminated.
#[export] Hint Resolve den_Fin den_fin den_add den_sub den_mul den_max den_min : den.

(* ================================================================== *)
(** ** Classification of a level: [getDBALevel] *)

Section Classification.
Import AudioAnalyzer.

Lemma scan_levels_split (levels : list Level.t) (dba : number) (info : LevelInfo.t) :
  scan_levels levels dba = Some info ->
  exists pre band post,
    levels = pre ++ band :: post
    /\ passed_over dba pre
    /\ (dba < Level.max band)%js = true
    /\ info = info_of band.
Proof.
  induction levels as [| l rest IH]; simpl; [discriminate |].
  destruct (dba < Level.max l)%js eqn:E.
  - intros [= <-]. exists [], l, rest. repeat split; auto. constructor.
  - intros H. destruct (IH H) as (pre & band & post & -> & Hpre & Hb & ->).
    exists (l :: pre), band, post. repeat split; auto. constructor; assumption.
Qed.

Lemma scan_levels_catch_all (levels : list Level.t) (q : Q) :
  Exists (fun l => Level.max l = PosInf) levels ->
  exists info, scan_levels levels (Fin q) = Some info.
Proof.
  induction 1 as [l rest H | l rest _ IH]; cbn [scan_levels].
  - rewrite H. cbn [JS.lt]. eexists. reflexivity.
  - destruct (Fin q < Level.max l)%js; [eexists; reflexivity | exact IH].
Qed.

Lemma DBA_LEVELS_catch_all : Exists (fun l => Level.max l = PosInf) DBA_LEVELS.
Proof. unfold DBA_LEVELS. repeat (first [left; reflexivity | right]). Qed.

Lemma getDBALevel_total (dba : number) :
  exists band, In band DBA_LEVELS /\ getDBALevel dba = Return (info_of band).
Proof.
  unfold getDBALevel, getDBALevel_of.
  destruct (scan_levels DBA_LEVELS dba) as [info |] eqn:E.
  - destruct (scan_levels_split _ _ _ E) as (pre & band & post & Hl & _ & _ & ->).
    exists band. split; [| reflexivity]. rewrite Hl. apply in_elt.
  - simpl. eexists. split; [| reflexivity]. simpl. tauto.
Qed.

Lemma getDBALevel_intervals (q : Q) :
  (q < 40 -> getDBALevel (Fin q) = band_at 0)
  /\ (40 <= q -> q < 60 -> getDBALevel (Fin q) = band_at 1)
  /\ (60 <= q -> q < 70 -> getDBALevel (Fin q) = band_at 2)
  /\ (70 <= q -> q < 85 -> getDBALevel (Fin q) = band_at 3)
  /\ (85 <= q -> getDBALevel (Fin q) = band_at 4).
Proof.
  unfold getDBALevel, getDBALevel_of, DBA_LEVELS, band_at.
  change (fin 40) with (Fin 40). change (fin 60) with (Fin 60).
  change (fin 70) with (Fin 70). change (fin 85) with (Fin 85).
  cbn -[Qltb].
  destruct (Qltb_spec q 40), (Qltb_spec q 60), (Qltb_spec q 70), (Qltb_spec q 85);
    repeat split; intros; try reflexivity; exfalso; lra.
Qed.

End Classification.

(** C1.  [getDBALevel] is total, and on every finite dBA value (and on
    -Infinity) it returns the first level of [DBA_LEVELS] whose [max] lies
    strictly above the value: the levels before it do not, so a value equal
    to a level's [max] is classified in the next level, which is a different
    one.  Values of 85 and more, 120 and +Infinity included, fall in the
    last level, NaN too. *)
Theorem C1_getDBALevel_first_band_strictly_above :
  (forall dba : number,
      exists band, In band DBA_LEVELS
                   /\ AudioAnalyzer.getDBALevel dba
                      = Return (AudioAnalyzer.info_of band))
  /\ (forall dba : number,
        is_nan dba = false -> dba <> PosInf ->
        exists pre band post,
          DBA_LEVELS = pre ++ band :: post
          /\ passed_over dba pre
          /\ (dba < Level.max band)%js = true
          /\ AudioAnalyzer.getDBALevel dba = Return (AudioAnalyzer.info_of band))
  /\ Forall (fun p : Level.t * Level.t =>
               AudioAnalyzer.getDBALevel (Level.max (fst p))
               = Return (AudioAnalyzer.info_of (snd p))
               /\ AudioAnalyzer.info_of (snd p) <> AudioAnalyzer.info_of (fst p))
            (combine DBA_LEVELS (tl DBA_LEVELS))
  /\ (forall q : Q,
        (q < 40 -> AudioAnalyzer.getDBALevel (Fin q) = band_at 0)
        /\ (40 <= q -> q < 60 -> AudioAnalyzer.getDBALevel (Fin q) = band_at 1)
        /\ (60 <= q -> q < 70 -> AudioAnalyzer.getDBALevel (Fin q) = band_at 2)
        /\ (70 <= q -> q < 85 -> AudioAnalyzer.getDBALevel (Fin q) = band_at 3)
        /\ (85 <= q -> AudioAnalyzer.getDBALevel (Fin q) = band_at 4))
  /\ AudioAnalyzer.getDBALevel PosInf = band_at 4
  /\ AudioAnalyzer.getDBALevel NaN = band_at 4.
Proof.
  split; [exact getDBALevel_total |].
  split.
  { intros dba Hnan Hinf.
    assert (exists info, AudioAnalyzer.scan_levels DBA_LEVELS dba = Some info) as [info E].
    { destruct dba; try discriminate; try congruence.
      - eexists. reflexivity.
      - apply scan_levels_catch_all, DBA_LEVELS_catch_all. }
    destruct (scan_levels_split _ _ _ E) as (pre & band & post & Hl & Hp & Hb & ->).
    exists pre, band, post. repeat split; auto.
    unfold AudioAnalyzer.getDBALevel, AudioAnalyzer.getDBALevel_of. now rewrite E. }
  split.
  { unfold DBA_LEVELS. simpl.
    repeat constructor; simpl; try reflexivity; intros [=]. }
  split; [exact getDBALevel_intervals |].
  split; reflexivity.
Qed.

(** The value 60, the upper bound of the second level, is classified in the
    third. *)
Lemma C1_witness : AudioAnalyzer.getDBALevel (Fin 60) = band_at 2.
Proof.
  destruct C1_getDBALevel_first_band_strictly_above as (_ & _ & _ & H & _).
  destruct (H 60) as (_ & _ & H3 & _).
  apply H3; [discriminate | reflexivity].
Defined.

(* ================================================================== *)
(** ** Selection of the A-weighting cascade: [createAWeightingFilters] *)

Section FilterSelection.
Import AudioAnalyzer.

Lemma createAWeightingFilters_cases (rate : number) :
  createAWeightingFilters {| sampleRate := rate |}
  = if (rate === fin 44100)%js then coeffs_44100
    else if (rate === fin 48000)%js then coeffs_48000
    else if (rate > fin 46000)%js then coeffs_48000
    else coeffs_44100.
Proof.
  unfold createAWeightingFilters. cbn [sampleRate].
  destruct (rate === fin 44100)%js; [reflexivity |].
  destruct (rate === fin 48000)%js; [reflexivity |].
  destruct (rate > fin 46000)%js; reflexivity.
Qed.

Lemma coeffs_distinct : coeffs_44100 <> coeffs_48000.
Proof.
  intro H.
  apply (f_equal (fun l => match l with
                           | f :: _ =>
                               match feedforward f with
                               | Fin q :: _ => Qeq_bool q 0.95616638497
                               | _ => false
                               end
                           | [] => false
                           end)) in H.
  vm_compute in H. discriminate H.
Qed.

End FilterSelection.

(** C3.  [createAWeightingFilters] chooses by the sample rate alone: 44100
    gives the 44.1 kHz pair of stages, 48000 the 48 kHz pair, any other rate
    the 48 kHz pair exactly when it is above 46000 and the 44.1 kHz pair
    otherwise.  Every rate therefore gets one of the two calibrated sets,
    which differ, and the cascade always has its two stages. *)
Theorem C3_createAWeightingFilters_selects_one_calibrated_set :
  AudioAnalyzer.createAWeightingFilters
    {| AudioAnalyzer.sampleRate := fin 44100 |} = AudioAnalyzer.coeffs_44100
  /\ AudioAnalyzer.createAWeightingFilters
       {| AudioAnalyzer.sampleRate := fin 48000 |} = AudioAnalyzer.coeffs_48000
  /\ (forall rate : number,
        (rate === fin 44100)%js = false ->
        (rate === fin 48000)%js = false ->
        ((rate > fin 46000)%js = true ->
         AudioAnalyzer.createAWeightingFilters
           {| AudioAnalyzer.sampleRate := rate |} = AudioAnalyzer.coeffs_48000)
        /\ ((rate > fin 46000)%js = false ->
            AudioAnalyzer.createAWeightingFilters
              {| AudioAnalyzer.sampleRate := rate |} = AudioAnalyzer.coeffs_44100))
  /\ (forall rate : number,
        let chain := AudioAnalyzer.createAWeightingFilters
                       {| AudioAnalyzer.sampleRate := rate |} in
        (chain = AudioAnalyzer.coeffs_44100 \/ chain = AudioAnalyzer.coeffs_48000)
        /\ List.length chain = 2%nat
        /\ chain <> [])
  /\ AudioAnalyzer.coeffs_44100 <> AudioAnalyzer.coeffs_48000.
Proof.
  split; [reflexivity |].
  split; [reflexivity |].
  split.
  { intros rate H44 H48. rewrite createAWeightingFilters_cases, H44, H48.
    split; intros ->; reflexivity. }
  split; [| exact coeffs_distinct].
  intros rate chain. subst chain. rewrite createAWeightingFilters_cases.
  destruct (rate === fin 44100)%js; [| destruct (rate === fin 48000)%js;
    [| destruct (rate > fin 46000)%js]];
    (split; [first [left; reflexivity | right; reflexivity]
            | split; [reflexivity | discriminate]]).
Qed.

(** The rate 47999 is neither of the two calibrated rates and lies above
    46000: it gets the 48 kHz set. *)
Lemma C3_witness :
  AudioAnalyzer.createAWeightingFilters
    {| AudioAnalyzer.sampleRate := fin 47999 |} = AudioAnalyzer.coeffs_48000.
Proof.
  destruct C3_createAWeightingFilters_selects_one_calibrated_set
    as (_ & _ & H & _).
  destruct (H (fin 47999)) as [H1 _]; [reflexivity | reflexivity |].
  apply H1. reflexivity.
Defined.

(* ================================================================== *)
(** ** The display throttle: [getDisplayDBA] *)

Section DisplayThrottle.
Import AudioAnalyzer.

Lemma getDisplayDBA_result (a : t) (now : number) :
  snd (getDisplayDBA a now)
  = (displayDBA (fst (getDisplayDBA a now)) || Math_round (currentDBA a))%js.
Proof.
  unfold getDisplayDBA.
  destruct (negb (truthy (lastDisplayUpdate a))
            || (now - lastDisplayUpdate a
                >= AudioConfig.displayUpdateInterval AUDIO_CONFIG)%js)%bool;
    reflexivity.
Qed.

Lemma getDisplayDBA_throttled (a : t) (now : number) :
  truthy (lastDisplayUpdate a) = true ->
  (now - lastDisplayUpdate a >= fin 500)%js = false ->
  fst (getDisplayDBA a now) = a.
Proof.
  intros H1 H2. unfold getDisplayDBA.
  change (AudioConfig.displayUpdateInterval AUDIO_CONFIG) with (fin 500).
  rewrite H1, H2. reflexivity.
Qed.

End DisplayThrottle.

(** C10.  [getDisplayDBA] returns the cached [displayDBA] only when that
    cache is truthy, that is neither 0 nor NaN; with a cache of 0 it returns
    [Math.round(currentDBA)].  This also holds when the call does not refresh
    the cache because fewer than 500 ms have passed since the last refresh:
    the cache then stays 0 and the live rounded level is returned.  So a
    returned 0 means the live rounded level is 0. *)
Theorem C10_getDisplayDBA_zero_cache_falls_back_to_live_level :
  forall (a : AudioAnalyzer.t) (now : number),
    let a' := fst (AudioAnalyzer.getDisplayDBA a now) in
    let r := snd (AudioAnalyzer.getDisplayDBA a now) in
    (truthy (AudioAnalyzer.displayDBA a') = true ->
     r = AudioAnalyzer.displayDBA a')
    /\ (truthy (AudioAnalyzer.displayDBA a') = false ->
        r = Math_round (AudioAnalyzer.currentDBA a))
    /\ (truthy (AudioAnalyzer.lastDisplayUpdate a) = true ->
        (now - AudioAnalyzer.lastDisplayUpdate a >= fin 500)%js = false ->
        den (AudioAnalyzer.displayDBA a) 0 ->
        a' = a /\ r = Math_round (AudioAnalyzer.currentDBA a))
    /\ (den r 0 -> den (Math_round (AudioAnalyzer.currentDBA a)) 0).
Proof.
  intros a now a' r. subst a' r. rewrite getDisplayDBA_result.
  set (a' := fst (AudioAnalyzer.getDisplayDBA a now)).
  unfold JS.or_else.
  split; [intros ->; reflexivity |].
  split; [intros ->; reflexivity |].
  split.
  - intros H1 H2 H3. subst a'. rewrite (getDisplayDBA_throttled a now H1 H2).
    split; [reflexivity |].
    assert (truthy (AudioAnalyzer.displayDBA a) = false) as ->; [| reflexivity].
    destruct (truthy (AudioAnalyzer.displayDBA a)) eqn:E; [| reflexivity].
    apply (den_truthy _ _ H3) in E. exfalso. apply E. reflexivity.
  - destruct (truthy (AudioAnalyzer.displayDBA a')) eqn:E; [| tauto].
    intros H. apply (den_truthy _ _ H) in E. exfalso. apply E. reflexivity.
Qed.

(** An analyser refreshed at time 1000 whose cache and live level were 0
    then, polled at time 1100 with a live level of 57.6: the throttle
    interval has not passed, and the call returns 58. *)
Lemma C10_witness :
  fst (AudioAnalyzer.getDisplayDBA throttled_analyser (fin 1100)) = throttled_analyser
  /\ snd (AudioAnalyzer.getDisplayDBA throttled_analyser (fin 1100))
     = Math_round (fin 57.6).
Proof.
  destruct (C10_getDisplayDBA_zero_cache_falls_back_to_live_level
              throttled_analyser (fin 1100)) as (_ & _ & H & _).
  apply H; reflexivity.
Defined.

(* ================================================================== *)
(** ** The exponential smoother of [calculateDBA] *)

Section Smoothing.
Import AudioAnalyzer.

Lemma smooth_den (c v : number) (a b : Q) :
  den c a -> den v b -> den (smooth c v) (a * 0.92 + b * (1 - 0.92)).
Proof.
  intros Ha Hb. unfold smooth.
  change (AudioConfig.dbaSmoothing AUDIO_CONFIG) with (fin 0.92).
  auto with den.
Qed.

Lemma smoothed_den (n : nat) (c v : number) (a b : Q) :
  den c a -> den v b -> exists x, den (smoothed n c v) x.
Proof.
  intros Ha Hb. induction n as [| n [x Hx]]; simpl.
  - eauto.
  - eexists. apply smooth_den; eassumption.
Qed.



End Smoothing.



(* ================================================================== *)
(** ** [calculateDBA]: silence, and the range of the level *)

Lemma coarse_sqrt_zero (q : Q) : q == 0 -> coarse_sqrt (Fin q) = Fin 0.
Proof.
  intros H. unfold coarse_sqrt.
  destruct (Qeq_bool_spec q 0); [reflexivity | contradiction].
Qed.

Lemma coarse_sqrt_pos (q : Q) :
  0 < q -> exists r, coarse_sqrt (Fin q) = Fin r /\ 0 < r.
Proof.
  intros H. unfold coarse_sqrt.
  destruct (Qeq_bool_spec q 0) as [E | E]; [rewrite E in H; exfalso; lra |].
  destruct (Qltb_spec q 0) as [L | L]; [exfalso; lra |].
  eexists. split; [reflexivity |].
  assert (1 <= Qceiling (q * 1000000000000))%Z as Hc.
  { assert (0 < inject_Z (Qceiling (q * 1000000000000))) as K.
    { eapply Qlt_le_trans; [| apply Qle_ceiling]. lra. }
    rewrite <- (Zlt_Qlt 0) in K. lia. }
  assert (1 <= Z.sqrt (Qceiling (q * 1000000000000)))%Z as Hs.
  { change 1%Z with (Z.sqrt 1). apply Z.sqrt_le_mono. exact Hc. }
  apply Qlt_shift_div_l; [reflexivity |].
  rewrite Qmult_0_l. rewrite <- (Zlt_Qlt 0). lia.
Qed.

Lemma coarse_sqrt_neg (q : Q) : q < 0 -> coarse_sqrt (Fin q) = NaN.
Proof.
  intros H. unfold coarse_sqrt.
  destruct (Qeq_bool_spec q 0) as [E | E]; [rewrite E in H; exfalso; lra |].
  destruct (Qltb_spec q 0) as [L | L]; [reflexivity | exfalso; lra].
Qed.

Lemma coarse_log10_zero (q : Q) : q == 0 -> coarse_log10 (Fin q) = NegInf.
Proof.
  intros H. unfold coarse_log10.
  destruct (Qeq_bool_spec q 0); [reflexivity | contradiction].
Qed.

Lemma coarse_log10_pos (q : Q) : 0 < q -> exists r, coarse_log10 (Fin q) = Fin r.
Proof.
  intros H. unfold coarse_log10.
  destruct (Qeq_bool_spec q 0) as [E | E]; [rewrite E in H; exfalso; lra |].
  destruct (Qltb_spec q 0) as [L | L]; [exfalso; lra |].
  eexists. reflexivity.
Qed.

Lemma coarse_log10_neg (q : Q) : q < 0 -> coarse_log10 (Fin q) = NaN.
Proof.
  intros H. unfold coarse_log10.
  destruct (Qeq_bool_spec q 0) as [E | E]; [rewrite E in H; exfalso; lra |].
  destruct (Qltb_spec q 0) as [L | L]; [reflexivity | exfalso; lra].
Qed.

Lemma coarse_math_contract : MathContract coarse_math.
Proof.
  constructor.
  - exact coarse_sqrt_zero.
  - exact coarse_sqrt_pos.
  - exact coarse_sqrt_neg.
  - reflexivity.
  - reflexivity.
  - exact coarse_log10_zero.
  - exact coarse_log10_pos.
  - exact coarse_log10_neg.
  - reflexivity.
  - reflexivity.
Qed.

Section LevelEstimate.
Import AudioAnalyzer.
Context {M : MathLib} {contract : MathContract M}.

Lemma copy_into_length {A : Type} (src arr : list A) :
  List.length (copy_into src arr) = List.length arr.
Proof.
  unfold copy_into. rewrite length_app, length_firstn, length_skipn. lia.
Qed.

Lemma Forall_take {A : Type} (P : A -> Prop) (n : nat) (l : list A) :
  Forall P l -> Forall P (firstn n l).
Proof.
  intros H. revert n. induction H as [| x l Hx _ IH]; intros [| n]; simpl;
    constructor; auto.
Qed.

Lemma Forall_drop {A : Type} (P : A -> Prop) (n : nat) (l : list A) :
  Forall P l -> Forall P (skipn n l).
Proof.
  intros H. revert n. induction H as [| x l Hx Hl IH]; intros [| n]; simpl;
    auto.
Qed.

Lemma copy_into_Forall {A : Type} (P : A -> Prop) (src arr : list A) :
  Forall P src -> Forall P arr -> Forall P (copy_into src arr).
Proof.
  intros Hs Ha. unfold copy_into. apply Forall_app. split.
  - now apply Forall_take.
  - now apply Forall_drop.
Qed.

Lemma finite_den (x : number) : is_finite x = true -> exists q, den x q.
Proof. destruct x; try discriminate. intros _. exists q. apply den_Fin. Qed.

Lemma sum_squares_den (arr : list number) :
  Forall (fun x => is_finite x = true) arr ->
  forall (s : number) (a : Q),
    den s a -> 0 <= a ->
    exists b, den (sum_squares arr s) b /\ 0 <= b.
Proof.
  unfold sum_squares.
  induction 1 as [| x arr Hx _ IH]; intros s a Hs Ha; simpl.
  - eauto.
  - destruct (finite_den x Hx) as [q Hq].
    apply (IH _ (a + q * q)); [auto with den | nra].
Qed.

Lemma sum_squares_zero (n : nat) (s : number) :
  den s 0 -> den (sum_squares (repeat (fin 0) n) s) 0.
Proof.
  unfold sum_squares. revert s.
  induction n as [| n IH]; intros s Hs; cbn [repeat fold_left].
  - exact Hs.
  - apply IH. eapply den_eq; [apply den_add; [exact Hs |
      apply den_mul; apply den_fin] |]. lra.
Qed.

Lemma of_nat_den (n : nat) : den (of_nat n) (inject_Z (Z.of_nat n)).
Proof. apply den_Fin. Qed.

Lemma rms_of_den (arr : list number) :
  arr <> [] ->
  Forall (fun x => is_finite x = true) arr ->
  exists r, den (rms_of arr) r /\ 0 <= r.
Proof.
  intros Hne Hfin. unfold rms_of.
  destruct (sum_squares_den arr Hfin (fin 0) 0 (den_fin 0)) as (b & Hb & Hb0);
    [lra |].
  assert (0 < inject_Z (Z.of_nat (List.length arr))) as Hlen.
  { rewrite <- (Zlt_Qlt 0). destruct arr; [contradiction | simpl; lia]. }
  assert (den (sum_squares arr (fin 0) / of_nat (List.length arr))%js
              (b / inject_Z (Z.of_nat (List.length arr)))) as Hd.
  { apply den_div; [exact Hb | apply of_nat_den | lra]. }
  apply den_inv in Hd. destruct Hd as (p & -> & Hp).
  assert (0 <= p) as Hp0.
  { rewrite Hp. apply Qle_shift_div_l; [exact Hlen | lra]. }
  destruct (Qle_lt_or_eq _ _ Hp0) as [L | E].
  - destruct (sqrt_pos p L) as (r & -> & Hr). exists r. split; [apply den_Fin | lra].
  - rewrite (sqrt_zero p); [| now symmetry]. exists 0. split; [apply den_Fin | lra].
Qed.

Lemma rms_of_silence (n : nat) :
  (0 < n)%nat -> rms_of (repeat (fin 0) n) = Fin 0.
Proof.
  intros Hn. unfold rms_of. rewrite repeat_length.
  assert (den (sum_squares (repeat (fin 0) n) (fin 0) / of_nat n)%js (0 / inject_Z (Z.of_nat n)))
    as Hd.
  { apply den_div; [apply sum_squares_zero, den_fin | apply of_nat_den |].
    assert (0 < inject_Z (Z.of_nat n)); [rewrite <- (Zlt_Qlt 0); lia | lra]. }
  apply den_inv in Hd. destruct Hd as (p & -> & Hp).
  apply sqrt_zero. rewrite Hp. reflexivity.
Qed.

(** The clamped level of a silent buffer: [-Infinity] clamps to 20. *)
Lemma clamp_raw_dba_zero (rms : number) :
  den rms 0 ->
  raw_dba rms = NegInf
  /\ clamp (raw_dba rms) (AudioConfig.minDBA AUDIO_CONFIG)
            (AudioConfig.maxDBA AUDIO_CONFIG) = Fin 20.
Proof.
  intros H. unfold raw_dba.
  assert (den (rms / fin 1)%js (0 / 1)) as Hd.
  { apply den_div; [exact H | apply den_fin | lra]. }
  apply den_inv in Hd. destruct Hd as (p & -> & Hp).
  rewrite (log10_zero p); [| rewrite Hp; reflexivity].
  split; reflexivity.
Qed.

Lemma clamp_raw_dba_range (rms : number) (r : Q) :
  den rms r -> 0 <= r ->
  exists v, den (clamp (raw_dba rms) (AudioConfig.minDBA AUDIO_CONFIG)
                       (AudioConfig.maxDBA AUDIO_CONFIG)) v
            /\ 20 <= v /\ v <= 120.
Proof.
  intros H Hr. destruct (Qle_lt_or_eq _ _ Hr) as [L | E].
  - unfold raw_dba.
    assert (den (rms / fin 1)%js (r / 1)) as Hd.
    { apply den_div; [exact H | apply den_fin | lra]. }
    apply den_inv in Hd. destruct Hd as (p & -> & Hp).
    destruct (log10_pos p) as [l ->].
    { rewrite Hp. apply Qlt_shift_div_l; lra. }
    exists (Qmax 20 (Qmin 120 (20 * l + 20))). split.
    + unfold clamp. apply den_max; [apply den_fin |].
      apply den_min; [apply den_fin |].
      apply den_add; [apply den_mul; [apply den_fin | apply den_Fin] | apply den_fin].
    + split; [apply Q.le_max_l |].
      apply Q.max_lub; [lra | apply Q.le_min_l].
  - destruct (clamp_raw_dba_zero rms) as [_ ->].
    + eapply den_eq; [exact H | now symmetry].
    + exists 20. split; [apply den_Fin | lra].
Qed.

Lemma round_level (c : Q) :
  0 <= c -> c <= 120 -> level_reading (Fin (inject_Z (Qfloor (c + (1 # 2))))).
Proof.
  intros H0 H1. exists (Qfloor (c + (1 # 2))). split; [reflexivity |]. split.
  - change 0%Z with (Qfloor 0). apply Qfloor_resp_le. lra.
  - change 120%Z with (Qfloor (120 + (1 # 2))). apply Qfloor_resp_le. lra.
Qed.

(** What [calculateDBA] does on an analyser that is set up: the frame is
    copied into the two arrays, the level is smoothed towards the clamped
    raw level, and the rounded level is returned. *)
Lemma calculateDBA_initialized (a : t) (env : Frame) :
  initialized a ->
  exists a',
    calculateDBA a env = Return (a', Math_round (currentDBA a'))
    /\ currentDBA a'
       = smooth (currentDBA a)
                (clamp (raw_dba (rms_of (samples_read a env)))
                       (AudioConfig.minDBA AUDIO_CONFIG)
                       (AudioConfig.maxDBA AUDIO_CONFIG))
    /\ analyser a' = analyser a
    /\ dataArray a' <> None
    /\ dbaAnalyser a' = dbaAnalyser a
    /\ dbaDataArray a' = Some (samples_read a env)
    /\ displayDBA a' = displayDBA a
    /\ lastDisplayUpdate a' = lastDisplayUpdate a.
Proof.
  intros (Han & Hdata & Hdba & Hbuf).
  destruct (dbaDataArray a) as [buf |] eqn:Ebuf; [clear Hbuf | contradiction].
  pose proof Ebuf as Hbuf.
  unfold calculateDBA, samples_read.
  destruct (analyser a) eqn:E1; [| contradiction].
  destruct (dataArray a) eqn:E2; [| contradiction].
  cbn [set_dataArray dbaAnalyser dbaDataArray].
  destruct (dbaAnalyser a) eqn:E3; [| contradiction].
  rewrite Hbuf. eexists. split; [reflexivity |].
  cbn. rewrite E1, E3. repeat split; congruence.
Qed.

Lemma analysing_initialized (a : t) : analysing a -> initialized a.
Proof.
  intros (H1 & H2 & H3 & (buf & Hbuf & _) & _).
  repeat split; auto. rewrite Hbuf. discriminate.
Qed.

End LevelEstimate.

Section Range.
Import AudioAnalyzer.
Context {M : MathLib} {contract : MathContract M}.

Lemma setup_analysing (rate : number) : analysing (setup constructor rate).
Proof.
  unfold analysing, setup. cbn [analyser dataArray dbaAnalyser dbaDataArray currentDBA
                                constructor fftSize].
  repeat split; try discriminate.
  - eexists. split; [reflexivity |]. split; [discriminate |].
    apply Forall_forall. intros x Hx. apply repeat_spec in Hx. now subst x.
  - exists 0. split; [apply den_fin |]. lra.
Qed.

Lemma samples_read_finite (a : t) (env : Frame) :
  analysing a -> finite_frame env ->
  samples_read a env <> []
  /\ Forall (fun x => is_finite x = true) (samples_read a env).
Proof.
  intros (_ & _ & _ & (buf & Hbuf & Hne & Hfin) & _) Henv.
  unfold samples_read. rewrite Hbuf. split.
  - intro E. apply (f_equal (@List.length number)) in E.
    rewrite copy_into_length in E. destruct buf; [contradiction | discriminate].
  - now apply copy_into_Forall.
Qed.

Lemma calculateDBA_step (a : t) (env : Frame) :
  analysing a -> finite_frame env ->
  exists (a' : t) (c v : Q),
    calculateDBA a env = Return (a', Math_round (currentDBA a'))
    /\ den (currentDBA a) c
    /\ 20 <= v /\ v <= 120
    /\ den (currentDBA a') (c * 0.92 + v * (1 - 0.92))
    /\ analysing a'
    /\ level_reading (Math_round (currentDBA a')).
Proof.
  intros Ha Henv.
  destruct (calculateDBA_initialized a env (analysing_initialized a Ha))
    as (a' & Hcall & Hcur & Han & Hdata & Hdba & Hbuf & _ & _).
  destruct (samples_read_finite a env Ha Henv) as [Hne Hfin].
  destruct (rms_of_den _ Hne Hfin) as (r & Hr & Hr0).
  destruct (clamp_raw_dba_range _ r Hr Hr0) as (v & Hv & Hv1 & Hv2).
  pose proof Ha as (Ha1 & _ & Ha3 & _ & (c & Hc & Hc0 & Hc1)).
  assert (den (currentDBA a') (c * 0.92 + v * (1 - 0.92))) as Hnew.
  { rewrite Hcur. now apply smooth_den. }
  exists a', c, v.
  split; [exact Hcall |]. split; [exact Hc |].
  split; [exact Hv1 |]. split; [exact Hv2 |]. split; [exact Hnew |].
  split.
  - unfold analysing. split; [congruence |]. split; [exact Hdata |].
    split; [congruence |]. split.
    + eexists. split; [exact Hbuf |]. split; assumption.
    + eexists. split; [exact Hnew |]. lra.
  - rewrite (den_round _ _ Hnew). apply round_level; lra.
Qed.

Lemma poll_analysing (frames : list Frame) :
  Forall finite_frame frames ->
  forall a : t,
    analysing a ->
    exists (a' : t) (rs : list number),
      poll a frames = Return (a', rs)
      /\ analysing a'
      /\ Forall level_reading rs
      /\ List.length rs = List.length frames.
Proof.
  induction 1 as [| env rest Henv _ IH]; intros a Ha; cbn [poll].
  - exists a, []. split; [reflexivity |]. split; [exact Ha |].
    split; [constructor | reflexivity].
  - destruct (calculateDBA_step a env Ha Henv)
      as (a1 & c & v & -> & _ & _ & _ & _ & Ha1 & Hr).
    destruct (IH a1 Ha1) as (a2 & rs & -> & Ha2 & Hrs & Hlen).
    exists a2, (Math_round (currentDBA a1) :: rs).
    split; [reflexivity |]. split; [exact Ha2 |].
    split; [now constructor | simpl; now rewrite Hlen].
Qed.

End Range.

(** C9.  A new analyser that [setup] has run on has [currentDBA = 0], and
    every [calculateDBA] call on a frame of finite samples keeps
    [currentDBA] finite and within [0, 120]: the new value is
    [0.92 * old + 0.08 * v] for a clamped level [v] in [20, 120], whatever
    the raw level was (-Infinity for silence included).  The value returned
    is an integer between 0 and 120.  So it is after any number of calls. *)
Theorem C9_currentDBA_stays_finite_in_0_120 :
  forall M : MathLib,
    MathContract M ->
    (forall rate : number,
        analysing (AudioAnalyzer.setup AudioAnalyzer.constructor rate)
        /\ AudioAnalyzer.currentDBA
             (AudioAnalyzer.setup AudioAnalyzer.constructor rate) = fin 0)
    /\ (forall (a : AudioAnalyzer.t) (env : AudioAnalyzer.Frame),
          analysing a -> finite_frame env ->
          exists (a' : AudioAnalyzer.t) (c v : Q),
            @AudioAnalyzer.calculateDBA M a env
            = Return (a', Math_round (AudioAnalyzer.currentDBA a'))
            /\ den (AudioAnalyzer.currentDBA a) c
            /\ 20 <= v /\ v <= 120
            /\ den (AudioAnalyzer.currentDBA a') (c * 0.92 + v * (1 - 0.92))
            /\ analysing a'
            /\ level_reading (Math_round (AudioAnalyzer.currentDBA a')))
    /\ (forall (rate : number) (frames : list AudioAnalyzer.Frame),
          Forall finite_frame frames ->
          exists (a' : AudioAnalyzer.t) (rs : list number),
            @poll M (AudioAnalyzer.setup AudioAnalyzer.constructor rate) frames
            = Return (a', rs)
            /\ analysing a'
            /\ Forall level_reading rs
            /\ List.length rs = List.length frames).
Proof.
  intros M contract. split; [| split].
  - intros rate. split; [apply setup_analysing | reflexivity].
  - intros a env. apply calculateDBA_step.
  - intros rate frames H. apply poll_analysing; [exact H | apply setup_analysing].
Qed.

Lemma silent_frame_finite : finite_frame silent_frame.
Proof.
  unfold finite_frame, silent_frame. cbn [AudioAnalyzer.floatTimeDomainData].
  apply Forall_forall. intros x Hx. apply repeat_spec in Hx. now subst x.
Qed.

(** Three frames of silence polled on a new analyser. *)
Lemma C9_witness :
  exists (a' : AudioAnalyzer.t) (rs : list number),
    @poll coarse_math fresh_analyser [silent_frame; silent_frame; silent_frame]
    = Return (a', rs)
    /\ analysing a'
    /\ Forall level_reading rs
    /\ List.length rs = 3%nat.
Proof.
  destruct (C9_currentDBA_stays_finite_in_0_120 coarse_math coarse_math_contract)
    as (_ & _ & H).
  apply (H (fin 48000) [silent_frame; silent_frame; silent_frame]).
  apply Forall_cons; [exact silent_frame_finite |].
  apply Forall_cons; [exact silent_frame_finite |].
  apply Forall_cons; [exact silent_frame_finite |].
  apply Forall_nil.
Defined.

Section Silence.
Import AudioAnalyzer.
Context {M : MathLib} {contract : MathContract M}.

Lemma fresh_analyser_initialized : initialized fresh_analyser.
Proof. apply analysing_initialized, setup_analysing. Qed.

Lemma silent_samples_read :
  samples_read fresh_analyser silent_frame = repeat (fin 0) 2048.
Proof. vm_compute. reflexivity. Qed.

Lemma silent_rms : rms_of (samples_read fresh_analyser silent_frame) = Fin 0.
Proof. rewrite silent_samples_read. apply rms_of_silence. lia. Qed.

Lemma calculateDBA_silence (a : t) (env : Frame) :
  initialized a ->
  den (rms_of (samples_read a env)) 0 ->
  exists a',
    calculateDBA a env = Return (a', Math_round (currentDBA a'))
    /\ currentDBA a' = smooth (currentDBA a) (Fin 20).
Proof.
  intros Ha Hrms.
  destruct (calculateDBA_initialized a env Ha) as (a' & Hcall & Hcur & _).
  destruct (clamp_raw_dba_zero _ Hrms) as [_ Hclamp].
  rewrite Hclamp in Hcur. eauto.
Qed.

Lemma first_silent_call :
  exists a', calculateDBA fresh_analyser silent_frame = Return (a', Fin 2).
Proof.
  destruct (calculateDBA_silence fresh_analyser silent_frame
              fresh_analyser_initialized) as (a' & Hcall & Hcur).
  - rewrite silent_rms. apply den_Fin.
  - exists a'. rewrite Hcall, Hcur. reflexivity.
Qed.

End Silence.

(** C2, the claim as stated fails: on a new analyser the first frame of
    silence has an RMS of 0, and [calculateDBA] returns 2, not the minimum
    20: the clamped 20 enters the smoothed level with weight 0.08. *)
Lemma C2_counterexample_first_silent_call_returns_2 :
  (forall M : MathLib,
      MathContract M ->
      @AudioAnalyzer.rms_of M (samples_read fresh_analyser silent_frame) = Fin 0
      /\ exists a',
           @AudioAnalyzer.calculateDBA M fresh_analyser silent_frame
           = Return (a', Fin 2))
  /\ Fin 2 <> AudioConfig.minDBA AUDIO_CONFIG.
Proof.
  split.
  - intros M contract. split; [apply silent_rms | apply first_silent_call].
  - intros [=].
Qed.

(** C2, amended.  When the RMS of the sample array is 0 the raw level is
    [-Infinity] and the clamp maps it to the minimum 20.  [calculateDBA]
    then sets [currentDBA] to [0.92 * currentDBA + 0.08 * 20] and returns
    that value rounded: with a finite [currentDBA] before the call the value
    returned is an integer, neither NaN nor an infinity, and it is 20 when
    [currentDBA] was 20 already. *)
Theorem C2_silence_clamps_to_minimum_and_result_is_finite :
  forall (M : MathLib) (a : AudioAnalyzer.t) (env : AudioAnalyzer.Frame),
    MathContract M ->
    initialized a ->
    den (@AudioAnalyzer.rms_of M (samples_read a env)) 0 ->
    let rms := @AudioAnalyzer.rms_of M (samples_read a env) in
    @AudioAnalyzer.raw_dba M rms = NegInf
    /\ clamp (@AudioAnalyzer.raw_dba M rms)
             (AudioConfig.minDBA AUDIO_CONFIG) (AudioConfig.maxDBA AUDIO_CONFIG)
       = Fin 20
    /\ exists a' : AudioAnalyzer.t,
         @AudioAnalyzer.calculateDBA M a env
         = Return (a', Math_round (AudioAnalyzer.currentDBA a'))
         /\ AudioAnalyzer.currentDBA a'
            = AudioAnalyzer.smooth (AudioAnalyzer.currentDBA a) (Fin 20)
         /\ (forall c : Q,
               den (AudioAnalyzer.currentDBA a) c ->
               den (AudioAnalyzer.currentDBA a') (c * 0.92 + 20 * (1 - 0.92))
               /\ Math_round (AudioAnalyzer.currentDBA a')
                  = Fin (inject_Z (Qfloor (c * 0.92 + 20 * (1 - 0.92) + (1 # 2)))))
         /\ (den (AudioAnalyzer.currentDBA a) 20 ->
             Math_round (AudioAnalyzer.currentDBA a') = Fin 20).
Proof.
  intros M a env contract Ha Hrms rms. subst rms.
  destruct (clamp_raw_dba_zero _ Hrms) as [Hraw Hclamp].
  split; [exact Hraw |]. split; [exact Hclamp |].
  destruct (calculateDBA_silence a env Ha Hrms) as (a' & Hcall & Hcur).
  exists a'. split; [exact Hcall |]. split; [exact Hcur |].
  assert (forall c, den (AudioAnalyzer.currentDBA a) c ->
                    den (AudioAnalyzer.currentDBA a') (c * 0.92 + 20 * (1 - 0.92)))
    as Hnew.
  { intros c Hc. rewrite Hcur. apply smooth_den; [exact Hc | apply den_Fin]. }
  split.
  - intros c Hc. split; [now apply Hnew |]. apply den_round. now apply Hnew.
  - intros Hc. rewrite (den_round _ _ (Hnew 20 Hc)). reflexivity.
Qed.

(** The first frame of silence on a new analyser: the clamped level is 20
    and the call returns the rounded 1.6. *)
Lemma C2_witness :
  clamp (@AudioAnalyzer.raw_dba coarse_math
           (@AudioAnalyzer.rms_of coarse_math (samples_read fresh_analyser silent_frame)))
        (AudioConfig.minDBA AUDIO_CONFIG) (AudioConfig.maxDBA AUDIO_CONFIG)
  = Fin 20.
Proof.
  destruct (C2_silence_clamps_to_minimum_and_result_is_finite
              coarse_math fresh_analyser silent_frame coarse_math_contract)
    as (_ & H & _).
  - apply fresh_analyser_initialized.
  - exact (eq_ind_r (fun x => den x 0) (den_Fin 0)
                    (@silent_rms coarse_math coarse_math_contract)).
  - exact H.
Defined.

(* ================================================================== *)
(** ** The scale of the overlay: [calculateScale] *)

Section ScaleFloors.
Import CanvasOverlay.

Lemma baseWidth_den (portrait : bool) :
  den (if portrait then OverlayConfig.baseWidthPortrait OVERLAY_CONFIG
       else OverlayConfig.baseWidthLandscape OVERLAY_CONFIG)
      (Layout.baseWidth portrait).
Proof. destruct portrait; apply den_fin. Qed.

Lemma baseWidth_pos (portrait : bool) : 0 < Layout.baseWidth portrait.
Proof. destruct portrait; reflexivity. Qed.

Lemma calculateScale_den (W : Q) (height : number) (portrait : bool) :
  let s := calculateScale (Fin W) height portrait in
  den (Scale.scale s) (Layout.scale_of W portrait)
  /\ den (Scale.fontSize s) (Layout.fontSize_of W portrait)
  /\ den (Scale.padding s) (Layout.padding_of W portrait).
Proof.
  pose proof (baseWidth_pos portrait) as Hb.
  assert (den (Scale.scale (calculateScale (Fin W) height portrait))
              (Layout.scale_of W portrait)) as Hs.
  { unfold calculateScale, Layout.scale_of. cbn [Scale.scale].
    apply den_max; [apply den_fin |].
    apply den_div; [apply den_Fin | apply baseWidth_den | lra]. }
  split; [exact Hs |]. split.
  - unfold Layout.fontSize_of. apply den_max; [apply den_fin |].
    apply den_mul; [apply den_fin | exact Hs].
  - unfold Layout.padding_of. apply den_max; [apply den_fin |].
    apply den_mul; [apply den_fin | exact Hs].
Qed.

Lemma scale_of_floor (W : Q) (portrait : bool) : 0.5 <= Layout.scale_of W portrait.
Proof. apply Q.le_max_l. Qed.

End ScaleFloors.

(** C7.  For every finite width, every height and either orientation,
    [calculateScale] returns [scale = max(0.5, W / baseWidth)], a font size
    of [max(14, 22 * scale)] and a padding of [max(20, 30 * scale)]: the
    scale is at least 0.5, the font size at least 14 and the padding at
    least 20, however small [W] is.  From [W / baseWidth >= 2/3] on, the
    three are [W / baseWidth], [22 * W / baseWidth] and [30 * W / baseWidth]:
    proportional to [W]. *)
Theorem C7_calculateScale_floors_and_proportional_growth :
  forall (W : Q) (height : number) (portrait : bool),
    let s := CanvasOverlay.calculateScale (Fin W) height portrait in
    CanvasOverlay.Scale.scale s
    = Math_max (OverlayConfig.minScale OVERLAY_CONFIG)
               (Fin W / (if portrait
                         then OverlayConfig.baseWidthPortrait OVERLAY_CONFIG
                         else OverlayConfig.baseWidthLandscape OVERLAY_CONFIG))%js
    /\ exists sc fs pd : Q,
         den (CanvasOverlay.Scale.scale s) sc
         /\ den (CanvasOverlay.Scale.fontSize s) fs
         /\ den (CanvasOverlay.Scale.padding s) pd
         /\ sc == Qmax 0.5 (W / Layout.baseWidth portrait)
         /\ 0.5 <= sc /\ 14 <= fs /\ 20 <= pd
         /\ (2 # 3 <= W / Layout.baseWidth portrait ->
             sc == W / Layout.baseWidth portrait
             /\ fs == 22 * (W / Layout.baseWidth portrait)
             /\ pd == 30 * (W / Layout.baseWidth portrait)).
Proof.
  intros W height portrait s. split; [reflexivity |].
  destruct (calculateScale_den W height portrait) as (Hs & Hf & Hp).
  exists (Layout.scale_of W portrait), (Layout.fontSize_of W portrait),
         (Layout.padding_of W portrait).
  split; [exact Hs |]. split; [exact Hf |]. split; [exact Hp |].
  split; [reflexivity |].
  split; [apply Q.le_max_l |]. split; [apply Q.le_max_l |].
  split; [apply Q.le_max_l |].
  intros Hbig.
  assert (Layout.scale_of W portrait == W / Layout.baseWidth portrait) as E.
  { unfold Layout.scale_of. apply Q.max_r. lra. }
  split; [exact E |]. unfold Layout.fontSize_of, Layout.padding_of. rewrite E.
  split; apply Q.max_r; lra.
Qed.

(** A landscape surface 3840 pixels wide: the scale is 2, the font size 44
    and the padding 60. *)
Lemma C7_witness :
  exists sc fs pd : Q,
    den (CanvasOverlay.Scale.scale
           (CanvasOverlay.calculateScale (Fin 3840) (Fin 2160) false)) sc
    /\ den (CanvasOverlay.Scale.fontSize
              (CanvasOverlay.calculateScale (Fin 3840) (Fin 2160) false)) fs
    /\ den (CanvasOverlay.Scale.padding
              (CanvasOverlay.calculateScale (Fin 3840) (Fin 2160) false)) pd
    /\ sc == 3840 / 1920 /\ fs == 22 * (3840 / 1920) /\ pd == 30 * (3840 / 1920).
Proof.
  destruct (C7_calculateScale_floors_and_proportional_growth 3840 (Fin 2160) false)
    as (_ & sc & fs & pd & H1 & H2 & H3 & _ & _ & _ & _ & H).
  exists sc, fs, pd. split; [exact H1 |]. split; [exact H2 |]. split; [exact H3 |].
  apply H. discriminate.
Defined.

(* ================================================================== *)
(** ** The coordinates in the info box: [toFixed(6)] and [drawInfoBox] *)

Section FixedDecimals.
Import ToFixed.

Lemma is_digit_not_point (c : ascii) : is_digit c = true -> Ascii.eqb c "." = false.
Proof.
  destruct c as [[] [] [] [] [] [] [] []]; intros H; try reflexivity; discriminate H.
Qed.

Lemma all_digits_app (a b : string) :
  all_digits (a ++ b) = all_digits a && all_digits b.
Proof.
  induction a as [| c a IH]; simpl; [reflexivity |].
  rewrite IH. apply andb_assoc.
Qed.

Lemma after_point_app (a b : string) :
  all_digits a = true -> after_point (a ++ String "." b) = Some b.
Proof.
  induction a as [| c a IH]; simpl; [reflexivity |].
  intros H. apply andb_prop in H. destruct H as [Hc Ha].
  rewrite (is_digit_not_point c Hc). now apply IH.
Qed.

Lemma string_of_uint_digits (d : Decimal.uint) :
  all_digits (DecimalString.NilEmpty.string_of_uint d) = true.
Proof. induction d; simpl; auto. Qed.

Lemma digits_of_digits (n : N) : all_digits (digits_of n) = true.
Proof.
  unfold digits_of, DecimalString.NilZero.string_of_uint.
  destruct (N.to_uint n) eqn:E; try reflexivity;
    rewrite <- E; apply string_of_uint_digits.
Qed.

Lemma digit_char_digit (d : N) : is_digit (digit_char d) = true.
Proof.
  unfold is_digit, digit_char.
  assert (d mod 10 < 10)%N as H by (apply N.mod_lt; discriminate).
  generalize dependent (d mod 10)%N. intros m H.
  rewrite N_ascii_embedding by lia.
  apply andb_true_intro. split; apply N.leb_le; lia.
Qed.

Lemma length_append (a b : string) :
  String.length (a ++ b) = (String.length a + String.length b)%nat.
Proof. induction a as [| c a IH]; simpl; [reflexivity | now rewrite IH]. Qed.

Lemma digits_fixed_spec (k : nat) (n : N) :
  all_digits (digits_fixed k n) = true /\ String.length (digits_fixed k n) = k.
Proof.
  revert n. induction k as [| k IH]; intros n; simpl; [auto |].
  destruct (IH (n / 10)%N) as [H1 H2]. split.
  - rewrite all_digits_app, H1. simpl. now rewrite digit_char_digit.
  - rewrite length_append, H2. simpl. lia.
Qed.

Lemma unsigned_fixed_fraction (x : Q) (f : nat) :
  has_fraction_digits (S f) (unsigned_fixed x (S f)).
Proof.
  unfold has_fraction_digits, unsigned_fixed.
  set (n := nearest_scaled x (S f)). set (p := (10 ^ N.of_nat (S f))%N).
  exists (digits_fixed (S f) (n mod p)).
  destruct (digits_fixed_spec (S f) (n mod p)) as [H1 H2].
  split; [| split; assumption].
  change (digits_of (n / p) ++ "." ++ digits_fixed (S f) (n mod p))%string
    with (digits_of (n / p) ++ String "." (digits_fixed (S f) (n mod p)))%string.
  apply after_point_app, digits_of_digits.
Qed.

Lemma toFixed_fraction (q : Q) (f : nat) :
  Qabs q < inject_Z (10 ^ 21) ->
  exists s, toFixed (Fin q) (S f) = Some s /\ has_fraction_digits (S f) s.
Proof.
  intros Hq. unfold toFixed.
  destruct (Qle_bool_spec (inject_Z (10 ^ 21)) (Qabs q)) as [L | L];
    [exfalso; lra |].
  destruct (Qltb q 0).
  - eexists. split; [reflexivity |].
    destruct (unsigned_fixed_fraction (- q) f) as (frac & H1 & H2).
    exists frac. split; [| exact H2]. simpl. exact H1.
  - eexists. split; [reflexivity |]. apply unsigned_fixed_fraction.
Qed.

End FixedDecimals.

(* ================================================================== *)
(** ** Running the overlay on a canvas *)

Section CanvasRuns.
Import Canvas CanvasOverlay.

Lemma call_received (o : op) (w : World) :
  op_exception o = None -> call o w = (received w o, Return tt).
Proof. intros H. unfold call. rewrite H. reflexivity. Qed.

Lemma returns_ret {A : Type} (a : A) : returns (ret a).
Proof. intros w. exists w, a. reflexivity. Qed.

Lemma returns_bind {A B : Type} (m : M A) (k : A -> M B) :
  returns m -> (forall a, returns (k a)) -> returns (bind m k).
Proof.
  intros Hm Hk w. destruct (Hm w) as (w1 & a & E).
  destruct (Hk a w1) as (w2 & b & E2).
  exists w2, b. unfold bind. rewrite E. exact E2.
Qed.

Lemma returns_call (o : op) : op_exception o = None -> returns (call o).
Proof.
  intros H w. exists (received w o), tt. now apply call_received.
Qed.

Lemma returns_set_font (f : Font) : returns (set_font f).
Proof. intros w. eexists. exists tt. reflexivity. Qed.

Lemma returns_measureText (env : Env) (s : string) : returns (measureText env s).
Proof. intros w. eexists. eexists. reflexivity. Qed.

Lemma returns_set_lastInfo (b : Box.t) (x : number) : returns (set_lastInfo b x).
Proof. intros w. eexists. exists tt. reflexivity. Qed.

Lemma returns_get_this : returns get_this.
Proof. intros w. eexists. eexists. reflexivity. Qed.

Lemma returns_for_range (n start : nat) (body : nat -> M unit) :
  (forall i, (start <= i < start + n)%nat -> returns (body i)) ->
  returns (for_range start n body).
Proof.
  revert start. induction n as [| n IH]; intros start H; cbn [for_range].
  - apply returns_ret.
  - apply returns_bind; [apply H; lia |].
    intros _. apply IH. intros i Hi. apply H. lia.
Qed.

Lemma returns_for_fold {X : Type} (n start : nat) (x : X) (body : nat -> X -> M X) :
  (forall i y, returns (body i y)) -> returns (for_fold start n x body).
Proof.
  intros H. revert start x. induction n as [| n IH]; intros start x; cbn [for_fold].
  - apply returns_ret.
  - apply returns_bind; [apply H |]. intros y. apply IH.
Qed.

Lemma negative_den (r : number) (q : Q) : den r q -> 0 <= q -> negative r = false.
Proof.
  intros Hr Hq. unfold negative.
  destruct (r < fin 0)%js eqn:E; [| reflexivity].
  apply (den_lt r (fin 0) q 0 Hr (den_fin 0)) in E. exfalso. lra.
Qed.

Lemma roundRect_ok (x y w h r : number) (q : Q) :
  den r q -> 0 <= q -> op_exception (RoundRect x y w h r) = None.
Proof.
  intros Hr Hq. cbn [op_exception]. rewrite (negative_den r q Hr Hq).
  now rewrite andb_false_r.
Qed.

Lemma arc_ok (x y r a b : number) (q : Q) :
  den r q -> 0 <= q -> op_exception (Arc x y r a b) = None.
Proof.
  intros Hr Hq. cbn [op_exception]. rewrite (negative_den r q Hr Hq).
  now rewrite andb_false_r.
Qed.



End CanvasRuns.

Section OverlayReturns.
Import Canvas CanvasOverlay.


(** One step of a straight-line method: a call that cannot throw, or a
    rounded rectangle or arc whose radius is a non-negative multiple of the
    scale. *)
Ltac run_step :=
  lazymatch goal with
  | |- returns (ret _) => apply returns_ret
  | |- returns (set_font _) => apply returns_set_font
  | |- returns (measureText _ _) => apply returns_measureText
  | |- returns (set_lastInfo _ _) => apply returns_set_lastInfo
  | |- returns get_this => apply returns_get_this
  | |- returns (call (RoundRect _ _ _ _ _)) =>
      apply returns_call; eapply roundRect_ok; [solve [eauto with den] | lra]
  | |- returns (call (Arc _ _ _ _ _)) =>
      apply returns_call; eapply arc_ok; [solve [eauto with den] | lra]
  | |- returns (call _) => apply returns_call; reflexivity
  | |- returns (bind _ _) => apply returns_bind; [| intros ?]
  end.

Ltac run := repeat run_step.

Variable env : Env.
Variables (scale : number) (sc : Q).
Hypothesis scale_den : den scale sc.
Hypothesis scale_pos : 0 <= sc.







End OverlayReturns.

Section MiniVisualizerReturns.
Import Canvas CanvasOverlay.



Variables (vizX vizY vizHeight innerPadding barWidth : number).
Variables (qy qh qi : Q).
Hypothesis vizY_den : den vizY qy.
Hypothesis vizHeight_den : den vizHeight qh.
Hypothesis innerPadding_den : den innerPadding qi.



End MiniVisualizerReturns.

Section DrawReturns.
Import Canvas CanvasOverlay.



End DrawReturns.

(* ================================================================== *)
(** ** The recording badge: [drawRecordingIndicator] inside [draw] *)

Section Badge.
Import Canvas CanvasOverlay.

Lemma keeps_this_ret {A : Type} (a : A) : keeps_this (ret a).
Proof. intros w. reflexivity. Qed.

Lemma keeps_this_call (o : op) : keeps_this (call o).
Proof. intros w. unfold call. destruct (op_exception o); reflexivity. Qed.

Lemma keeps_this_set_font (f : Font) : keeps_this (set_font f).
Proof. intros w. reflexivity. Qed.

Lemma keeps_this_measureText (env : Env) (s : string) :
  keeps_this (measureText env s).
Proof. intros w. reflexivity. Qed.

Lemma keeps_this_bind {A B : Type} (m : M A) (k : A -> M B) :
  keeps_this m -> (forall a, keeps_this (k a)) -> keeps_this (bind m k).
Proof.
  intros Hm Hk w. unfold bind. specialize (Hm w).
  destruct (m w) as [w1 [a | e]]; cbn [fst] in *.
  - rewrite Hk. exact Hm.
  - exact Hm.
Qed.

Ltac keep :=
  repeat lazymatch goal with
    | |- keeps_this (ret _) => apply keeps_this_ret
    | |- keeps_this (call _) => apply keeps_this_call
    | |- keeps_this (set_font _) => apply keeps_this_set_font
    | |- keeps_this (measureText _ _) => apply keeps_this_measureText
    | |- keeps_this (bind _ _) => apply keeps_this_bind; [| intros ?]
    end.

Lemma drawInfoBox_stores (env : Env) (W H : Q) (data : OverlayData) (w : World) :
  this (fst (drawInfoBox env (Fin W) (Fin H) (Drawn.scale W H) (Drawn.fontSize W H)
                         (Drawn.padding W H) (Drawn.isPortrait W H) data w))
  = {| _lastInfoBox := Some (Drawn.infoBox W H);
       _lastDbaX := Some (Drawn.dbaX W H) |}.
Proof.
  unfold drawInfoBox. cbv zeta.
  lazymatch goal with
  | |- this (fst (bind (set_lastInfo ?b ?x) ?k w)) = ?rhs =>
      change (this (fst (k tt (fst (set_lastInfo b x w)))) = rhs);
      assert (keeps_this (k tt)) as Hk by (cbv beta; keep)
  end.
  rewrite Hk. reflexivity.
Qed.

Lemma bind_after {A B : Type} (m : M A) (k1 k2 : A -> M B) (w : World) :
  (forall a, k1 a (fst (m w)) = k2 a (fst (m w))) ->
  bind m k1 w = bind m k2 w.
Proof.
  intros H. unfold bind. destruct (m w) as [w1 [a | e]]; [apply H | reflexivity].
Qed.

Lemma bind_head {A B : Type} (m1 m2 : M A) (k : A -> M B) (w : World) :
  m1 w = m2 w -> bind m1 k w = bind m2 k w.
Proof. intros H. unfold bind. now rewrite H. Qed.

End Badge.

Section BadgeGeometry.
Import Canvas CanvasOverlay.

Lemma isPortrait_layout (W H : Q) : Drawn.isPortrait W H = Layout.isPortrait W H.
Proof. reflexivity. Qed.

Lemma drawn_scale_den (W H : Q) :
  den (Drawn.scale W H) (Layout.scale W H)
  /\ den (Drawn.fontSize W H) (Layout.fontSize W H)
  /\ den (Drawn.padding W H) (Layout.padding W H).
Proof. apply calculateScale_den. Qed.

Lemma drawn_dbaBoxWidth_den (W H : Q) :
  den (Drawn.dbaBoxWidth W H) (Layout.dbaBoxWidth W H).
Proof.
  destruct (drawn_scale_den W H) as (Hs & _ & _).
  unfold Drawn.dbaBoxWidth, Layout.dbaBoxWidth. rewrite isPortrait_layout.
  destruct (Layout.isPortrait W H); auto with den.
Qed.

Lemma drawn_dbaX_den (W H : Q) : den (Drawn.dbaX W H) (Layout.dbaX W H).
Proof.
  destruct (drawn_scale_den W H) as (_ & _ & Hp).
  pose proof (drawn_dbaBoxWidth_den W H).
  unfold Drawn.dbaX, Layout.dbaX. auto with den.
Qed.

Lemma drawn_infoBox_den (W H : Q) :
  den (Box.x (Drawn.infoBox W H)) (Layout.padding W H)
  /\ den (Box.y (Drawn.infoBox W H)) (Layout.padding W H)
  /\ den (Box.width (Drawn.infoBox W H)) (Layout.infoBoxWidth W H)
  /\ den (Box.height (Drawn.infoBox W H)) (Layout.infoBoxHeight W H).
Proof.
  destruct (drawn_scale_den W H) as (Hs & _ & Hp).
  pose proof (drawn_dbaBoxWidth_den W H).
  unfold Drawn.infoBox, Layout.infoBoxWidth, Layout.infoBoxHeight.
  cbn [Box.x Box.y Box.width Box.height]. rewrite isPortrait_layout.
  repeat split; try assumption; destruct (Layout.isPortrait W H); auto 7 with den.
Qed.

Lemma drawn_rec_den (W H : Q) :
  den (Drawn.recWidth W H) (Layout.recWidth W H)
  /\ den (Drawn.recHeight W H) (Layout.recHeight W H)
  /\ den (Drawn.recX W H) (Layout.recX W H)
  /\ den (Drawn.recY W H) (Layout.recY W H).
Proof.
  destruct (drawn_scale_den W H) as (Hs & _ & Hp).
  destruct (drawn_infoBox_den W H) as (Hx & Hy & Hw & Hh).
  assert (den (Drawn.recWidth W H) (Layout.recWidth W H)) as Hrw.
  { unfold Drawn.recWidth, Layout.recWidth. rewrite isPortrait_layout.
    destruct (Layout.isPortrait W H); auto with den. }
  assert (den (Drawn.recHeight W H) (Layout.recHeight W H)) as Hrh.
  { unfold Drawn.recHeight, Layout.recHeight. rewrite isPortrait_layout.
    destruct (Layout.isPortrait W H); auto with den. }
  repeat split; try assumption.
  - unfold Drawn.recX, Layout.recX. auto with den.
  - unfold Drawn.recY, Layout.recY.
    apply den_add; [exact Hy |].
    apply den_div; [auto with den | apply den_fin | discriminate].
Qed.

(** The test of [drawRecordingIndicator] on the values [drawInfoBox] stored:
    the fallback for a falsy [_lastDbaX] does not change its outcome. *)
Lemma recording_test (W H : Q) :
  (Drawn.recX W H + Drawn.recWidth W H
   >= (Drawn.dbaX W H || (Fin W - fin 160 * Drawn.scale W H - Drawn.padding W H))
      - fin 5 * Drawn.scale W H)%js
  = negb (Layout.badge_fits W H).
Proof.
  destruct (drawn_scale_den W H) as (Hs & _ & Hp).
  destruct (drawn_rec_den W H) as (Hrw & _ & Hrx & _).
  pose proof (drawn_dbaX_den W H) as Hdx.
  assert (den (Fin W - fin 160 * Drawn.scale W H - Drawn.padding W H)%js
              (W - 160 * Layout.scale W H - Layout.padding W H)) as Hfb
    by auto with den.
  unfold Layout.badge_fits.
  destruct (Qltb_spec (Layout.recX W H + Layout.recWidth W H)
                      (Layout.dbaX W H - 5 * Layout.scale W H)) as [Fit | NoFit];
    cbn [negb].
  - (* the badge fits: the edge is positive, so it is the stored one *)
    assert (~ Layout.dbaX W H == 0) as Hnz.
    { revert Fit. unfold Layout.recX, Layout.recWidth, Layout.infoBoxWidth,
        Layout.dbaX, Layout.dbaBoxWidth, Layout.padding, Layout.padding_of,
        Layout.scale, Layout.scale_of, Layout.baseWidth.
      destruct (Layout.isPortrait W H).
      + pose proof (Q.max_spec 0.5 (W / 720)) as Hm.
        revert Hm. generalize (Qmax 0.5 (W / 720)). intros s Hm.
        pose proof (Q.max_spec 20 (30 * s)) as Hq.
        revert Hq. generalize (Qmax 20 (30 * s)). intros p Hq.
        pose proof (Q.min_spec (200 * s) (W - 120 * s - p * 3)) as Hn.
        revert Hn. generalize (Qmin (200 * s) (W - 120 * s - p * 3)).
        intros m Hn Fit E. lra.
      + pose proof (Q.max_spec 0.5 (W / 1920)) as Hm.
        revert Hm. generalize (Qmax 0.5 (W / 1920)). intros s Hm.
        pose proof (Q.max_spec 20 (30 * s)) as Hq.
        revert Hq. generalize (Qmax 20 (30 * s)). intros p Hq Fit E. lra. }
    apply (den_truthy _ _ Hdx) in Hnz. unfold JS.or_else. rewrite Hnz.
    apply (den_ge_false _ _ (Layout.recX W H + Layout.recWidth W H)
                        (Layout.dbaX W H - 5 * Layout.scale W H));
      auto with den.
  - unfold JS.or_else. destruct (truthy (Drawn.dbaX W H)) eqn:Etr.
    + apply (den_ge _ _ (Layout.recX W H + Layout.recWidth W H)
                    (Layout.dbaX W H - 5 * Layout.scale W H));
        auto with den.
    + assert (Layout.dbaX W H == 0) as Hz.
      { destruct (Qeq_dec (Layout.dbaX W H) 0) as [E | E]; [exact E |].
        apply (den_truthy _ _ Hdx) in E. congruence. }
      apply (den_ge _ _ (Layout.recX W H + Layout.recWidth W H)
                    (W - 160 * Layout.scale W H - Layout.padding W H
                     - 5 * Layout.scale W H));
        [auto with den | auto with den |].
      assert (0.5 <= Layout.scale W H) as Hfl by apply scale_of_floor.
      assert (Layout.dbaBoxWidth W H <= 160 * Layout.scale W H) as Hbw.
      { unfold Layout.dbaBoxWidth. destruct (Layout.isPortrait W H); lra. }
      unfold Layout.dbaX in *. lra.
Qed.

End BadgeGeometry.

Section BadgeInDraw.
Import Canvas CanvasOverlay.

Lemma drawRecordingIndicator_stored (W H : Q) (data : OverlayData) (w : World) :
  this w = {| _lastInfoBox := Some (Drawn.infoBox W H);
              _lastDbaX := Some (Drawn.dbaX W H) |} ->
  drawRecordingIndicator (Fin W) (Fin H) (Drawn.scale W H) (Drawn.fontSize W H)
                         (Drawn.padding W H) (Drawn.isPortrait W H) data w
  = (if Layout.badge_fits W H then Drawn.badge W H else ret tt) w.
Proof.
  intros Hthis. unfold drawRecordingIndicator, bind, get_this.
  rewrite Hthis. cbn [_lastInfoBox _lastDbaX].
  pose proof (recording_test W H) as Htest.
  unfold Drawn.recX, Drawn.recWidth in Htest.
  change (RecIndicator.widthPortrait (OverlayConfig.recIndicator OVERLAY_CONFIG))
    with (fin 60).
  change (RecIndicator.widthLandscape (OverlayConfig.recIndicator OVERLAY_CONFIG))
    with (fin 90).
  rewrite Htest.
  destruct (Layout.badge_fits W H); reflexivity.
Qed.

Lemma draw_badge (env : Env) (W H : Q) (data : OverlayData) (w : World) :
  draw env (Fin W) (Fin H) data w
  = (drawDBABox env (Fin W) (Fin H) (Drawn.scale W H) (Drawn.fontSize W H)
                (Drawn.padding W H) (Drawn.isPortrait W H) data ;;
     drawInfoBox env (Fin W) (Fin H) (Drawn.scale W H) (Drawn.fontSize W H)
                 (Drawn.padding W H) (Drawn.isPortrait W H) data ;;
     (if isRecording data && Layout.badge_fits W H
      then Drawn.badge W H else ret tt) ;;
     drawMiniVisualizer (Fin W) (Fin H) (Drawn.scale W H) (Drawn.padding W H)
                        (Drawn.isPortrait W H) data ;;
     drawWatermark (Fin W) (Fin H) (Drawn.scale W H) (Drawn.fontSize W H)) w.
Proof.
  unfold draw.
  change (Fin H > Fin W)%js with (Drawn.isPortrait W H).
  change (Scale.scale (calculateScale (Fin W) (Fin H) (Drawn.isPortrait W H)))
    with (Drawn.scale W H).
  change (Scale.fontSize (calculateScale (Fin W) (Fin H) (Drawn.isPortrait W H)))
    with (Drawn.fontSize W H).
  change (Scale.padding (calculateScale (Fin W) (Fin H) (Drawn.isPortrait W H)))
    with (Drawn.padding W H).
  apply bind_after. intros _.
  apply bind_after. intros _.
  apply bind_head.
  destruct (isRecording data); cbn [andb]; [| reflexivity].
  apply drawRecordingIndicator_stored, drawInfoBox_stores.
Qed.

End BadgeInDraw.

Section BadgeTrace.
Import Canvas CanvasOverlay.

Lemma badge_receives (W H : Q) (w : World) :
  exists (f : Font) (drawn : list op),
    Drawn.badge W H w
    = ({| this := this w; ctx := {| font := f; ops := ops (ctx w) ++ drawn |} |},
       Return tt)
    /\ List.length drawn = 12%nat
    /\ texts_drawn drawn = [Str "REC"].
Proof.
  destruct (drawn_scale_den W H) as (Hs & _ & _).
  destruct (drawn_rec_den W H) as (_ & Hrh & _ & _).
  pose proof (scale_of_floor W (Layout.isPortrait W H)) as Hfl.
  fold (Layout.scale W H) in Hfl.
  assert (0 <= Layout.recHeight W H / 2) as Hr.
  { apply Qle_shift_div_l; [reflexivity |]. unfold Layout.recHeight.
    destruct (Layout.isPortrait W H); lra. }
  assert (op_exception (RoundRect (Drawn.recX W H) (Drawn.recY W H)
                                  (Drawn.recWidth W H) (Drawn.recHeight W H)
                                  (Drawn.recHeight W H / fin 2)%js) = None) as E1.
  { eapply roundRect_ok; [| exact Hr].
    apply den_div; [exact Hrh | apply den_fin | discriminate]. }
  assert (forall x y a b, op_exception (Arc x y (fin 4 * Drawn.scale W H)%js a b) = None)
    as E2.
  { intros. eapply arc_ok; [apply den_mul; [apply den_fin | exact Hs] | lra]. }
  unfold Drawn.badge, badge, bind, call, set_font. rewrite E1, E2. cbn.
  rewrite <- !app_assoc. cbn [app].
  eexists. eexists. split; [reflexivity |]. split; reflexivity.
Qed.

End BadgeTrace.

(** C5.  On a surface of [W] by [H] pixels [draw] runs [drawDBABox] and
    [drawInfoBox], then draws the recording badge exactly when [isRecording]
    holds and [recX + recWidth < dbaX - 5 * scale], where
    [recX = infoBoxX + infoBoxWidth + 10 * scale] and [dbaX] is the left edge
    of the dBA box; otherwise the step sends nothing to the context.  The
    badge, when drawn, is 12 calls with the text REC among them. *)
Theorem C5_recording_badge_drawn_iff_it_fits :
  forall (env : Canvas.Env) (W H : Q) (data : CanvasOverlay.OverlayData)
         (w : CanvasOverlay.World),
    CanvasOverlay.draw env (Fin W) (Fin H) data w
    = CanvasOverlay.bind
        (CanvasOverlay.drawDBABox env (Fin W) (Fin H) (Drawn.scale W H)
           (Drawn.fontSize W H) (Drawn.padding W H) (Drawn.isPortrait W H) data)
        (fun _ =>
     CanvasOverlay.bind
        (CanvasOverlay.drawInfoBox env (Fin W) (Fin H) (Drawn.scale W H)
           (Drawn.fontSize W H) (Drawn.padding W H) (Drawn.isPortrait W H) data)
        (fun _ =>
     CanvasOverlay.bind
        (if CanvasOverlay.isRecording data && Layout.badge_fits W H
         then Drawn.badge W H else CanvasOverlay.ret tt)
        (fun _ =>
     CanvasOverlay.bind
        (CanvasOverlay.drawMiniVisualizer (Fin W) (Fin H) (Drawn.scale W H)
           (Drawn.padding W H) (Drawn.isPortrait W H) data)
        (fun _ =>
        CanvasOverlay.drawWatermark (Fin W) (Fin H) (Drawn.scale W H)
           (Drawn.fontSize W H))))) w
    /\ (Layout.badge_fits W H = true <->
        Layout.recX W H + Layout.recWidth W H
        < Layout.dbaX W H - 5 * Layout.scale W H)
    /\ (Layout.badge_fits W H = false <->
        Layout.dbaX W H - 5 * Layout.scale W H
        <= Layout.recX W H + Layout.recWidth W H)
    /\ den (Drawn.recX W H) (Layout.recX W H)
    /\ den (Drawn.recWidth W H) (Layout.recWidth W H)
    /\ den (Drawn.dbaX W H) (Layout.dbaX W H)
    /\ den (Drawn.scale W H) (Layout.scale W H)
    /\ Layout.recX W H
       == Layout.padding W H + Layout.infoBoxWidth W H + 10 * Layout.scale W H
    /\ (exists (f : Canvas.Font) (drawn : list Canvas.op),
          Drawn.badge W H w
          = ({| CanvasOverlay.this := CanvasOverlay.this w;
                CanvasOverlay.ctx :=
                  {| Canvas.font := f;
                     Canvas.ops := Canvas.ops (CanvasOverlay.ctx w) ++ drawn |} |},
             Return tt)
          /\ List.length drawn = 12%nat
          /\ texts_drawn drawn = [Canvas.Str "REC"]).
Proof.
  intros env W H data w.
  destruct (drawn_scale_den W H) as (Hs & _ & _).
  destruct (drawn_rec_den W H) as (Hrw & _ & Hrx & _).
  split; [apply draw_badge |].
  split.
  { unfold Layout.badge_fits.
    destruct (Qltb_spec (Layout.recX W H + Layout.recWidth W H)
                        (Layout.dbaX W H - 5 * Layout.scale W H));
      split; intros; try assumption; try reflexivity; try discriminate.
    exfalso. lra. }
  split.
  { unfold Layout.badge_fits.
    destruct (Qltb_spec (Layout.recX W H + Layout.recWidth W H)
                        (Layout.dbaX W H - 5 * Layout.scale W H));
      split; intros; try assumption; try reflexivity; try discriminate.
    exfalso. lra. }
  split; [exact Hrx |]. split; [exact Hrw |].
  split; [apply drawn_dbaX_den |]. split; [exact Hs |].
  split; [reflexivity |].
  apply badge_receives.
Qed.

(** On a portrait surface 400 pixels high the badge fits from a width just
    above 237.5 on: at 238 it is drawn, at 237.5, where
    [recX + recWidth = dbaX - 5 * scale = 155], and at 237 it is not. *)
Lemma C5_witness :
  Layout.recX 238 400 + Layout.recWidth 238 400
  < Layout.dbaX 238 400 - 5 * Layout.scale 238 400
  /\ Layout.dbaX 237.5 400 - 5 * Layout.scale 237.5 400
     <= Layout.recX 237.5 400 + Layout.recWidth 237.5 400
  /\ Layout.dbaX 237 400 - 5 * Layout.scale 237 400
     <= Layout.recX 237 400 + Layout.recWidth 237 400.
Proof.
  destruct (C5_recording_badge_drawn_iff_it_fits
              sample_env 238 400 (recording_data None None) blank_world)
    as (_ & H1 & _).
  destruct (C5_recording_badge_drawn_iff_it_fits
              sample_env 237.5 400 (recording_data None None) blank_world)
    as (_ & _ & H2 & _).
  destruct (C5_recording_badge_drawn_iff_it_fits
              sample_env 237 400 (recording_data None None) blank_world)
    as (_ & _ & H3 & _).
  split; [apply H1; vm_compute; reflexivity |].
  split; [apply H2; vm_compute; reflexivity | apply H3; vm_compute; reflexivity].
Defined.

(** The same three surfaces drawn while recording, and one drawn while not
    recording: REC is among the texts only at width 238 while recording. *)
Lemma badge_boundary_drawn :
  texts_of_draw sample_env 238 400 (recording_data None None)
  = [Canvas.Num (Fin 58); Canvas.Str "dBA"; Canvas.Str "Yên tĩnh";
     Canvas.Str "⏱ 14:05:09 02/11/2026"; Canvas.Str "⌖ N/A";
     Canvas.Str "REC"; Canvas.Str "DBA Noise Meter"]
  /\ texts_of_draw sample_env 237.5 400 (recording_data None None)
     = [Canvas.Num (Fin 58); Canvas.Str "dBA"; Canvas.Str "Yên tĩnh";
        Canvas.Str "⏱ 14:05:09 02/11/2026"; Canvas.Str "⌖ N/A";
        Canvas.Str "DBA Noise Meter"]
  /\ texts_of_draw sample_env 237 400 (recording_data None None)
     = texts_of_draw sample_env 237.5 400 (recording_data None None).
Proof. repeat split; vm_compute; reflexivity. Qed.

(* ================================================================== *)
(** ** What the overlay writes *)

Section Draws.
Import Canvas CanvasOverlay.

Lemma texts_drawn_app (a b : list op) :
  texts_drawn (a ++ b) = texts_drawn a ++ texts_drawn b.
Proof.
  induction a as [| o a IH]; [reflexivity |].
  destruct o; cbn [app texts_drawn]; rewrite IH; reflexivity.
Qed.

Lemma draws_ret : draws (ret tt) [].
Proof.
  intros w. exists w, []. split; [reflexivity |].
  split; [now rewrite app_nil_r | reflexivity].
Qed.

Lemma draws_call (o : op) :
  op_exception o = None -> draws (call o) (texts_drawn [o]).
Proof.
  intros H w. exists (received w o), [o].
  split; [now apply call_received |]. split; reflexivity.
Qed.

Lemma draws_set_font (f : Font) : draws (set_font f) [].
Proof.
  intros w. eexists. exists [SetFont f]. split; [reflexivity |]. split; reflexivity.
Qed.

Lemma draws_set_lastInfo (b : Box.t) (x : number) : draws (set_lastInfo b x) [].
Proof.
  intros w. eexists. exists []. split; [reflexivity |].
  split; [cbn; now rewrite app_nil_r | reflexivity].
Qed.

Lemma draws_bind (m : M unit) (k : unit -> M unit) (t1 t2 t : list text) :
  draws m t1 -> (forall a, draws (k a) t2) -> t = t1 ++ t2 -> draws (bind m k) t.
Proof.
  intros Hm Hk -> w.
  destruct (Hm w) as (w1 & d1 & E1 & O1 & T1).
  destruct (Hk tt w1) as (w2 & d2 & E2 & O2 & T2).
  exists w2, (d1 ++ d2). unfold bind. rewrite E1. split; [exact E2 |].
  split.
  - rewrite O2, O1. now rewrite app_assoc.
  - rewrite texts_drawn_app. now rewrite T1, T2.
Qed.

Lemma draws_measureText (env : Env) (s : string) (k : number -> M unit)
    (t : list text) :
  (forall x, draws (k x) t) -> draws (bind (measureText env s) k) t.
Proof. intros Hk w. exact (Hk _ w). Qed.

Lemma draws_returns (m : M unit) (t : list text) : draws m t -> returns m.
Proof.
  intros H w. destruct (H w) as (w' & _ & E & _). exists w', tt. exact E.
Qed.

Ltac trace_step :=
  lazymatch goal with
  | |- draws (ret _) _ => apply draws_ret
  | |- draws (set_font _) _ => apply draws_set_font
  | |- draws (set_lastInfo _ _) _ => apply draws_set_lastInfo
  | |- draws (call (RoundRect _ _ _ _ _)) _ =>
      apply draws_call; eapply roundRect_ok; [solve [eauto with den] | lra]
  | |- draws (call (Arc _ _ _ _ _)) _ =>
      apply draws_call; eapply arc_ok; [solve [eauto with den] | lra]
  | |- draws (call _) _ => apply draws_call; reflexivity
  | |- draws (bind (measureText _ _) _) _ => apply draws_measureText; intros ?
  | |- draws (bind _ _) _ => eapply draws_bind; [| intros ? |]
  end.

Ltac trace := repeat trace_step; try reflexivity; try reflexivity.

Variable env : Env.
Variables (scale : number) (sc : Q).
Hypothesis scale_den : den scale sc.
Hypothesis scale_pos : 0 <= sc.

Lemma drawLevelPill_draws (boxX boxY boxWidth boxHeight fontSize : number)
    (data : OverlayData) :
  draws (drawLevelPill env boxX boxY boxWidth boxHeight scale fontSize data)
        [Str (LevelInfo.text (level data))].
Proof. unfold drawLevelPill. cbv zeta. trace. Qed.

Lemma drawDBABox_draws (width height fontSize padding : number)
    (isPortrait : bool) (data : OverlayData) :
  draws (drawDBABox env width height scale fontSize padding isPortrait data)
        [Num (Math_round (currentDBA data)); Str "dBA";
         Str (LevelInfo.text (level data))].
Proof.
  unfold drawDBABox. cbv zeta.
  change (DbaBox.borderRadius (OverlayConfig.dbaBox OVERLAY_CONFIG)) with (fin 15).
  trace. apply drawLevelPill_draws.
Qed.

Lemma drawInfoBox_draws (width height fontSize padding : number)
    (isPortrait : bool) (data : OverlayData) :
  draws (drawInfoBox env width height scale fontSize padding isPortrait data)
        [Str ("⏱ " ++ dateStr env)%string; Str (locationStr data)].
Proof.
  unfold drawInfoBox. cbv zeta.
  change (InfoBox.borderRadius (OverlayConfig.infoBox OVERLAY_CONFIG)) with (fin 12).
  trace.
Qed.

Lemma drawWatermark_draws (width height fontSize : number) :
  draws (drawWatermark width height scale fontSize) [Str "DBA Noise Meter"].
Proof. unfold drawWatermark. cbv zeta. trace. Qed.

End Draws.

Section DrawTexts.
Import Canvas CanvasOverlay.

Lemma badge_draws (W H : Q) : draws (Drawn.badge W H) [Str "REC"].
Proof.
  intros w. destruct (badge_receives W H w) as (f & drawn & E & _ & T).
  eexists. exists drawn. split; [exact E |]. split; [reflexivity | exact T].
Qed.

Lemma drawMiniVisualizer_absent (width height scale padding : number)
    (isPortrait : bool) (data : OverlayData) (w : World) :
  frequencyData data = None \/ timeData data = None ->
  drawMiniVisualizer width height scale padding isPortrait data w = (w, Return tt).
Proof.
  unfold drawMiniVisualizer. intros [-> | ->]; [reflexivity |].
  destruct (frequencyData data); reflexivity.
Qed.

Lemma locationStr_absent (data : OverlayData) :
  present (latitude data) = false \/ present (longitude data) = false ->
  locationStr data = "⌖ N/A".
Proof.
  unfold locationStr. intros [-> | ->]; [reflexivity |].
  now rewrite andb_false_r.
Qed.

Lemma locationStr_present (data : OverlayData) (la lo : string) :
  latitude data = Some la -> longitude data = Some lo ->
  la <> "" -> lo <> "" ->
  locationStr data = ("⌖ " ++ la ++ ", " ++ lo)%string.
Proof.
  unfold locationStr. intros -> -> Hla Hlo.
  destruct la; [contradiction |]. destruct lo; [contradiction |]. reflexivity.
Qed.

(** The texts of a whole [draw] when a buffer of the mini-visualizer is
    missing. *)
Lemma draw_draws_without_buffers (env : Env) (W H : Q) (data : OverlayData) :
  frequencyData data = None \/ timeData data = None ->
  draws (draw env (Fin W) (Fin H) data)
        ([Num (Math_round (currentDBA data)); Str "dBA";
          Str (LevelInfo.text (level data));
          Str ("⏱ " ++ dateStr env)%string; Str (locationStr data)]
         ++ (if isRecording data && Layout.badge_fits W H then [Str "REC"] else [])
         ++ [Str "DBA Noise Meter"]).
Proof.
  intros Habs w. rewrite draw_badge. revert w.
  destruct (drawn_scale_den W H) as (Hs & _ & _).
  pose proof (scale_of_floor W (Layout.isPortrait W H)) as Hfl.
  assert (0 <= Layout.scale W H) as Hpos by (unfold Layout.scale; lra).
  change (draws
    (drawDBABox env (Fin W) (Fin H) (Drawn.scale W H) (Drawn.fontSize W H)
                (Drawn.padding W H) (Drawn.isPortrait W H) data ;;
     drawInfoBox env (Fin W) (Fin H) (Drawn.scale W H) (Drawn.fontSize W H)
                 (Drawn.padding W H) (Drawn.isPortrait W H) data ;;
     (if isRecording data && Layout.badge_fits W H
      then Drawn.badge W H else ret tt) ;;
     drawMiniVisualizer (Fin W) (Fin H) (Drawn.scale W H) (Drawn.padding W H)
                        (Drawn.isPortrait W H) data ;;
     drawWatermark (Fin W) (Fin H) (Drawn.scale W H) (Drawn.fontSize W H))
    ([Num (Math_round (currentDBA data)); Str "dBA";
      Str (LevelInfo.text (level data))]
     ++ ([Str ("⏱ " ++ dateStr env)%string; Str (locationStr data)]
         ++ ((if isRecording data && Layout.badge_fits W H then [Str "REC"] else [])
             ++ ([] ++ [Str "DBA Noise Meter"]))))).
  eapply draws_bind;
    [eapply drawDBABox_draws; eassumption | intros _ | reflexivity].
  eapply draws_bind;
    [eapply drawInfoBox_draws; eassumption | intros _ | reflexivity].
  eapply draws_bind; [| intros _ | reflexivity].
  { destruct (isRecording data && Layout.badge_fits W H);
      [apply badge_draws | apply draws_ret]. }
  eapply draws_bind; [| intros _ | reflexivity].
  { intros w. exists w, []. split; [now apply drawMiniVisualizer_absent |].
    split; [now rewrite app_nil_r | reflexivity]. }
  eapply drawWatermark_draws; eassumption.
Qed.


End DrawTexts.

(* ================================================================== *)
(** ** The coordinates of the info box *)

(** C6, the claim as stated fails: [handleSuccess] formats both coordinates
    with [toFixed(6)] and [drawInfoBox] writes them as they are, so the
    position (10.5, 106.75) is drawn as "10.500000, 106.750000": six digits
    after each decimal point, not two. *)
Lemma C6_counterexample_coordinates_have_six_decimals :
  exists g : GeolocationManager.t,
    GeolocationManager.handleSuccess GeolocationManager.constructor sample_position
    = Some g
    /\ GeolocationManager.lat g = Some "10.500000"
    /\ GeolocationManager.lng g = Some "106.750000"
    /\ texts_of_draw sample_env 1920 1080
         (recording_data (GeolocationManager.lat g) (GeolocationManager.lng g))
       = [Canvas.Num (Fin 58); Canvas.Str "dBA"; Canvas.Str "Yên tĩnh";
          Canvas.Str "⏱ 14:05:09 02/11/2026";
          Canvas.Str "⌖ 10.500000, 106.750000";
          Canvas.Str "REC"; Canvas.Str "DBA Noise Meter"]
    /\ ~ ToFixed.has_fraction_digits 2 "10.500000"
    /\ ~ ToFixed.has_fraction_digits 2 "106.750000".
Proof.
  eexists. split; [vm_compute; reflexivity |].
  split; [reflexivity |]. split; [reflexivity |].
  split; [vm_compute; reflexivity |].
  split; intros (frac & H1 & _ & H3); vm_compute in H1;
    injection H1 as <-; discriminate H3.
Qed.

Lemma fraction_digits_not_empty (k : nat) (s : string) :
  ToFixed.has_fraction_digits k s -> s <> "".
Proof. intros (frac & H & _) ->. discriminate H. Qed.

(** C6, amended.  [handleSuccess] stores each coordinate of magnitude below
    [10^21] as the text [toFixed(6)] gives: a numeral with exactly six digits
    after the decimal point.  [drawInfoBox] writes
    ["⌖ <latitude>, <longitude>"] with the two texts unchanged when both are
    there, and the marker ["⌖ N/A"] when one is absent. *)
Theorem C6_coordinates_are_drawn_with_six_decimals :
  forall (g : GeolocationManager.t) (lat lng : Q),
    Qabs lat < inject_Z (10 ^ 21) ->
    Qabs lng < inject_Z (10 ^ 21) ->
    exists (g' : GeolocationManager.t) (la lo : string),
      GeolocationManager.handleSuccess g
        {| GeolocationManager.coords :=
             {| GeolocationManager.latitude := Fin lat;
                GeolocationManager.longitude := Fin lng |} |}
      = Some g'
      /\ GeolocationManager.lat g' = Some la
      /\ GeolocationManager.lng g' = Some lo
      /\ ToFixed.toFixed (Fin lat) 6 = Some la
      /\ ToFixed.toFixed (Fin lng) 6 = Some lo
      /\ ToFixed.has_fraction_digits 6 la
      /\ ToFixed.has_fraction_digits 6 lo
      /\ (forall (env : Canvas.Env) (W H : Q) (data : CanvasOverlay.OverlayData),
            CanvasOverlay.latitude data = Some la ->
            CanvasOverlay.longitude data = Some lo ->
            CanvasOverlay.locationStr data = ("⌖ " ++ la ++ ", " ++ lo)%string
            /\ draws (CanvasOverlay.drawInfoBox env (Fin W) (Fin H)
                        (Drawn.scale W H) (Drawn.fontSize W H) (Drawn.padding W H)
                        (Drawn.isPortrait W H) data)
                     [Canvas.Str ("⏱ " ++ Canvas.dateStr env)%string;
                      Canvas.Str ("⌖ " ++ la ++ ", " ++ lo)%string])
      /\ (forall data : CanvasOverlay.OverlayData,
            CanvasOverlay.present (CanvasOverlay.latitude data) = false
            \/ CanvasOverlay.present (CanvasOverlay.longitude data) = false ->
            CanvasOverlay.locationStr data = "⌖ N/A").
Proof.
  intros g lat lng Hlat Hlng.
  destruct (toFixed_fraction lat 5 Hlat) as (la & Ela & Hla).
  destruct (toFixed_fraction lng 5 Hlng) as (lo & Elo & Hlo).
  unfold GeolocationManager.handleSuccess.
  cbn [GeolocationManager.coords GeolocationManager.latitude
       GeolocationManager.longitude].
  rewrite Ela, Elo.
  eexists. exists la, lo.
  split; [reflexivity |]. split; [reflexivity |]. split; [reflexivity |].
  split; [reflexivity |]. split; [reflexivity |].
  split; [exact Hla |]. split; [exact Hlo |].
  split; [| exact locationStr_absent].
  intros env W H data E1 E2.
  assert (CanvasOverlay.locationStr data = ("⌖ " ++ la ++ ", " ++ lo)%string) as Hloc.
  { apply locationStr_present; try assumption;
      eapply fraction_digits_not_empty; eassumption. }
  split; [exact Hloc |]. rewrite <- Hloc.
  destruct (drawn_scale_den W H) as (Hs & _ & _).
  pose proof (scale_of_floor W (Layout.isPortrait W H)) as Hfl.
  eapply drawInfoBox_draws; [exact Hs | unfold Layout.scale; lra].
Qed.

(** The position (10.5, 106.75). *)
Lemma C6_witness :
  exists (g' : GeolocationManager.t) (la lo : string),
    GeolocationManager.handleSuccess GeolocationManager.constructor
      {| GeolocationManager.coords :=
           {| GeolocationManager.latitude := Fin 10.5;
              GeolocationManager.longitude := Fin 106.75 |} |}
    = Some g'
    /\ ToFixed.has_fraction_digits 6 la
    /\ ToFixed.has_fraction_digits 6 lo.
Proof.
  destruct (C6_coordinates_are_drawn_with_six_decimals
              GeolocationManager.constructor 10.5 106.75)
    as (g' & la & lo & H1 & _ & _ & _ & _ & H2 & H3 & _);
    [reflexivity | reflexivity |].
  exists g', la, lo. split; [exact H1 |]. split; [exact H2 | exact H3].
Defined.

(* ================================================================== *)
(** ** Missing data *)

Section Spectrum.
Import AudioAnalyzer.

(** The spectrum an analyser hands to the overlay: none before [setup], an
    array of 1024 bins after it. *)
Lemma getFrequencyData_spectrum (a : t) (rate : number) (env : Frame) :
  getFrequencyData constructor env = Return (constructor, None)
  /\ exists a' arr,
       getFrequencyData (setup a rate) env = Return (a', Some arr)
       /\ List.length arr = 1024%nat.
Proof.
  split; [reflexivity |].
  unfold getFrequencyData, setup. cbn [analyser dataArray set_dataArray].
  eexists. eexists. split; [reflexivity |].
  rewrite copy_into_length. apply repeat_length.
Qed.

End Spectrum.

(** A spectrum that is an empty array makes the bar loop read [undefined]:
    the bar height is NaN and [createLinearGradient] throws. *)
Lemma empty_spectrum_throws :
  snd (CanvasOverlay.draw sample_env (Fin 1920) (Fin 1080)
         empty_spectrum_data blank_world)
  = Throw TypeError.
Proof. vm_compute. reflexivity. Qed.



(* ================================================================== *)
(** * Further properties *)

(** ** The analyser over its whole life *)

Section LifecycleSound.
Import AudioAnalyzer Lifecycle.
Context {M : MathLib} {contract : MathContract M}.

Lemma constructor_sound : sound constructor.
Proof.
  unfold sound, constructor. cbn.
  split; [exists 0; split; [apply den_fin | lra] |].
  split; [exists 0%Z; split; [reflexivity | lia] |].
  split; [intros H; contradiction |].
  split; [intros H; contradiction | intros _; split; reflexivity].
Qed.

Lemma setup_sound (a : t) (rate : number) : sound a -> sound (setup a rate).
Proof.
  intros (Hc & Hd & _ & _ & _). unfold sound, setup.
  cbn [currentDBA displayDBA analyser dbaAnalyser dataArray timeDataArray
       dbaDataArray fftSize].
  split; [exact Hc |]. split; [exact Hd |]. split; [| split].
  - intros _. split; [discriminate |].
    eexists. eexists. split; [reflexivity |]. split; [reflexivity |].
    split; apply repeat_length.
  - intros _. eexists. split; [reflexivity |]. split; [apply repeat_length |].
    apply Forall_forall. intros x Hx. apply repeat_spec in Hx. now subst x.
  - discriminate.
Qed.

Lemma destroy_sound (a : t) : sound a -> sound (destroy a).
Proof.
  intros (Hc & Hd & _ & Hb & _). unfold sound, destroy.
  cbn [currentDBA displayDBA analyser dbaAnalyser dataArray timeDataArray
       dbaDataArray].
  split; [exact Hc |]. split; [exact Hd |]. split; [intros H; contradiction |].
  split; [exact Hb | intros _; split; reflexivity].
Qed.

Lemma getDisplayDBA_sound (a : t) (now : number) :
  sound a ->
  sound (fst (getDisplayDBA a now))
  /\ level_reading (snd (getDisplayDBA a now)).
Proof.
  intros (Hc & Hd & Ha & Hb & Hn).
  destruct Hc as (c & Hc & Hc0 & Hc1).
  assert (level_reading (Math_round (currentDBA a))) as Hr.
  { rewrite (den_round _ _ Hc). now apply round_level. }
  assert (sound (fst (getDisplayDBA a now))) as Hs.
  { unfold getDisplayDBA.
    destruct (negb (truthy (lastDisplayUpdate a))
              || (now - lastDisplayUpdate a
                  >= AudioConfig.displayUpdateInterval AUDIO_CONFIG)%js)%bool;
      cbn [fst]; unfold sound;
      cbn [set_display currentDBA displayDBA analyser dbaAnalyser dataArray
           timeDataArray dbaDataArray];
      (split; [exists c; tauto |]); repeat (split; [solve [auto] |]); auto. }
  split; [exact Hs |].
  rewrite getDisplayDBA_result. unfold JS.or_else.
  destruct (truthy (displayDBA (fst (getDisplayDBA a now)))); [| exact Hr].
  apply Hs.
Qed.

Lemma getFrequencyData_sound (a : t) (env : Frame) :
  sound a ->
  exists a' r, getFrequencyData a env = Return (a', r) /\ sound a'
               /\ r = dataArray a'.
Proof.
  intros Hs. pose proof Hs as (Hc & Hd & Ha & Hb & Hn). unfold getFrequencyData.
  destruct (analyser a) as [an |] eqn:E.
  - destruct Ha as (Hdb & data & time & E1 & E2 & L1 & L2); [discriminate |].
    rewrite E1. eexists. eexists. split; [reflexivity |]. split; [| reflexivity].
    unfold sound.
    cbn [set_dataArray currentDBA displayDBA analyser dbaAnalyser dataArray
         timeDataArray dbaDataArray].
    split; [exact Hc |]. split; [exact Hd |].
    split; [| split; [exact Hb | rewrite E; discriminate]].
    intros _. split; [exact Hdb |].
    eexists. exists time. split; [reflexivity |]. split; [exact E2 |].
    split; [now rewrite copy_into_length | exact L2].
  - exists a, (dataArray a). split; [reflexivity |]. split; [exact Hs | reflexivity].
Qed.

Lemma getTimeDomainData_sound (a : t) (env : Frame) :
  sound a ->
  exists a' r, getTimeDomainData a env = Return (a', r) /\ sound a'
               /\ r = timeDataArray a'.
Proof.
  intros Hs. pose proof Hs as (Hc & Hd & Ha & Hb & Hn). unfold getTimeDomainData.
  destruct (analyser a) as [an |] eqn:E.
  - destruct Ha as (Hdb & data & time & E1 & E2 & L1 & L2); [discriminate |].
    rewrite E2. eexists. eexists. split; [reflexivity |]. split; [| reflexivity].
    unfold sound.
    cbn [set_timeDataArray currentDBA displayDBA analyser dbaAnalyser dataArray
         timeDataArray dbaDataArray].
    split; [exact Hc |]. split; [exact Hd |].
    split; [| split; [exact Hb | rewrite E; discriminate]].
    intros _. split; [exact Hdb |].
    exists data. eexists. split; [exact E1 |]. split; [reflexivity |].
    split; [exact L1 | now rewrite copy_into_length].
  - exists a, (timeDataArray a). split; [reflexivity |]. split; [exact Hs | reflexivity].
Qed.

Lemma sound_analysing (a : t) : sound a -> analyser a <> None -> analysing a.
Proof.
  intros (Hc & _ & Ha & Hb & _) Hlive.
  destruct (Ha Hlive) as (Hdb & data & time & E1 & _).
  destruct (Hb Hdb) as (buf & E3 & L3 & F3).
  unfold analysing. split; [exact Hlive |]. split; [rewrite E1; discriminate |].
  split; [exact Hdb |]. split; [| exact Hc].
  exists buf. split; [exact E3 |]. split; [| exact F3].
  intros ->. discriminate L3.
Qed.

Lemma calculateDBA_sound (a : t) (env : Frame) :
  sound a -> finite_frame env ->
  exists a' r, calculateDBA a env = Return (a', r) /\ sound a' /\ level_reading r.
Proof.
  intros Hs Henv. destruct (analyser a) as [an |] eqn:E.
  - assert (analyser a <> None) as Hlive by (rewrite E; discriminate).
    pose proof (sound_analysing a Hs Hlive) as Han.
    destruct Hs as (Hc & Hd & Ha & Hb & Hn).
    destruct (Ha Hlive) as (Hdb & data & time & E1 & E2 & L1 & L2).
    destruct (Hb Hdb) as (buf & E3 & L3 & F3).
    destruct (calculateDBA_step a env Han Henv)
      as (a' & c & v & Hcall & _ & _ & _ & Hnew & Han' & Hr).
    exists a', (Math_round (currentDBA a')). split; [exact Hcall |].
    split; [| exact Hr].
    (* the fields of [a'] *)
    unfold calculateDBA in Hcall. rewrite E, E1 in Hcall.
    cbn [set_dataArray dbaAnalyser dbaDataArray] in Hcall.
    destruct (dbaAnalyser a) as [dn |] eqn:E4; [| contradiction].
    rewrite E3 in Hcall. injection Hcall as Hcall _. subst a'.
    unfold sound.
    cbn [set_currentDBA set_dbaDataArray set_dataArray currentDBA displayDBA
         analyser dbaAnalyser dataArray timeDataArray dbaDataArray] in *.
    destruct Han' as (_ & _ & _ & _ & Hc').
    split; [exact Hc' |]. split; [exact Hd |]. split; [| split].
    + intros _. split; [rewrite E4; discriminate |].
      eexists. exists time. split; [reflexivity |]. split; [exact E2 |].
      split; [now rewrite copy_into_length | exact L2].
    + intros _. eexists. split; [reflexivity |].
      split; [now rewrite copy_into_length |].
      now apply copy_into_Forall.
    + rewrite E. discriminate.
  - exists a, (fin 0). unfold calculateDBA. rewrite E.
    split; [reflexivity |]. split; [exact Hs |].
    exists 0%Z. split; [reflexivity | lia].
Qed.

Lemma perform_sound (a : t) (c : call) :
  sound a -> admissible c -> exists a', perform a c = Return a' /\ sound a'.
Proof.
  intros Hs Hc. destruct c as [rate | env | now | env | env |]; cbn [perform].
  - eexists. split; [reflexivity | now apply setup_sound].
  - destruct (calculateDBA_sound a env Hs Hc) as (a' & r & -> & Hs' & _). eauto.
  - eexists. split; [reflexivity | now apply getDisplayDBA_sound].
  - destruct (getFrequencyData_sound a env Hs) as (a' & r & -> & Hs' & _). eauto.
  - destruct (getTimeDomainData_sound a env Hs) as (a' & r & -> & Hs' & _). eauto.
  - eexists. split; [reflexivity | now apply destroy_sound].
Qed.

Lemma run_sound (calls : list call) :
  Forall admissible calls ->
  forall a, sound a -> exists a', run a calls = Return a' /\ sound a'.
Proof.
  induction 1 as [| c rest Hc _ IH]; intros a Hs; cbn [run].
  - eauto.
  - destruct (perform_sound a c Hs Hc) as (a1 & -> & Hs1). now apply IH.
Qed.

End LifecycleSound.

(** X1.  Whatever methods of an [AudioAnalyzer] are called and in whatever
    order, starting from a new one, no call throws as long as the samples the
    audio graph delivers are finite; the level stays finite in [0, 120], the
    cached display value is an integer of that range, and so are the values
    [calculateDBA] and [getDisplayDBA] return afterwards. *)
Theorem analyser_calls_never_throw_and_keep_the_level_in_range :
  forall (M : MathLib) (calls : list Lifecycle.call),
    MathContract M ->
    Forall Lifecycle.admissible calls ->
    exists a : AudioAnalyzer.t,
      @Lifecycle.run M AudioAnalyzer.constructor calls = Return a
      /\ Lifecycle.sound a
      /\ (forall now : number,
            level_reading (snd (AudioAnalyzer.getDisplayDBA a now)))
      /\ (forall env : AudioAnalyzer.Frame,
            finite_frame env ->
            exists a' r,
              @AudioAnalyzer.calculateDBA M a env = Return (a', r)
              /\ level_reading r).
Proof.
  intros M calls contract Hcalls.
  destruct (run_sound calls Hcalls AudioAnalyzer.constructor constructor_sound)
    as (a & Hrun & Hs).
  exists a. split; [exact Hrun |]. split; [exact Hs |]. split.
  - intros now. now apply getDisplayDBA_sound.
  - intros env Henv.
    destruct (calculateDBA_sound a env Hs Henv) as (a' & r & E & _ & Hr). eauto.
Qed.

(** A camera switch in the middle of a measurement: set up, poll, display,
    set up again, poll, destroy, poll. *)
Lemma analyser_calls_witness :
  exists a : AudioAnalyzer.t,
    @Lifecycle.run coarse_math AudioAnalyzer.constructor
      [Lifecycle.Setup (fin 48000); Lifecycle.CalculateDBA silent_frame;
       Lifecycle.GetDisplayDBA (fin 1000); Lifecycle.Setup (fin 44100);
       Lifecycle.CalculateDBA silent_frame; Lifecycle.Destroy;
       Lifecycle.CalculateDBA silent_frame]
    = Return a
    /\ Lifecycle.sound a.
Proof.
  destruct (analyser_calls_never_throw_and_keep_the_level_in_range coarse_math
              [Lifecycle.Setup (fin 48000); Lifecycle.CalculateDBA silent_frame;
               Lifecycle.GetDisplayDBA (fin 1000); Lifecycle.Setup (fin 44100);
               Lifecycle.CalculateDBA silent_frame; Lifecycle.Destroy;
               Lifecycle.CalculateDBA silent_frame]
              coarse_math_contract) as (a & H1 & H2 & _).
  - apply Forall_cons; [exact I |].
    apply Forall_cons; [exact silent_frame_finite |].
    apply Forall_cons; [exact I |].
    apply Forall_cons; [exact I |].
    apply Forall_cons; [exact silent_frame_finite |].
    apply Forall_cons; [exact I |].
    apply Forall_cons; [exact silent_frame_finite |].
    apply Forall_nil.
  - exists a. split; [exact H1 | exact H2].
Defined.

(** ** An analyser that is not ready *)

Section NotReady.
Import AudioAnalyzer.
Context {M : MathLib}.

Lemma poll_not_ready (frames : list Frame) (a : t) :
  analyser a = None ->
  poll a frames = Return (a, repeat (fin 0) (List.length frames)).
Proof.
  intros Hnone. induction frames as [| env rest IH]; cbn [poll]; [reflexivity |].
  unfold calculateDBA. rewrite Hnone. rewrite IH. reflexivity.
Qed.

End NotReady.

(** X2.  Before [setup] and after [destroy] the analyser is not ready, and
    polling it is a no-op: every [calculateDBA] returns 0 and leaves the
    analyser, its smoothed level included, as it was; the spectrum and the
    waveform it hands out are [null].  Nothing throws. *)
Theorem analyser_not_ready_is_inert :
  forall (M : MathLib) (a : AudioAnalyzer.t) (frames : list AudioAnalyzer.Frame)
         (env : AudioAnalyzer.Frame),
    AudioAnalyzer.isReady AudioAnalyzer.constructor = false
    /\ AudioAnalyzer.isReady (AudioAnalyzer.destroy a) = false
    /\ @poll M AudioAnalyzer.constructor frames
       = Return (AudioAnalyzer.constructor, repeat (fin 0) (List.length frames))
    /\ @poll M (AudioAnalyzer.destroy a) frames
       = Return (AudioAnalyzer.destroy a, repeat (fin 0) (List.length frames))
    /\ AudioAnalyzer.currentDBA (AudioAnalyzer.destroy a) = AudioAnalyzer.currentDBA a
    /\ AudioAnalyzer.getFrequencyData (AudioAnalyzer.destroy a) env
       = Return (AudioAnalyzer.destroy a, None)
    /\ AudioAnalyzer.getTimeDomainData (AudioAnalyzer.destroy a) env
       = Return (AudioAnalyzer.destroy a, None).
Proof.
  intros M a frames env.
  split; [reflexivity |]. split; [reflexivity |].
  split; [now apply poll_not_ready |]. split; [now apply poll_not_ready |].
  repeat split.
Qed.

(** ** The display throttle *)

(** X3.  [getDisplayDBA] refreshes its cache only on the first call
    ([lastDisplayUpdate] still 0) or when at least 500 ms have passed since
    the last refresh; a refreshing call stores [Math.round(currentDBA)] and
    the time, and returns that rounded level.  Any other call leaves the
    analyser as it is and, when the cache is not 0, returns the cache,
    whatever [currentDBA] has become. *)
Theorem getDisplayDBA_throttles_the_display :
  forall (a : AudioAnalyzer.t) (now : number),
    (truthy (AudioAnalyzer.lastDisplayUpdate a) = false
     \/ (now - AudioAnalyzer.lastDisplayUpdate a >= fin 500)%js = true ->
     AudioAnalyzer.getDisplayDBA a now
     = (AudioAnalyzer.set_display a (Math_round (AudioAnalyzer.currentDBA a)) now,
        Math_round (AudioAnalyzer.currentDBA a)))
    /\ (truthy (AudioAnalyzer.lastDisplayUpdate a) = true ->
        (now - AudioAnalyzer.lastDisplayUpdate a >= fin 500)%js = false ->
        fst (AudioAnalyzer.getDisplayDBA a now) = a
        /\ (truthy (AudioAnalyzer.displayDBA a) = true ->
            snd (AudioAnalyzer.getDisplayDBA a now) = AudioAnalyzer.displayDBA a)).
Proof.
  intros a now. split.
  - intros H. unfold AudioAnalyzer.getDisplayDBA.
    change (AudioConfig.displayUpdateInterval AUDIO_CONFIG) with (fin 500).
    assert ((negb (truthy (AudioAnalyzer.lastDisplayUpdate a))
             || (now - AudioAnalyzer.lastDisplayUpdate a >= fin 500)%js)%bool = true)
      as ->.
    { destruct H as [-> | ->]; [reflexivity | apply orb_true_r]. }
    cbn [AudioAnalyzer.set_display AudioAnalyzer.displayDBA AudioAnalyzer.currentDBA].
    unfold JS.or_else.
    destruct (truthy (Math_round (AudioAnalyzer.currentDBA a))); reflexivity.
  - intros H1 H2. split; [now apply getDisplayDBA_throttled |].
    intros H3. rewrite getDisplayDBA_result.
    rewrite (getDisplayDBA_throttled a now H1 H2).
    unfold JS.or_else. now rewrite H3.
Qed.

(** An analyser whose cache holds 42 since time 1000, with a live level of
    57.6: at time 1499 the call returns 42, at time 1500 it returns 58. *)
Lemma getDisplayDBA_throttle_witness :
  snd (AudioAnalyzer.getDisplayDBA
         (AudioAnalyzer.set_currentDBA
            (AudioAnalyzer.set_display AudioAnalyzer.constructor (fin 42) (fin 1000))
            (fin 57.6))
         (fin 1499)) = fin 42
  /\ snd (AudioAnalyzer.getDisplayDBA
            (AudioAnalyzer.set_currentDBA
               (AudioAnalyzer.set_display AudioAnalyzer.constructor (fin 42) (fin 1000))
               (fin 57.6))
            (fin 1500)) = Fin 58.
Proof.
  destruct (getDisplayDBA_throttles_the_display
              (AudioAnalyzer.set_currentDBA
                 (AudioAnalyzer.set_display AudioAnalyzer.constructor (fin 42) (fin 1000))
                 (fin 57.6)) (fin 1499)) as [_ H1].
  destruct (getDisplayDBA_throttles_the_display
              (AudioAnalyzer.set_currentDBA
                 (AudioAnalyzer.set_display AudioAnalyzer.constructor (fin 42) (fin 1000))
                 (fin 57.6)) (fin 1500)) as [H2 _].
  split.
  - destruct H1 as [_ H1]; [reflexivity | reflexivity |]. apply H1. reflexivity.
  - rewrite H2; [reflexivity | right; reflexivity].
Defined.

(** ** Louder is never classified quieter *)

(** X4.  The bounds of [DBA_LEVELS] rise strictly, and [getDBALevel] is
    monotone: of two finite levels the higher one is never put in an earlier
    band than the lower one. *)
Theorem getDBALevel_is_monotone :
  Forall (fun p : Level.t * Level.t =>
            (Level.max (fst p) < Level.max (snd p))%js = true)
         (combine DBA_LEVELS (tl DBA_LEVELS))
  /\ NoDup (map AudioAnalyzer.info_of DBA_LEVELS)
  /\ forall x y : Q,
       x <= y ->
       exists i j : nat,
         AudioAnalyzer.getDBALevel (Fin x) = band_at i
         /\ AudioAnalyzer.getDBALevel (Fin y) = band_at j
         /\ (i <= j)%nat /\ (j <= 4)%nat.
Proof.
  split; [repeat constructor |].
  split.
  { unfold DBA_LEVELS. cbn [map AudioAnalyzer.info_of Level.text Level.class Level.color].
    repeat constructor; cbn [In]; intros H;
      repeat (destruct H as [H | H]; [discriminate H |]); exact H. }
  intros x y Hxy.
  destruct (getDBALevel_intervals x) as (X0 & X1 & X2 & X3 & X4).
  destruct (getDBALevel_intervals y) as (Y0 & Y1 & Y2 & Y3 & Y4).
  destruct (Qlt_le_dec y 40) as [A0 | A0].
  { exists 0%nat, 0%nat. split; [apply X0; lra |]. split; [now apply Y0 | lia]. }
  destruct (Qlt_le_dec y 60) as [A1 | A1].
  { destruct (Qlt_le_dec x 40).
    - exists 0%nat, 1%nat. split; [now apply X0 |]. split; [now apply Y1 | lia].
    - exists 1%nat, 1%nat. split; [apply X1; lra |]. split; [now apply Y1 | lia]. }
  destruct (Qlt_le_dec y 70) as [A2 | A2].
  { destruct (Qlt_le_dec x 40); [| destruct (Qlt_le_dec x 60)].
    - exists 0%nat, 2%nat. split; [now apply X0 |]. split; [now apply Y2 | lia].
    - exists 1%nat, 2%nat. split; [now apply X1 |]. split; [now apply Y2 | lia].
    - exists 2%nat, 2%nat. split; [apply X2; lra |]. split; [now apply Y2 | lia]. }
  destruct (Qlt_le_dec y 85) as [A3 | A3].
  { destruct (Qlt_le_dec x 40); [| destruct (Qlt_le_dec x 60);
                                    [| destruct (Qlt_le_dec x 70)]].
    - exists 0%nat, 3%nat. split; [now apply X0 |]. split; [now apply Y3 | lia].
    - exists 1%nat, 3%nat. split; [now apply X1 |]. split; [now apply Y3 | lia].
    - exists 2%nat, 3%nat. split; [now apply X2 |]. split; [now apply Y3 | lia].
    - exists 3%nat, 3%nat. split; [apply X3; lra |]. split; [now apply Y3 | lia]. }
  destruct (Qlt_le_dec x 40); [| destruct (Qlt_le_dec x 60);
                                  [| destruct (Qlt_le_dec x 70);
                                     [| destruct (Qlt_le_dec x 85)]]].
  - exists 0%nat, 4%nat. split; [now apply X0 |]. split; [now apply Y4 | lia].
  - exists 1%nat, 4%nat. split; [now apply X1 |]. split; [now apply Y4 | lia].
  - exists 2%nat, 4%nat. split; [now apply X2 |]. split; [now apply Y4 | lia].
  - exists 3%nat, 4%nat. split; [now apply X3 |]. split; [now apply Y4 | lia].
  - exists 4%nat, 4%nat. split; [now apply X4 |]. split; [now apply Y4 | lia].
Qed.

(** The levels 59.9 and 60 fall in the second and the third band. *)
Lemma getDBALevel_monotone_witness :
  exists i j : nat,
    AudioAnalyzer.getDBALevel (Fin 59.9) = band_at i
    /\ AudioAnalyzer.getDBALevel (Fin 60) = band_at j
    /\ (i <= j)%nat /\ (j <= 4)%nat.
Proof.
  destruct getDBALevel_is_monotone as (_ & _ & H).
  apply (H 59.9 60). discriminate.
Defined.

(** ** From the analyser to the overlay: [getOverlayData] and [draw] *)

Section Snapshot.
Import AudioAnalyzer.

Lemma getOverlayData_sound (a : t) (g : GeolocationManager.t) (rec : bool)
    (env : Frame) :
  Lifecycle.sound a ->
  exists a' level data,
    App.getOverlayData a g rec env = Return (a', data)
    /\ Lifecycle.sound a'
    /\ getDBALevel (currentDBA a) = Return level
    /\ CanvasOverlay.level data = level
    /\ CanvasOverlay.dbaColor data = LevelInfo.color level
    /\ CanvasOverlay.currentDBA data = currentDBA a
    /\ CanvasOverlay.frequencyData data = dataArray a'
    /\ CanvasOverlay.timeData data = timeDataArray a'.
Proof.
  intros Hs. unfold App.getOverlayData, getVisualizerColor, getCurrentDBA.
  destruct (getDBALevel_total (currentDBA a)) as (band & _ & E). rewrite E.
  destruct (getFrequencyData_sound a env Hs) as (a1 & r1 & -> & Hs1 & ->).
  destruct (getTimeDomainData_sound a1 env Hs1) as (a2 & r2 & E2 & Hs2 & ->).
  rewrite E2.
  assert (dataArray a2 = dataArray a1) as Hsame.
  { unfold getTimeDomainData in E2.
    destruct (analyser a1); [destruct (timeDataArray a1) |];
      try discriminate; injection E2 as <-; reflexivity. }
  exists a2, (info_of band). eexists. split; [reflexivity |].
  cbn [CanvasOverlay.level CanvasOverlay.dbaColor CanvasOverlay.currentDBA
       CanvasOverlay.frequencyData CanvasOverlay.timeData].
  split; [exact Hs2 |]. split; [reflexivity |]. split; [reflexivity |].
  split; [reflexivity |]. split; [reflexivity |].
  split; [now symmetry | reflexivity].
Qed.


End Snapshot.



(** ** Geolocation: requests and retries *)

Section Retries.
Import Geolocating.

Lemma notify_requests (r : Run) (m : string) : requests (notify r m) = requests r.
Proof. reflexivity. Qed.

Lemma notify_timers (r : Run) (m : string) : timers (notify r m) = timers r.
Proof. reflexivity. Qed.

(** The requests of one [tryGetPosition] chain: some at high accuracy, then
    some at low accuracy, at most [3 - retryCount] in all; and at most one
    timer. *)
Lemma tryGetPosition_requests (outcomes : list Outcome) :
  forall (r r' : Run) (highAccuracy : bool) (retryCount : nat),
    tryGetPosition outcomes r highAccuracy retryCount = Some r' ->
    exists k m : nat,
      requests r'
      = requests r ++ repeat (options true) k ++ repeat (options false) m
      /\ (1 <= k + m)%nat
      /\ (k + m <= 1 + (2 - retryCount))%nat
      /\ (highAccuracy = true -> 1 <= k)%nat
      /\ (highAccuracy = false -> k = 0)%nat
      /\ (timers r' = timers r
          \/ timers r' = timers r ++ [fin 30000]).
Proof.
  assert (forall (r : Run) (ha : bool) (rc : nat) (tm : list number),
             tm = timers r \/ tm = timers r ++ [fin 30000] ->
             exists k m : nat,
               requests r ++ [options ha]
               = requests r ++ repeat (options true) k ++ repeat (options false) m
               /\ (1 <= k + m)%nat
               /\ (k + m <= 1 + (2 - rc))%nat
               /\ (ha = true -> 1 <= k)%nat
               /\ (ha = false -> k = 0)%nat
               /\ (tm = timers r \/ tm = timers r ++ [fin 30000])) as Hone.
  { intros r ha rc tm Ht. destruct ha.
    - exists 1%nat, 0%nat. split; [reflexivity |].
      repeat split; auto; try lia; discriminate.
    - exists 0%nat, 1%nat. split; [reflexivity |].
      repeat split; auto; try lia; discriminate. }
  induction outcomes as [| o rest IH]; intros r r' ha rc; cbn [tryGetPosition].
  - intros [= <-]. apply (Hone r ha rc). left. reflexivity.
  - destruct o as [position | code].
    + unfold handleSuccess.
      destruct (GeolocationManager.handleSuccess _ _); [| discriminate].
      intros [= <-]. apply (Hone r ha rc). left. reflexivity.
    + unfold handleError.
      change (GeolocationConfig.maxRetries GEOLOCATION_CONFIG) with 2%nat.
      destruct (Nat.eqb code 2 && ha && Nat.ltb rc 2)%bool eqn:E1.
      * apply andb_prop in E1. destruct E1 as [E1 Hrc].
        apply andb_prop in E1. destruct E1 as [_ ->].
        apply Nat.ltb_lt in Hrc.
        intros H. apply IH in H.
        destruct H as (k & m & Hreq & H1 & H2 & _ & Hk & Ht).
        specialize (Hk eq_refl). subst k.
        exists 1%nat, m. split.
        { rewrite Hreq. cbn [requests notify request repeat app].
          now rewrite <- app_assoc. }
        repeat split; auto; try lia; discriminate.
      * destruct (Nat.eqb code 3 && Nat.ltb rc 2)%bool eqn:E2.
        -- apply andb_prop in E2. destruct E2 as [_ Hrc].
           apply Nat.ltb_lt in Hrc.
           intros H. apply IH in H.
           destruct H as (k & m & Hreq & H1 & H2 & Hk1 & Hk0 & Ht).
           destruct ha.
           ++ exists (S k), m. split.
              { rewrite Hreq. cbn [requests notify request repeat app].
                now rewrite <- app_assoc. }
              repeat split; auto; try lia; discriminate.
           ++ specialize (Hk0 eq_refl). subst k.
              exists 0%nat, (S m). split.
              { rewrite Hreq. cbn [requests notify request repeat app].
                now rewrite <- app_assoc. }
              repeat split; auto; try lia; discriminate.
        -- intros [= <-]. apply (Hone r ha rc). right. reflexivity.
Qed.

End Retries.

(** X6.  One [start()] of the geolocation manager asks the browser at most
    three times, whatever errors come back: first at high accuracy (timeout
    15000 ms), and once a request has gone out at low accuracy (timeout
    30000 ms) every later one is at low accuracy.  All requests of one
    accuracy are identical, so the retry after a timeout error repeats the
    request with the same timeout.  At most one restart timer, of 30000 ms,
    is set. *)
Theorem geolocation_start_requests_at_most_three_times :
  forall (outcomes : list Geolocating.Outcome) (g : GeolocationManager.t)
         (r : Geolocating.Run),
    Geolocating.start true outcomes (Geolocating.fresh g) = Some r ->
    exists k m : nat,
      Geolocating.requests r
      = repeat (Geolocating.options true) k ++ repeat (Geolocating.options false) m
      /\ (1 <= k)%nat /\ (k + m <= 3)%nat
      /\ Geolocating.timeout (Geolocating.options true) = fin 15000
      /\ Geolocating.timeout (Geolocating.options false) = fin 30000
      /\ (Geolocating.timers r = [] \/ Geolocating.timers r = [fin 30000]).
Proof.
  intros outcomes g r H. unfold Geolocating.start in H. cbn [negb] in H.
  apply tryGetPosition_requests in H.
  destruct H as (k & m & Hreq & _ & Hle & Hk & _ & Ht).
  exists k, m. split; [exact Hreq |]. split; [now apply Hk |].
  split; [cbn in Hle; lia |]. split; [reflexivity |]. split; [reflexivity | exact Ht].
Qed.

(** Three timeouts in a row: three identical high-accuracy requests, then
    the final error and its timer. *)
Lemma geolocation_start_witness :
  exists (r : Geolocating.Run) (k m : nat),
    Geolocating.start true
      [Geolocating.Failed 3; Geolocating.Failed 3; Geolocating.Failed 3]
      (Geolocating.fresh GeolocationManager.constructor) = Some r
    /\ Geolocating.requests r
       = repeat (Geolocating.options true) k ++ repeat (Geolocating.options false) m
    /\ (k + m <= 3)%nat.
Proof.
  eexists.
  destruct (geolocation_start_requests_at_most_three_times
              [Geolocating.Failed 3; Geolocating.Failed 3; Geolocating.Failed 3]
              GeolocationManager.constructor _ eq_refl)
    as (k & m & H1 & _ & H2 & _).
  exists k, m. split; [reflexivity |]. split; [exact H1 | exact H2].
Defined.

(** X7.  Only two errors are retried.  An error that is neither "position
    unavailable" (2) nor "timeout" (3), permission denied among them, ends the
    chain at once: one request, the message of the code, the restart timer.
    A "position unavailable" error is retried once at low accuracy; a second
    one ends the chain with two requests. *)
Theorem geolocation_errors_that_are_not_retried :
  forall (g : GeolocationManager.t) (rest : list Geolocating.Outcome),
    (forall code : nat,
        code <> 2%nat -> code <> 3%nat ->
        exists r : Geolocating.Run,
          Geolocating.start true (Geolocating.Failed code :: rest)
            (Geolocating.fresh g) = Some r
          /\ Geolocating.requests r = [Geolocating.options true]
          /\ Geolocating.timers r = [fin 30000]
          /\ GeolocationManager.lat (Geolocating.manager r) = GeolocationManager.lat g
          /\ exists message,
               GeolocationManager.notified (Geolocating.manager r)
               = GeolocationManager.notified g ++ [GeoMessages.loading; message]
               /\ (code = 1%nat -> message = GeoMessages.permissionDenied))
    /\ exists r : Geolocating.Run,
         Geolocating.start true
           (Geolocating.Failed 2 :: Geolocating.Failed 2 :: rest)
           (Geolocating.fresh g) = Some r
         /\ Geolocating.requests r
            = [Geolocating.options true; Geolocating.options false]
         /\ GeolocationManager.notified (Geolocating.manager r)
            = GeolocationManager.notified g
              ++ [GeoMessages.loading; GeoMessages.loadingNetwork;
                  GeoMessages.unavailable].
Proof.
  intros g rest. split.
  - intros code H2 H3.
    unfold Geolocating.start. cbn [negb Geolocating.tryGetPosition].
    unfold Geolocating.handleError.
    assert (Nat.eqb code 2 = false) as -> by (apply Nat.eqb_neq; exact H2).
    assert (Nat.eqb code 3 = false) as -> by (apply Nat.eqb_neq; exact H3).
    cbn [andb]. eexists. split; [reflexivity |].
    split; [reflexivity |]. split; [reflexivity |]. split; [reflexivity |].
    eexists. split.
    + cbn. rewrite <- app_assoc. reflexivity.
    + intros ->. reflexivity.
  - eexists. split; [reflexivity |]. split; [reflexivity |].
    cbn. rewrite <- !app_assoc. reflexivity.
Qed.

(** Permission denied on the first request. *)
Lemma geolocation_denied_witness :
  exists r : Geolocating.Run,
    Geolocating.start true [Geolocating.Failed 1]
      (Geolocating.fresh GeolocationManager.constructor) = Some r
    /\ Geolocating.requests r = [Geolocating.options true]
    /\ Geolocating.timers r = [fin 30000].
Proof.
  destruct (geolocation_errors_that_are_not_retried
              GeolocationManager.constructor []) as [H _].
  destruct (H 1%nat) as (r & H1 & H2 & H3 & _); [discriminate | discriminate |].
  exists r. split; [exact H1 |]. split; [exact H2 | exact H3].
Defined.

Lemma handleSuccess_coordinates (g : GeolocationManager.t) (lat lng : Q) :
  Qabs lat < inject_Z (10 ^ 21) ->
  Qabs lng < inject_Z (10 ^ 21) ->
  exists (g' : GeolocationManager.t) (la lo : string),
    GeolocationManager.handleSuccess g
      {| GeolocationManager.coords :=
           {| GeolocationManager.latitude := Fin lat;
              GeolocationManager.longitude := Fin lng |} |}
    = Some g'
    /\ GeolocationManager.lat g' = Some la
    /\ GeolocationManager.lng g' = Some lo
    /\ la <> "" /\ lo <> "".
Proof.
  intros Hlat Hlng.
  destruct (toFixed_fraction lat 5 Hlat) as (la & Ela & Hla).
  destruct (toFixed_fraction lng 5 Hlng) as (lo & Elo & Hlo).
  unfold GeolocationManager.handleSuccess.
  cbn [GeolocationManager.coords GeolocationManager.latitude
       GeolocationManager.longitude].
  rewrite Ela, Elo. eexists. exists la, lo.
  split; [reflexivity |]. split; [reflexivity |]. split; [reflexivity |].
  split; eapply fraction_digits_not_empty; eassumption.
Qed.

(** X8.  Once a position of ordinary magnitude has been found the manager
    has a location, and every snapshot taken from it shows the two
    coordinates in the info box, never the N/A marker. *)
Theorem found_position_is_shown_in_the_overlay :
  forall (g : GeolocationManager.t) (lat lng : Q) (a : AudioAnalyzer.t)
         (rec : bool) (env : AudioAnalyzer.Frame),
    Qabs lat < inject_Z (10 ^ 21) ->
    Qabs lng < inject_Z (10 ^ 21) ->
    Lifecycle.sound a ->
    exists (g' : GeolocationManager.t) (la lo : string)
           (a' : AudioAnalyzer.t) (data : CanvasOverlay.OverlayData),
      GeolocationManager.handleSuccess g
        {| GeolocationManager.coords :=
             {| GeolocationManager.latitude := Fin lat;
                GeolocationManager.longitude := Fin lng |} |}
      = Some g'
      /\ GeolocationManager.hasLocation g' = true
      /\ GeolocationManager.getCoordinates g' = (Some la, Some lo)
      /\ App.getOverlayData a g' rec env = Return (a', data)
      /\ CanvasOverlay.locationStr data = ("⌖ " ++ la ++ ", " ++ lo)%string
      /\ CanvasOverlay.locationStr data <> "⌖ N/A".
Proof.
  intros g lat lng a rec env Hlat Hlng Hs.
  destruct (handleSuccess_coordinates g lat lng Hlat Hlng)
    as (g' & la & lo & Hg & Hla & Hlo & Fla & Flo).
  destruct (getOverlayData_sound a g' rec env Hs)
    as (a' & level & data & E & _).
  assert (CanvasOverlay.latitude data = Some la
          /\ CanvasOverlay.longitude data = Some lo) as [E1 E2].
  { unfold App.getOverlayData in E.
    destruct (AudioAnalyzer.getVisualizerColor a) as [col | ex]; [| discriminate E].
    destruct (AudioAnalyzer.getDBALevel _) as [lev | ex]; [| discriminate E].
    destruct (AudioAnalyzer.getFrequencyData a env) as [[b1 f] | ex];
      [| discriminate E].
    destruct (AudioAnalyzer.getTimeDomainData b1 env) as [[b2 t] | ex];
      [| discriminate E].
    injection E as _ <-. cbn. unfold GeolocationManager.getCoordinates.
    rewrite Hla, Hlo. split; reflexivity. }
  assert (CanvasOverlay.locationStr data = ("⌖ " ++ la ++ ", " ++ lo)%string) as Hloc.
  { apply locationStr_present; assumption. }
  exists g', la, lo, a', data. split; [exact Hg |].
  split; [unfold GeolocationManager.hasLocation; now rewrite Hla, Hlo |].
  split; [unfold GeolocationManager.getCoordinates; now rewrite Hla, Hlo |].
  split; [exact E |]. split; [exact Hloc |].
  rewrite Hloc. intros Heq.
  apply (f_equal String.length) in Heq.
  rewrite !length_append in Heq.
  destruct la; [contradiction |]. destruct lo; [contradiction |].
  cbn in Heq. lia.
Qed.

(** The position (10.5, 106.75) found by a new manager, and a snapshot
    taken before the analyser is set up. *)
Lemma found_position_witness :
  exists (g' : GeolocationManager.t) (la lo : string),
    GeolocationManager.handleSuccess GeolocationManager.constructor
      {| GeolocationManager.coords :=
           {| GeolocationManager.latitude := Fin 10.5;
              GeolocationManager.longitude := Fin 106.75 |} |}
    = Some g'
    /\ GeolocationManager.getCoordinates g' = (Some la, Some lo).
Proof.
  destruct (found_position_is_shown_in_the_overlay
              GeolocationManager.constructor 10.5 106.75
              AudioAnalyzer.constructor false silent_frame)
    as (g' & la & lo & _ & _ & H1 & _ & H2 & _);
    [reflexivity | reflexivity | exact constructor_sound |].
  exists g', la, lo. split; [exact H1 | exact H2].
Defined.

(** ** utils/helpers.js *)

(** X9.  [clamp(value, min, max)] with finite [min <= max] returns a value
    of [min, max] for every value that is not NaN: the value itself inside
    the range, the nearer bound outside it, the bounds for the infinities.
    NaN is returned as NaN, and with [min > max] the result is [min]. *)
Theorem clamp_keeps_the_value_in_range :
  forall lo hi : Q,
    (lo <= hi ->
     (forall v : Q,
         exists r, den (clamp (Fin v) (Fin lo) (Fin hi)) r
                   /\ lo <= r /\ r <= hi
                   /\ (lo <= v -> v <= hi -> r == v)
                   /\ (v < lo -> r == lo)
                   /\ (hi < v -> r == hi))
     /\ den (clamp NegInf (Fin lo) (Fin hi)) lo
     /\ den (clamp PosInf (Fin lo) (Fin hi)) hi)
    /\ clamp NaN (Fin lo) (Fin hi) = NaN
    /\ (hi < lo -> forall v : Q, den (clamp (Fin v) (Fin lo) (Fin hi)) lo).
Proof.
  intros lo hi. split; [| split; [reflexivity |]].
  - intros Hle. split; [| split].
    + intros v. exists (Qmax lo (Qmin hi v)). split.
      * unfold clamp. apply den_max; [apply den_Fin |].
        apply den_min; apply den_Fin.
      * pose proof (Q.max_spec lo (Qmin hi v)) as Hm.
        pose proof (Q.min_spec hi v) as Hn.
        revert Hm Hn. generalize (Qmax lo (Qmin hi v)), (Qmin hi v).
        intros m n Hm Hn. repeat split; intros; lra.
    + unfold clamp. cbn. destruct (Qltb_spec lo lo); [exfalso; lra | reflexivity].
    + unfold clamp. cbn.
      destruct (Qltb_spec lo hi); cbn; [reflexivity | lra].
  - intros Hlt v. unfold clamp.
    eapply den_eq; [apply den_max; [apply den_Fin |
                                    apply den_min; apply den_Fin] |].
    pose proof (Q.max_spec lo (Qmin hi v)) as Hm.
    pose proof (Q.min_spec hi v) as Hn.
    revert Hm Hn. generalize (Qmax lo (Qmin hi v)), (Qmin hi v).
    intros m n Hm Hn. lra.
Qed.

(** The raw level 135.2 clamped to [20, 120]. *)
Lemma clamp_witness :
  exists r, den (clamp (Fin 135.2) (Fin 20) (Fin 120)) r /\ r == 120.
Proof.
  destruct (clamp_keeps_the_value_in_range 20 120) as [H _].
  destruct H as [H _]; [discriminate |].
  destruct (H 135.2) as (r & H1 & _ & _ & _ & _ & H2).
  exists r. split; [exact H1 | apply H2; reflexivity].
Defined.

Section Filenames.
Import Helpers.

Lemma count_char_app (c : ascii) (a b : string) :
  count_char c (a ++ b) = (count_char c a + count_char c b)%nat.
Proof.
  induction a as [| d a IH]; cbn [append count_char]; [reflexivity |].
  rewrite IH. lia.
Qed.

Lemma dots_to_dashes_no_dot (s : string) : count_char "." (dots_to_dashes s) = 0%nat.
Proof.
  induction s as [| c s IH]; cbn [dots_to_dashes count_char]; [reflexivity |].
  rewrite IH. destruct (Ascii.eqb c ".") eqn:E; [reflexivity |]. now rewrite E.
Qed.

Lemma dots_to_dashes_app (a b : string) :
  dots_to_dashes (a ++ b) = (dots_to_dashes a ++ dots_to_dashes b)%string.
Proof.
  induction a as [| c a IH]; cbn [append dots_to_dashes]; [reflexivity |].
  now rewrite IH.
Qed.

Lemma string_append_assoc (a b c : string) :
  (a ++ (b ++ c) = (a ++ b) ++ c)%string.
Proof.
  induction a as [| d a IH]; cbn [append]; [reflexivity | now rewrite IH].
Qed.

Lemma dots_to_dashes_length (s : string) :
  String.length (dots_to_dashes s) = String.length s.
Proof. induction s as [| c s IH]; cbn; [reflexivity | now rewrite IH]. Qed.

Lemma strip_date_marks_count (c : ascii) (s : string) :
  (count_char c (strip_date_marks s) <= count_char c s)%nat.
Proof.
  induction s as [| d s IH]; cbn [strip_date_marks count_char]; [lia |].
  destruct (Ascii.eqb d "-" || Ascii.eqb d ":" || Ascii.eqb d "T")%bool;
    cbn [count_char]; lia.
Qed.

Lemma strip_date_marks_clean (s : string) :
  count_char "-" (strip_date_marks s) = 0%nat
  /\ count_char ":" (strip_date_marks s) = 0%nat
  /\ count_char "T" (strip_date_marks s) = 0%nat.
Proof.
  induction s as [| d s (I1 & I2 & I3)]; cbn [strip_date_marks count_char];
    [auto |].
  destruct (Ascii.eqb d "-") eqn:E1; cbn [orb]; [auto |].
  destruct (Ascii.eqb d ":") eqn:E2; cbn [orb]; [auto |].
  destruct (Ascii.eqb d "T") eqn:E3; cbn [orb]; [auto |].
  cbn [count_char]. rewrite E1, E2, E3, I1, I2, I3. auto.
Qed.

End Filenames.

(** X10.  In a name built by [generateFilename] the decimal points of the
    coordinates are replaced by dashes and the date has lost its dashes,
    colons and its T, so the only dots of the name are those of the prefix,
    of the first 19 characters of the ISO date and of the extension, plus
    the one in front of the extension: with none in these three the name has
    exactly one dot.  The location part is there only when both coordinates
    are. *)
Theorem generateFilename_has_one_dot :
  forall (iso prefix extension : string) (latitude longitude : option string),
    let name := Helpers.generateFilename iso prefix extension latitude longitude in
    Helpers.count_char "." name
    = (Helpers.count_char "." prefix
       + Helpers.count_char "." (Helpers.strip_date_marks (substring 0 19 iso))
       + 1 + Helpers.count_char "." extension)%nat
    /\ (Helpers.count_char "." prefix = 0%nat ->
        Helpers.count_char "." (substring 0 19 iso) = 0%nat ->
        Helpers.count_char "." extension = 0%nat ->
        Helpers.count_char "." name = 1%nat)
    /\ (CanvasOverlay.present latitude = false
        \/ CanvasOverlay.present longitude = false ->
        name = (prefix ++ "_" ++ Helpers.strip_date_marks (substring 0 19 iso)
                ++ "." ++ extension)%string)
    /\ (forall la lo : string,
          latitude = Some la -> longitude = Some lo -> la <> "" -> lo <> "" ->
          name = (prefix ++ "_" ++ Helpers.strip_date_marks (substring 0 19 iso)
                  ++ "_" ++ Helpers.dots_to_dashes la
                  ++ "_" ++ Helpers.dots_to_dashes lo
                  ++ "." ++ extension)%string).
Proof.
  intros iso prefix extension latitude longitude name. subst name.
  assert (Helpers.count_char "."
            (Helpers.generateFilename iso prefix extension latitude longitude)
          = (Helpers.count_char "." prefix
             + Helpers.count_char "."
                 (Helpers.strip_date_marks (substring 0 19 iso))
             + 1 + Helpers.count_char "." extension)%nat) as Hcount.
  { unfold Helpers.generateFilename. cbv zeta.
    rewrite !count_char_app.
    destruct (CanvasOverlay.present latitude && CanvasOverlay.present longitude).
    - rewrite dots_to_dashes_no_dot. cbn [Helpers.count_char Ascii.eqb]. cbn. lia.
    - cbn. lia. }
  split; [exact Hcount |]. split; [| split].
  - intros H1 H2 H3. rewrite Hcount, H1, H3.
    pose proof (strip_date_marks_count "." (substring 0 19 iso)). lia.
  - intros Habs. unfold Helpers.generateFilename. cbv zeta.
    assert (CanvasOverlay.present latitude && CanvasOverlay.present longitude = false)
      as ->.
    { destruct Habs as [-> | ->]; [reflexivity | apply andb_false_r]. }
    reflexivity.
  - intros la lo -> -> Hla Hlo. unfold Helpers.generateFilename. cbv zeta.
    destruct la as [| c1 la]; [contradiction |].
    destruct lo as [| c2 lo]; [contradiction |].
    cbn [CanvasOverlay.present andb CanvasOverlay.str_of].
    do 2 f_equal.
    rewrite !dots_to_dashes_app, <- !string_append_assoc. reflexivity.
Qed.

(** A photograph taken at 10.762622, 106.660172. *)
Lemma generateFilename_witness :
  Helpers.count_char "."
    (Helpers.generateFilename "2026-11-02T17:39:05.123Z" "IMG" "png"
       (Some "10.762622") (Some "106.660172")) = 1%nat.
Proof.
  apply (generateFilename_has_one_dot "2026-11-02T17:39:05.123Z" "IMG" "png"
           (Some "10.762622") (Some "106.660172")); reflexivity.
Defined.

Ltac halves := unfold Qdiv in *; change (/ 2) with (1 # 2) in *; lra.

Lemma polyfill_radius_den (w h r : number) (qw qh qr : Q) :
  den w qw -> den h qh -> den r qr ->
  den (Helpers.polyfill_radius w h r) (Qmin qr (Qmin (qw / 2) (qh / 2))).
Proof.
  intros Hw Hh Hr. unfold Helpers.polyfill_radius. cbv zeta.
  assert (den (if (w < fin 2 * r)%js then (w / fin 2)%js else r)
              (Qmin qr (qw / 2))) as H1.
  { pose proof (den_lt w (fin 2 * r)%js qw (2 * qr) Hw
                  (den_mul _ _ _ _ (den_fin 2) Hr)) as L.
    destruct (w < fin 2 * r)%js.
    - eapply den_eq; [apply den_div; [exact Hw | apply den_fin | discriminate] |].
      assert (qw < 2 * qr) as K by now apply L.
      symmetry. apply Q.min_r. halves.
    - eapply den_eq; [exact Hr |].
      assert (~ qw < 2 * qr) as K by (intro K; apply L in K; discriminate).
      symmetry. apply Q.min_l. halves. }
  revert H1. generalize (if (w < fin 2 * r)%js then (w / fin 2)%js else r).
  intros r1 H1.
  pose proof (den_lt h (fin 2 * r1)%js qh (2 * Qmin qr (qw / 2)) Hh
                (den_mul _ _ _ _ (den_fin 2) H1)) as L.
  pose proof (Q.min_spec qr (qw / 2)) as S1.
  pose proof (Q.min_spec (qw / 2) (qh / 2)) as S2.
  pose proof (Q.min_spec qr (Qmin (qw / 2) (qh / 2))) as S3.
  destruct (h < fin 2 * r1)%js.
  - eapply den_eq; [apply den_div; [exact Hh | apply den_fin | discriminate] |].
    assert (qh < 2 * Qmin qr (qw / 2)) as K by now apply L.
    revert S1 S2 S3 K.
    generalize (Qmin qr (Qmin (qw / 2) (qh / 2))), (Qmin (qw / 2) (qh / 2)),
      (Qmin qr (qw / 2)).
    intros m3 m2 m1 S1 S2 S3 K. halves.
  - eapply den_eq; [exact H1 |].
    assert (~ qh < 2 * Qmin qr (qw / 2)) as K
        by (intro K; apply L in K; discriminate).
    revert S1 S2 S3 K.
    generalize (Qmin qr (Qmin (qw / 2) (qh / 2))), (Qmin (qw / 2) (qh / 2)),
      (Qmin qr (qw / 2)).
    intros m3 m2 m1 S1 S2 S3 K. halves.
Qed.

(** X11.  The [roundRect] installed by [installRoundRectPolyfill] draws its
    four corners with the radius [min(r, w/2, h/2)].  For a rectangle of
    non-negative width and height and a non-negative [r] that radius is not
    negative and none of the six path calls throws; for a negative width or
    height the radius is negative and the first [arcTo] throws
    IndexSizeError. *)
Theorem roundRect_polyfill_radius_fits :
  forall x y w h r : Q,
  exists radius : Q,
    den (Helpers.polyfill_radius (Fin w) (Fin h) (Fin r)) radius
    /\ radius == Qmin r (Qmin (w / 2) (h / 2))
    /\ (0 <= w -> 0 <= h -> 0 <= r ->
        0 <= radius /\ 2 * radius <= w /\ 2 * radius <= h /\ radius <= r
        /\ Forall (fun o => Helpers.path_op_exception o = None)
             (Helpers.roundRect_polyfill (Fin x) (Fin y) (Fin w) (Fin h) (Fin r)))
    /\ (w < 0 \/ h < 0 ->
        radius < 0
        /\ exists o rest,
            Helpers.roundRect_polyfill (Fin x) (Fin y) (Fin w) (Fin h) (Fin r)
            = Helpers.PMoveTo (Fin x + Helpers.polyfill_radius (Fin w) (Fin h) (Fin r))%js
                (Fin y) :: o :: rest
            /\ Helpers.path_op_exception o = Some IndexSizeError).
Proof.
  intros x y w h r. exists (Qmin r (Qmin (w / 2) (h / 2))).
  pose proof (polyfill_radius_den (Fin w) (Fin h) (Fin r) w h r
                (den_Fin w) (den_Fin h) (den_Fin r)) as Hd.
  pose proof (Q.min_spec (w / 2) (h / 2)) as S2.
  pose proof (Q.min_spec r (Qmin (w / 2) (h / 2))) as S3.
  split; [exact Hd |]. split; [reflexivity |]. split.
  - intros Hw Hh Hr.
    assert (0 <= Qmin r (Qmin (w / 2) (h / 2))) as Hpos.
    { revert S2 S3. generalize (Qmin r (Qmin (w / 2) (h / 2))), (Qmin (w / 2) (h / 2)).
      intros m3 m2 S2 S3. halves. }
    repeat split; try exact Hpos.
    + revert S2 S3. generalize (Qmin r (Qmin (w / 2) (h / 2))), (Qmin (w / 2) (h / 2)).
      intros m3 m2 S2 S3. halves.
    + revert S2 S3. generalize (Qmin r (Qmin (w / 2) (h / 2))), (Qmin (w / 2) (h / 2)).
      intros m3 m2 S2 S3. halves.
    + apply Q.le_min_l.
    + assert (Canvas.negative (Helpers.polyfill_radius (Fin w) (Fin h) (Fin r)) = false)
        as Hneg.
      { unfold Canvas.negative.
        pose proof (den_lt _ (fin 0) _ 0 Hd (den_fin 0)) as L.
        destruct (Helpers.polyfill_radius (Fin w) (Fin h) (Fin r) < fin 0)%js;
          [| reflexivity].
        exfalso. assert (Qmin r (Qmin (w / 2) (h / 2)) < 0) by now apply L. halves. }
      unfold Helpers.roundRect_polyfill. cbv zeta.
      repeat (apply Forall_cons; [| ]); try apply Forall_nil;
        cbn [Helpers.path_op_exception]; rewrite ?Hneg, ?andb_false_r; reflexivity.
  - intros Hneg.
    assert (Qmin r (Qmin (w / 2) (h / 2)) < 0) as Hlt.
    { revert S2 S3. generalize (Qmin r (Qmin (w / 2) (h / 2))), (Qmin (w / 2) (h / 2)).
      intros m3 m2 S2 S3. halves. }
    split; [exact Hlt |].
    eexists _, _. split; [reflexivity |].
    cbn [Helpers.path_op_exception].
    assert (Canvas.negative (Helpers.polyfill_radius (Fin w) (Fin h) (Fin r)) = true)
      as ->.
    { unfold Canvas.negative. now apply (den_lt _ (fin 0) _ 0 Hd (den_fin 0)). }
    rewrite (den_finite _ _ Hd).
    rewrite (den_finite _ _ (den_add _ _ _ _ (den_Fin x) (den_Fin w))).
    rewrite (den_finite _ _ (den_add _ _ _ _ (den_Fin y) (den_Fin h))).
    reflexivity.
Qed.

(** The info box of a landscape frame, 280 by 70 with radius 12; and a pill
    18 high asked for with radius 12. *)
Lemma roundRect_polyfill_witness :
  exists radius : Q,
    den (Helpers.polyfill_radius (Fin 280) (Fin 18) (Fin 12)) radius
    /\ radius == 9
    /\ Forall (fun o => Helpers.path_op_exception o = None)
         (Helpers.roundRect_polyfill (Fin 30) (Fin 30) (Fin 280) (Fin 18) (Fin 12)).
Proof.
  destruct (roundRect_polyfill_radius_fits 30 30 280 18 12)
    as (radius & H1 & H2 & H3 & _).
  exists radius. split; [exact H1 |]. split; [rewrite H2; reflexivity |].
  apply H3; discriminate.
Defined.

(** ** modules/MediaCapture.js *)

Section Recording.
Import MediaCapture.

Lemma selectMimeType_loop_split (browser : Browser) (types : list string) :
  In "" types ->
  exists before after,
    types = before ++ selectMimeType_loop browser types :: after
    /\ Forall (fun t => t <> "" /\ isTypeSupported browser t = false) before
    /\ (selectMimeType_loop browser types = ""
        \/ isTypeSupported browser (selectMimeType_loop browser types) = true).
Proof.
  induction types as [| t rest IH]; intros Hin; [destruct Hin |].
  cbn [selectMimeType_loop].
  destruct (String.eqb_spec t "") as [-> | Hne]; cbn [orb].
  - exists [], rest. repeat split; [constructor | now left].
  - destruct (isTypeSupported browser t) eqn:Es.
    + exists [], rest. repeat split; [constructor | now right].
    + destruct Hin as [-> | Hin]; [contradiction |].
      destruct (IH Hin) as (before & after & E & Hb & Hr).
      exists (t :: before), after. split; [| split].
      * cbn [app]. now rewrite <- E.
      * constructor; [split; assumption | exact Hb].
      * exact Hr.
Qed.

Lemma mimeTypes_of_has_default (browser : Browser) : In "" (mimeTypes_of browser).
Proof.
  unfold mimeTypes_of. destruct (isIOSDevice (navigator browser)); cbn; tauto.
Qed.

Lemma selectMimeType_supported (browser : Browser) :
  selectMimeType browser = ""
  \/ isTypeSupported browser (selectMimeType browser) = true.
Proof.
  destruct (selectMimeType_loop_split browser (mimeTypes_of browser)
              (mimeTypes_of_has_default browser)) as (_ & _ & _ & _ & H).
  exact H.
Qed.

Lemma chunks_after_events (events : list Blob) (this : t) :
  recordedChunks (fold_left ondataavailable events this)
  = recordedChunks this ++ filter (fun b => (0 <? size b)%N) events
  /\ recordingMimeType (fold_left ondataavailable events this)
     = recordingMimeType this
  /\ isRecording (fold_left ondataavailable events this) = isRecording this.
Proof.
  revert this. induction events as [| e events IH]; intros this;
    cbn [fold_left filter].
  - now rewrite app_nil_r.
  - destruct (IH (ondataavailable this e)) as (E1 & E2 & E3).
    rewrite E1, E2, E3. unfold ondataavailable.
    destruct (0 <? size e)%N; cbn [recordedChunks recordingMimeType isRecording].
    + now rewrite <- app_assoc.
    + auto.
Qed.

Lemma blob_size_filter (events : list Blob) :
  blob_size (filter (fun b => (0 <? size b)%N) events) = blob_size events.
Proof.
  induction events as [| e events IH]; cbn [filter blob_size fold_right];
    [reflexivity |].
  fold (blob_size events).
  destruct (N.ltb_spec 0 (size e)); cbn [blob_size fold_right];
    fold (blob_size (filter (fun b => (0 <? size b)%N) events)); lia.
Qed.

Lemma blob_size_positive (chunks : list Blob) :
  chunks <> [] -> Forall (fun b => (0 < size b)%N) chunks ->
  (0 < blob_size chunks)%N.
Proof.
  intros Hne Hall. destruct chunks as [| c chunks]; [contradiction |].
  inversion Hall; subst. cbn [blob_size fold_right]. lia.
Qed.

Lemma filter_positive (events : list Blob) :
  Forall (fun b => (0 < size b)%N) (filter (fun b => (0 <? size b)%N) events).
Proof.
  apply Forall_forall. intros b [_ H]%filter_In. now apply N.ltb_lt.
Qed.

Lemma filter_positive_nil (events : list Blob) :
  filter (fun b => (0 <? size b)%N) events = [] -> blob_size events = 0%N.
Proof. intros E. rewrite <- blob_size_filter, E. reflexivity. Qed.

Lemma isMP4_includes (this : t) :
  isMP4 this = includes (recordingMimeType this) "mp4".
Proof.
  unfold isMP4. destruct (recordingMimeType this); reflexivity.
Qed.

End Recording.

(** X12.  [selectMimeType] returns the first entry of the platform's list
    that is the empty string or a type [MediaRecorder.isTypeSupported]
    accepts: every entry before it is a type the browser refuses, and the
    result is never a refused type.  On an iOS device the result is an mp4
    type whenever the browser supports one of the two mp4 types; elsewhere
    it is a webm type whenever one of the three webm types is supported. *)
Theorem selectMimeType_returns_the_first_supported_type :
  forall browser : MediaCapture.Browser,
    let r := MediaCapture.selectMimeType browser in
    (exists before after,
        MediaCapture.mimeTypes_of browser = before ++ r :: after
        /\ Forall (fun t => t <> ""
                            /\ MediaCapture.isTypeSupported browser t = false)
             before)
    /\ (r = "" \/ MediaCapture.isTypeSupported browser r = true)
    /\ (MediaCapture.isIOSDevice (MediaCapture.navigator browser) = true ->
        MediaCapture.isTypeSupported browser
          "video/mp4;codecs=avc1.42E01E,mp4a.40.2" = true
        \/ MediaCapture.isTypeSupported browser "video/mp4" = true ->
        MediaCapture.includes r "mp4" = true)
    /\ (MediaCapture.isIOSDevice (MediaCapture.navigator browser) = false ->
        MediaCapture.isTypeSupported browser "video/webm;codecs=vp9,opus" = true
        \/ MediaCapture.isTypeSupported browser "video/webm;codecs=vp8,opus" = true
        \/ MediaCapture.isTypeSupported browser "video/webm" = true ->
        MediaCapture.includes r "webm" = true
        /\ MediaCapture.includes r "mp4" = false).
Proof.
  intros browser r. subst r.
  destruct (selectMimeType_loop_split browser (MediaCapture.mimeTypes_of browser)
              (mimeTypes_of_has_default browser))
    as (before & after & E & Hb & Hr).
  split; [exists before, after; split; assumption |].
  split; [exact Hr |].
  unfold MediaCapture.selectMimeType, MediaCapture.mimeTypes_of.
  split; intros -> Hs; cbn [RecordingConfig.iosMimeTypes
                              RecordingConfig.defaultMimeTypes RECORDING_CONFIG
                              MediaCapture.selectMimeType_loop].
  - destruct (MediaCapture.isTypeSupported browser
                "video/mp4;codecs=avc1.42E01E,mp4a.40.2") eqn:E1;
      [reflexivity |].
    destruct (MediaCapture.isTypeSupported browser "video/mp4") eqn:E2;
      [reflexivity |].
    destruct Hs; discriminate.
  - destruct (MediaCapture.isTypeSupported browser "video/webm;codecs=vp9,opus")
      eqn:E1; [split; reflexivity |].
    destruct (MediaCapture.isTypeSupported browser "video/webm;codecs=vp8,opus")
      eqn:E2; [split; reflexivity |].
    destruct (MediaCapture.isTypeSupported browser "video/webm") eqn:E3;
      [split; reflexivity |].
    destruct Hs as [? | [? | ?]]; discriminate.
Qed.

(** An iPhone whose recorder takes plain [video/mp4] only. *)
Lemma selectMimeType_witness :
  MediaCapture.includes
    (MediaCapture.selectMimeType
       {| MediaCapture.navigator :=
            {| MediaCapture.userAgent := "Mozilla/5.0 (iPhone; CPU iPhone OS 17_0)";
               MediaCapture.platform := "iPhone";
               MediaCapture.maxTouchPoints := 5 |};
          MediaCapture.isTypeSupported := String.eqb "video/mp4" |})
    "mp4" = true.
Proof.
  apply (selectMimeType_returns_the_first_supported_type
           {| MediaCapture.navigator :=
                {| MediaCapture.userAgent := "Mozilla/5.0 (iPhone; CPU iPhone OS 17_0)";
                   MediaCapture.platform := "iPhone";
                   MediaCapture.maxTouchPoints := 5 |};
              MediaCapture.isTypeSupported := String.eqb "video/mp4" |});
    [reflexivity | right; reflexivity].
Defined.

(** X13.  [startRecording] does not reach its [catch] block through its own
    checks: the dimensions it gives the record canvas are those of the
    video, with 1280 for a width of 0 and 720 for a height of 0, each alone,
    so they are never 0 and "Video dimensions not available" is never
    thrown; and the recorder is constructed without a [mimeType] option
    when [selectMimeType] returned the empty string and with a supported type
    otherwise, so it does not throw NotSupportedError. *)
Theorem startRecording_setup_never_throws :
  forall (browser : MediaCapture.Browser) (videoWidth videoHeight : N),
  exists s : MediaCapture.Setup,
    MediaCapture.startRecording_setup browser videoWidth videoHeight = Return s
    /\ (0 < MediaCapture.width s)%N /\ (0 < MediaCapture.height s)%N
    /\ (videoWidth <> 0%N -> MediaCapture.width s = videoWidth)
    /\ (videoWidth = 0%N -> MediaCapture.width s = 1280%N)
    /\ (videoHeight <> 0%N -> MediaCapture.height s = videoHeight)
    /\ (videoHeight = 0%N -> MediaCapture.height s = 720%N)
    /\ MediaCapture.mimeType s = MediaCapture.selectMimeType browser
    /\ (MediaCapture.mimeType s = "" -> MediaCapture.options s = None)
    /\ (MediaCapture.mimeType s <> "" ->
        MediaCapture.options s = Some (MediaCapture.mimeType s)
        /\ MediaCapture.isTypeSupported browser (MediaCapture.mimeType s) = true).
Proof.
  intros browser w h. unfold MediaCapture.startRecording_setup. cbv zeta.
  cbn [RecordingConfig.defaultWidth RecordingConfig.defaultHeight RECORDING_CONFIG].
  assert ((0 < MediaCapture.or_default w 1280)%N
          /\ (w <> 0%N -> MediaCapture.or_default w 1280 = w)
          /\ (w = 0%N -> MediaCapture.or_default w 1280 = 1280%N)) as (W1 & W2 & W3).
  { unfold MediaCapture.or_default. destruct (N.eqb_spec w 0); repeat split; lia. }
  assert ((0 < MediaCapture.or_default h 720)%N
          /\ (h <> 0%N -> MediaCapture.or_default h 720 = h)
          /\ (h = 0%N -> MediaCapture.or_default h 720 = 720%N)) as (H1 & H2 & H3).
  { unfold MediaCapture.or_default. destruct (N.eqb_spec h 0); repeat split; lia. }
  destruct (N.eqb_spec (MediaCapture.or_default w 1280) 0) as [E | _]; [lia |].
  destruct (N.eqb_spec (MediaCapture.or_default h 720) 0) as [E | _]; [lia |].
  cbn [orb].
  destruct (String.eqb_spec (MediaCapture.selectMimeType browser) "") as [E | E].
  - eexists. split; [reflexivity |]. cbn [MediaCapture.width MediaCapture.height
      MediaCapture.mimeType MediaCapture.options].
    repeat split; try assumption; try reflexivity;
      intros; try contradiction; reflexivity.
  - destruct (selectMimeType_supported browser) as [K | K]; [contradiction |].
    rewrite K. eexists. split; [reflexivity |].
    cbn [MediaCapture.width MediaCapture.height
           MediaCapture.mimeType MediaCapture.options].
    repeat split; try assumption; try reflexivity;
      intros; try contradiction; try (split; [reflexivity | assumption]).
Qed.

(** A camera that reports no width yet, on a browser without webm or mp4. *)
Lemma startRecording_setup_witness :
  exists s : MediaCapture.Setup,
    MediaCapture.startRecording_setup
      {| MediaCapture.navigator :=
           {| MediaCapture.userAgent := "Mozilla/5.0 (X11; Linux x86_64)";
              MediaCapture.platform := "Linux x86_64";
              MediaCapture.maxTouchPoints := 0 |};
         MediaCapture.isTypeSupported := fun _ => false |} 0 480 = Return s
    /\ MediaCapture.width s = 1280%N /\ MediaCapture.height s = 480%N
    /\ MediaCapture.options s = None.
Proof.
  destruct (startRecording_setup_never_throws
              {| MediaCapture.navigator :=
                   {| MediaCapture.userAgent := "Mozilla/5.0 (X11; Linux x86_64)";
                      MediaCapture.platform := "Linux x86_64";
                      MediaCapture.maxTouchPoints := 0 |};
                 MediaCapture.isTypeSupported := fun _ => false |} 0 480)
    as (s & E & _ & _ & _ & Hw & Hh & _ & Hm & Ho & _).
  exists s. split; [exact E |]. split; [apply Hw; reflexivity |].
  split; [apply Hh; discriminate |].
  apply Ho. rewrite Hm. reflexivity.
Defined.

(** X14.  A recording is never reported as empty.  The chunks that
    [ondataavailable] keeps are the non-empty ones, so [saveRecording] after
    any sequence of data events either finds no chunk and toasts "no video
    data" (exactly when the events carried no byte), or downloads one blob
    whose size is the total of the bytes received, which is positive; the
    blob is [video/mp4] named [.mp4] when the recorder's mime type contains
    [mp4], and [video/webm] named [.webm] otherwise, also for the empty mime
    type of the browser's default format. *)
Theorem saveRecording_never_reports_an_empty_video :
  forall (s : MediaCapture.Setup) (events : list MediaCapture.Blob)
         (latitude longitude : option string) (iso : string),
    let this := MediaCapture.stopRecording
                  (fold_left MediaCapture.ondataavailable events
                     (MediaCapture.started s)) in
    let mp4 := MediaCapture.includes (MediaCapture.mimeType s) "mp4" in
    (MediaCapture.blob_size events = 0%N
     /\ MediaCapture.saveRecording this latitude longitude iso
        = [MediaCapture.Toast RecordingMessages.noData "error"])
    \/ ((0 < MediaCapture.blob_size events)%N
        /\ exists message,
            MediaCapture.saveRecording this latitude longitude iso
            = [MediaCapture.Download
                 {| MediaCapture.size := MediaCapture.blob_size events;
                    MediaCapture.type :=
                      if mp4 then "video/mp4" else "video/webm" |}
                 (Helpers.generateFilename iso "VID"
                    (if mp4 then "mp4" else "webm") latitude longitude);
               MediaCapture.Toast message "success"]).
Proof.
  intros s events latitude longitude iso this mp4.
  destruct (chunks_after_events events (MediaCapture.started s)) as (E1 & E2 & _).
  cbn [MediaCapture.started MediaCapture.recordedChunks
         MediaCapture.recordingMimeType app] in E1, E2.
  assert (MediaCapture.recordedChunks this
          = filter (fun b => (0 <? MediaCapture.size b)%N) events) as Hc
      by (subst this; cbn [MediaCapture.stopRecording MediaCapture.recordedChunks];
          exact E1).
  assert (MediaCapture.isMP4 this = mp4) as Hm.
  { rewrite isMP4_includes. subst this mp4.
    cbn [MediaCapture.stopRecording MediaCapture.recordingMimeType]. now rewrite E2. }
  unfold MediaCapture.saveRecording. cbv zeta. rewrite Hc, Hm.
  cbn [MediaCapture.size].
  destruct (filter (fun b => (0 <? MediaCapture.size b)%N) events) as [| c chunks] eqn:Ef.
  - left. split; [now apply filter_positive_nil | reflexivity].
  - right. cbn [List.length Nat.eqb].
    assert (0 < MediaCapture.blob_size events)%N as Hpos.
    { rewrite <- blob_size_filter, Ef. apply blob_size_positive; [discriminate |].
      rewrite <- Ef. apply filter_positive. }
    split; [exact Hpos |].
    rewrite <- Ef, blob_size_filter.
    destruct (N.eqb_spec (MediaCapture.blob_size events) 0) as [E | _]; [lia |].
    eexists. reflexivity.
Qed.

(** ** The web visualizer *)

Section VisualizerRuns.
Import Canvas CanvasOverlay.

Lemma div_NaN_l (y : number) : (NaN / y)%js = NaN.
Proof. destruct y; reflexivity. Qed.

Lemma mul_NaN_l (y : number) : (NaN * y)%js = NaN.
Proof. destruct y; reflexivity. Qed.

Lemma sub_NaN_r (x : number) : (x - NaN)%js = NaN.
Proof. destruct x; reflexivity. Qed.

Lemma byte_at_index (arr : list byte) (n : nat) (idx : number) :
  den idx (inject_Z (Z.of_nat n)) ->
  byte_at arr idx
  = match nth_error arr n with
    | Some b => of_Z (Z.of_N (Byte.to_N b))
    | None => NaN
    end.
Proof.
  intros (p & -> & Hp)%den_inv. unfold byte_at.
  rewrite (Qfloor_comp p _ Hp), Qfloor_Z.
  destruct (Qeq_bool_spec p (inject_Z (Z.of_nat n))) as [_ | E];
    [| contradiction].
  assert ((0 <=? Z.of_nat n)%Z = true) as -> by (apply Z.leb_le; lia).
  cbn [andb]. now rewrite Nat2Z.id.
Qed.

Lemma byte_value_range (b : byte) :
  0 <= inject_Z (Z.of_N (Byte.to_N b))
  /\ inject_Z (Z.of_N (Byte.to_N b)) <= 255.
Proof.
  pose proof (Byte.to_N_bounded b) as Hb. split.
  - rewrite <- (Zle_Qle 0). lia.
  - rewrite <- (Zle_Qle _ 255). lia.
Qed.

Lemma createLinearGradient_eq (a b c d : number) (qa qb qc qd : Q) :
  den a qa -> den b qb -> den c qc -> den d qd ->
  createLinearGradient a b c d
  = ret {| x0 := a; y0 := b; x1 := c; y1 := d; stops := [] |}.
Proof.
  intros Ha Hb Hc Hd. unfold createLinearGradient.
  now rewrite (den_finite a qa Ha), (den_finite b qb Hb),
              (den_finite c qc Hc), (den_finite d qd Hd).
Qed.

Lemma addColorStop_eq (g : Gradient) (q : Q) (color : string) :
  0 <= q -> q <= 1 ->
  addColorStop g (fin q) color
  = ret {| x0 := x0 g; y0 := y0 g; x1 := x1 g; y1 := y1 g;
           stops := stops g ++ [(fin q, color)] |}.
Proof.
  intros H0 H1. unfold addColorStop.
  change (is_finite (fin q)) with true. cbn [negb].
  assert ((fin q < fin 0)%js = false) as ->.
  { destruct (fin q < fin 0)%js eqn:E; [| reflexivity].
    apply (den_lt _ _ q 0 (den_fin q) (den_fin 0)) in E. exfalso. lra. }
  assert ((fin q > fin 1)%js = false) as ->.
  { unfold JS.gt. destruct (fin 1 < fin q)%js eqn:E; [| reflexivity].
    apply (den_lt _ _ 1 q (den_fin 1) (den_fin q)) in E. exfalso. lra. }
  reflexivity.
Qed.

Lemma throws_bind_l {A B : Type} (m : M A) (k : A -> M B) (e : string) :
  Visualizer.throws m e -> Visualizer.throws (bind m k) e.
Proof.
  intros H w. destruct (H w) as [w' E]. exists w'. unfold bind. now rewrite E.
Qed.

Lemma throws_bind_r {A B : Type} (m : M A) (k : A -> M B) (e : string) :
  returns m -> (forall a, Visualizer.throws (k a) e) ->
  Visualizer.throws (bind m k) e.
Proof.
  intros Hm Hk w. destruct (Hm w) as (w1 & a & E).
  destruct (Hk a w1) as [w2 E2]. exists w2. unfold bind. now rewrite E.
Qed.

Lemma throws_for_range (n start k : nat) (body : nat -> M unit) (e : string) :
  (start <= k < start + n)%nat ->
  (forall i, (start <= i < k)%nat -> returns (body i)) ->
  Visualizer.throws (body k) e ->
  Visualizer.throws (for_range start n body) e.
Proof.
  revert start. induction n as [| n IH]; intros start Hk Hret Hthrow; [lia |].
  cbn [for_range]. destruct (Nat.eq_dec start k) as [-> | Hne].
  - now apply throws_bind_l.
  - apply throws_bind_r; [apply Hret; lia |].
    intros _. apply IH; [lia | | exact Hthrow].
    intros i Hi. apply Hret. lia.
Qed.

Lemma bar_index_den (i : nat) :
  den (of_nat i * fin 4)%js (inject_Z (Z.of_nat (4 * i))).
Proof.
  eapply den_eq; [apply den_mul; [apply of_nat_den | apply den_fin] |].
  rewrite Nat2Z.inj_mul, inject_Z_mult. change (inject_Z (Z.of_nat 4)) with 4.
  ring.
Qed.

Lemma drawFrequencyBar_draws (dataArray : list byte) (H qbw : Q) (bw : number)
    (i : nat) :
  den bw qbw -> (4 * i < List.length dataArray)%nat ->
  exists (b : byte) (g : Gradient) (x y h : number),
    nth_error dataArray (4 * i) = Some b
    /\ (forall w,
          Visualizer.drawFrequencyBar dataArray (Fin H) bw (fin 2) i w
          = (received (received w (FillStyle (GradientStyle g)))
               (FillRect x y bw h), Return tt))
    /\ den x (inject_Z (Z.of_nat i) * (qbw + 2))
    /\ den h (inject_Z (Z.of_N (Byte.to_N b)) / 255 * H * (8 # 10))
    /\ den y (H - inject_Z (Z.of_N (Byte.to_N b)) / 255 * H * (8 # 10)).
Proof.
  intros Hbw Hi. unfold Visualizer.drawFrequencyBar. cbv zeta.
  rewrite (byte_at_index dataArray (4 * i) _ (bar_index_den i)).
  destruct (nth_error dataArray (4 * i)) as [b |] eqn:E;
    [| apply nth_error_None in E; lia].
  set (v := inject_Z (Z.of_N (Byte.to_N b))).
  assert (den (of_Z (Z.of_N (Byte.to_N b)) / fin 255 * Fin H * fin 0.8)%js
              (v / 255 * H * (8 # 10))) as Hh.
  { eapply den_eq;
      [apply den_mul;
       [apply den_mul;
        [apply den_div; [apply den_Fin | apply den_fin | discriminate]
        | apply den_Fin]
       | apply den_fin] |].
    reflexivity. }
  revert Hh.
  generalize (of_Z (Z.of_N (Byte.to_N b)) / fin 255 * Fin H * fin 0.8)%js.
  intros h Hh.
  assert (den (Fin H - h)%js (H - v / 255 * H * (8 # 10))) as Hy
      by (apply den_sub; [apply den_Fin | exact Hh]).
  assert (den (of_nat i * (bw + fin 2))%js (inject_Z (Z.of_nat i) * (qbw + 2))) as Hx
      by (apply den_mul; [apply of_nat_den | apply den_add; [exact Hbw | apply den_fin]]).
  rewrite (createLinearGradient_eq _ _ _ _ 0 H 0 _
             (den_fin 0) (den_Fin H) (den_fin 0) Hy).
  eexists b, _, _, _, _. split; [reflexivity |].
  split; [| split; [exact Hx | split; [exact Hh | exact Hy]]].
  intros w. unfold bind at 1. unfold ret at 1.
  rewrite (addColorStop_eq _ 0); [| lra | lra].
  unfold bind at 1. unfold ret at 1.
  rewrite (addColorStop_eq _ 0.5); [| lra | lra].
  unfold bind at 1. unfold ret at 1.
  rewrite (addColorStop_eq _ 1); [| lra | lra].
  unfold bind at 1. unfold ret at 1.
  unfold bind. rewrite call_received by reflexivity.
  rewrite call_received by reflexivity. reflexivity.
Qed.

End VisualizerRuns.

Section VisualizerDraws.
Import Canvas CanvasOverlay.

Lemma drawFrequencyBar_returns (dataArray : list byte) (H qbw : Q) (bw : number)
    (i : nat) :
  den bw qbw -> (4 * i < List.length dataArray)%nat ->
  returns (Visualizer.drawFrequencyBar dataArray (Fin H) bw (fin 2) i).
Proof.
  intros Hbw Hi w.
  destruct (drawFrequencyBar_draws dataArray H qbw bw i Hbw Hi)
    as (b & g & x & y & h & _ & E & _).
  rewrite E. eexists _, tt. reflexivity.
Qed.

Lemma drawFrequencyBar_throws (dataArray : list byte) (height bw : number)
    (i : nat) :
  (List.length dataArray <= 4 * i)%nat ->
  Visualizer.throws (Visualizer.drawFrequencyBar dataArray height bw (fin 2) i)
    TypeError.
Proof.
  intros Hi. unfold Visualizer.drawFrequencyBar. cbv zeta.
  rewrite (byte_at_index dataArray (4 * i) _ (bar_index_den i)).
  destruct (nth_error dataArray (4 * i)) as [b |] eqn:E.
  { assert (4 * i < List.length dataArray)%nat
      by (apply nth_error_Some; congruence). lia. }
  rewrite div_NaN_l, !mul_NaN_l, sub_NaN_r.
  apply throws_bind_l. intros w. exists w.
  unfold createLinearGradient. cbn [is_finite]. rewrite andb_false_r. reflexivity.
Qed.

Lemma drawWaveform_returns (timeDataArray : list byte) (width height : number)
    (color : string) :
  returns (Visualizer.drawWaveform timeDataArray width height color).
Proof.
  unfold Visualizer.drawWaveform.
  apply returns_bind; [apply returns_call; reflexivity | intros _].
  apply returns_bind; [apply returns_call; reflexivity | intros _].
  apply returns_bind; [apply returns_call; reflexivity | intros _].
  apply returns_bind.
  - apply returns_for_fold. intros i y. unfold Visualizer.drawPoint.
    apply returns_bind; [| intros _; apply returns_ret].
    destruct (Nat.eqb i 0); apply returns_call; reflexivity.
  - intros _. apply returns_bind; [apply returns_call; reflexivity | intros _].
    apply returns_call. reflexivity.
Qed.

Lemma rects_drawn_app (a b : list op) :
  Visualizer.rects_drawn (a ++ b)
  = Visualizer.rects_drawn a ++ Visualizer.rects_drawn b.
Proof.
  induction a as [| o a IH]; [reflexivity |].
  destruct o; cbn [app Visualizer.rects_drawn]; rewrite IH; reflexivity.
Qed.

(** A loop whose every turn adds calls with exactly one [fillRect] among
    them adds one rectangle for each turn. *)
Lemma for_range_rects (R : nat -> number * number * number * number -> Prop)
    (body : nat -> M unit) (n start : nat) :
  (forall i, (start <= i < start + n)%nat ->
     exists drawn r,
       (forall w, exists w',
           body i w = (w', Return tt)
           /\ ops (ctx w') = ops (ctx w) ++ drawn)
       /\ Visualizer.rects_drawn drawn = [r] /\ R i r) ->
  exists drawn,
    (forall w, exists w',
        for_range start n body w = (w', Return tt)
        /\ ops (ctx w') = ops (ctx w) ++ drawn)
    /\ List.length (Visualizer.rects_drawn drawn) = n
    /\ (forall j, (j < n)%nat ->
          exists r, nth_error (Visualizer.rects_drawn drawn) j = Some r
                    /\ R (start + j)%nat r).
Proof.
  revert start. induction n as [| n IH]; intros start Hbody.
  - exists []. split; [| split; [reflexivity | intros j Hj; lia]].
    intros w. exists w. cbn [for_range]. split; [reflexivity |].
    now rewrite app_nil_r.
  - destruct (Hbody start) as (d1 & r1 & E1 & Hr1 & HR1); [lia |].
    destruct (IH (S start)) as (d2 & E2 & Hlen & Hnth).
    { intros i Hi. apply Hbody. lia. }
    exists (d1 ++ d2). split; [| split].
    + intros w. destruct (E1 w) as (w1 & Ew1 & Ho1).
      destruct (E2 w1) as (w2 & Ew2 & Ho2).
      exists w2. cbn [for_range]. unfold bind. rewrite Ew1. split; [exact Ew2 |].
      now rewrite Ho2, Ho1, app_assoc.
    + rewrite rects_drawn_app, Hr1. cbn [app List.length]. now rewrite Hlen.
    + intros j Hj. rewrite rects_drawn_app, Hr1. cbn [app].
      destruct j as [| j].
      * exists r1. split; [reflexivity |]. now rewrite Nat.add_0_r.
      * destruct (Hnth j) as (r & Er & HR); [lia |].
        exists r. split; [exact Er |].
        now replace (start + S j)%nat with (S start + j)%nat by lia.
Qed.

End VisualizerDraws.

Lemma visualizer_draw_returns (cw ch dpr : Q) (time data : list byte)
    (color : string) :
  ~ dpr == 0 -> (253 <= List.length data)%nat ->
  returns (Visualizer.draw (Fin cw) (Fin ch) (Fin dpr) (Some time) (Some data) color).
Proof.
  intros Hdpr Hlen.
  assert (den (Fin cw / Fin dpr)%js (cw / dpr)) as Hw
      by (apply den_div; [apply den_Fin | apply den_Fin | exact Hdpr]).
  assert (den (Fin ch / Fin dpr)%js (ch / dpr)) as Hh
      by (apply den_div; [apply den_Fin | apply den_Fin | exact Hdpr]).
  apply den_inv in Hh. destruct Hh as (h & Eh & Hh).
  assert (den (Fin cw / Fin dpr / of_nat 64)%js (cw / dpr / 64)) as Hbw
      by (apply den_div; [exact Hw | apply of_nat_den | discriminate]).
  unfold Visualizer.draw. rewrite Eh.
  apply returns_bind; [apply returns_call; reflexivity | intros _].
  apply returns_bind; [apply returns_call; reflexivity | intros _].
  apply returns_bind; [apply drawWaveform_returns | intros _].
  unfold Visualizer.drawFrequencyBars. cbv zeta.
  cbn [VisualizerConfig.barCount VisualizerConfig.barSpacing VISUALIZER_CONFIG].
  apply returns_for_range. intros i Hi.
  eapply drawFrequencyBar_returns; [exact Hbw | lia].
Qed.

(** X15.  [Visualizer.draw] needs a spectrum of at least 253 bins, since
    its 64 bars read [dataArray[0]], [dataArray[4]], ..., [dataArray[252]]:
    with that many it returns for every waveform, on any canvas and any
    non-zero device pixel ratio; with fewer the first bar whose bin is
    missing gets the height NaN and [createLinearGradient] throws a
    TypeError.  With [null] for either array nothing is drawn. *)
Theorem visualizer_draw_needs_253_bins :
  forall (canvas_width canvas_height devicePixelRatio : Q)
         (timeDataArray dataArray : list byte) (color : string),
    ~ devicePixelRatio == 0 ->
    ((253 <= List.length dataArray)%nat ->
     returns (Visualizer.draw (Fin canvas_width) (Fin canvas_height)
                (Fin devicePixelRatio) (Some timeDataArray) (Some dataArray) color))
    /\ ((List.length dataArray < 253)%nat ->
        Visualizer.throws
          (Visualizer.draw (Fin canvas_width) (Fin canvas_height)
             (Fin devicePixelRatio) (Some timeDataArray) (Some dataArray) color)
          TypeError)
    /\ (forall w,
          Visualizer.draw (Fin canvas_width) (Fin canvas_height)
            (Fin devicePixelRatio) None (Some dataArray) color w = (w, Return tt))
    /\ (forall w,
          Visualizer.draw (Fin canvas_width) (Fin canvas_height)
            (Fin devicePixelRatio) (Some timeDataArray) None color w = (w, Return tt)).
Proof.
  intros cw ch dpr time data color Hdpr.
  assert (den (Fin cw / Fin dpr)%js (cw / dpr)) as Hw
      by (apply den_div; [apply den_Fin | apply den_Fin | exact Hdpr]).
  assert (den (Fin ch / Fin dpr)%js (ch / dpr)) as Hh
      by (apply den_div; [apply den_Fin | apply den_Fin | exact Hdpr]).
  apply den_inv in Hh. destruct Hh as (h & Eh & Hh).
  assert (den (Fin cw / Fin dpr / of_nat 64)%js (cw / dpr / 64)) as Hbw
      by (apply den_div; [exact Hw | apply of_nat_den | discriminate]).
  split; [| split; [| split; intros w; reflexivity]].
  - intros Hlen. now apply visualizer_draw_returns.
  - intros Hlen. unfold Visualizer.draw.
    apply throws_bind_r; [apply returns_call; reflexivity | intros _].
    apply throws_bind_r; [apply returns_call; reflexivity | intros _].
    apply throws_bind_r; [apply drawWaveform_returns | intros _].
    unfold Visualizer.drawFrequencyBars. cbv zeta.
    cbn [VisualizerConfig.barCount VisualizerConfig.barSpacing VISUALIZER_CONFIG].
    rewrite Eh.
    apply (throws_for_range 64 0 ((List.length data + 3) / 4)).
    + split; [lia |]. cbn [Nat.add].
      apply Nat.Div0.div_lt_upper_bound. lia.
    + intros i [_ Hi]. eapply drawFrequencyBar_returns; [exact Hbw |].
      assert (4 * ((List.length data + 3) / 4) <= List.length data + 3)%nat
        by (apply Nat.Div0.mul_div_le).
      lia.
    + apply drawFrequencyBar_throws.
      pose proof (Nat.div_mod_eq (List.length data + 3) 4) as Hd.
      pose proof (Nat.mod_upper_bound (List.length data + 3) 4) as Hm.
      lia.
Qed.

(** The analyser's spectrum of 1024 bins on a canvas of 800 by 300 device
    pixels at a pixel ratio of 2. *)
Lemma visualizer_draw_witness :
  returns (Visualizer.draw (Fin 800) (Fin 300) (Fin 2)
             (Some (repeat "000"%byte 2048)) (Some (repeat "000"%byte 1024))
             "#00ff88").
Proof.
  apply (visualizer_draw_needs_253_bins 800 300 2 (repeat "000"%byte 2048)
           (repeat "000"%byte 1024) "#00ff88").
  - discriminate.
  - rewrite repeat_length. lia.
Defined.

(** X16.  The 64 bars of the web visualizer do not fit its canvas.  On a
    canvas [W] wide and [H >= 0] high, [drawFrequencyBars] makes 64
    [fillRect] calls; bar [i] is [W/64] wide and starts at [i * (W/64 + 2)],
    its height is between 0 and [0.8 * H] and it stands on the bottom edge.
    The spacing of 2 comes on top of the 64 widths, so bar [i] ends at
    [(i + 1) * W/64 + 2 * i], the last one at [W + 126], and for
    [W <= 8064] the last bar starts at or beyond the right edge. *)
Theorem visualizer_bars_overflow_the_canvas :
  forall (W H : Q) (dataArray : list byte),
    0 <= H -> (253 <= List.length dataArray)%nat ->
    exists drawn,
      (forall w, exists w',
          Visualizer.drawFrequencyBars dataArray (Fin W) (Fin H) w = (w', Return tt)
          /\ Canvas.ops (CanvasOverlay.ctx w')
             = Canvas.ops (CanvasOverlay.ctx w) ++ drawn)
      /\ List.length (Visualizer.rects_drawn drawn) = 64%nat
      /\ (forall i, (i < 64)%nat ->
            exists x y bw h qh,
              nth_error (Visualizer.rects_drawn drawn) i = Some (x, y, bw, h)
              /\ den x (inject_Z (Z.of_nat i) * (W / 64 + 2))
              /\ den bw (W / 64)
              /\ den h qh /\ 0 <= qh /\ qh <= (8 # 10) * H
              /\ den y (H - qh)
              /\ den (x + bw)%js
                   (inject_Z (Z.of_nat (i + 1)) * (W / 64)
                    + 2 * inject_Z (Z.of_nat i)))
      /\ (exists x y bw h qx,
            nth_error (Visualizer.rects_drawn drawn) 63 = Some (x, y, bw, h)
            /\ den (x + bw)%js (W + 126)
            /\ den x qx /\ (W <= 8064 -> W <= qx)).
Proof.
  intros W H data HH Hlen.
  assert (den (Fin W / of_nat 64)%js (W / 64)) as Hbw
      by (apply den_div; [apply den_Fin | apply of_nat_den | discriminate]).
  destruct (for_range_rects
              (fun i r =>
                 exists x y h qh,
                   r = (x, y, (Fin W / of_nat 64)%js, h)
                   /\ den x (inject_Z (Z.of_nat i) * (W / 64 + 2))
                   /\ den h qh /\ 0 <= qh /\ qh <= (8 # 10) * H
                   /\ den y (H - qh))
              (Visualizer.drawFrequencyBar data (Fin H) (Fin W / of_nat 64)%js (fin 2))
              64 0) as (drawn & Hrun & Hcount & Hnth).
  { intros i Hi.
    destruct (drawFrequencyBar_draws data H (W / 64) _ i Hbw)
      as (b & g & x & y & h & _ & E & Hx & Hh & Hy); [lia |].
    exists [Canvas.FillStyle (Canvas.GradientStyle g);
            Canvas.FillRect x y (Fin W / of_nat 64)%js h], (x, y, (Fin W / of_nat 64)%js, h).
    split; [| split; [reflexivity |]].
    - intros w. eexists. split; [apply E |].
      cbn [received CanvasOverlay.ctx Canvas.ops]. now rewrite <- app_assoc.
    - exists x, y, h, (inject_Z (Z.of_N (Byte.to_N b)) / 255 * H * (8 # 10)).
      destruct (byte_value_range b) as [B0 B1].
      repeat split; try assumption.
      + apply Qmult_le_0_compat; [apply Qmult_le_0_compat |]; [| exact HH | discriminate].
        apply Qle_shift_div_l; [reflexivity | lra].
      + assert (inject_Z (Z.of_N (Byte.to_N b)) / 255 <= 1) as B2
            by (apply Qle_shift_div_r; [reflexivity | lra]).
        assert (0 <= inject_Z (Z.of_N (Byte.to_N b)) / 255) as B3
            by (apply Qle_shift_div_l; [reflexivity | lra]).
        revert B2 B3. generalize (inject_Z (Z.of_N (Byte.to_N b)) / 255).
        intros t B2 B3. nra. }
  exists drawn. split; [exact Hrun |]. split; [exact Hcount |]. split.
  - intros i Hi. destruct (Hnth i Hi) as (r & Er & x & y & h & qh & -> & Hx & Hh & H0 & H1 & Hy).
    cbn [Nat.add] in Hx.
    exists x, y, (Fin W / of_nat 64)%js, h, qh.
    repeat split; try assumption.
    eapply den_eq; [apply den_add; [exact Hx | exact Hbw] |].
    rewrite Nat2Z.inj_add, inject_Z_plus. change (inject_Z (Z.of_nat 1)) with 1.
    ring.
  - destruct (Hnth 63%nat) as (r & Er & x & y & h & qh & -> & Hx & Hh & H0 & H1 & Hy);
      [lia |].
    cbn [Nat.add] in Hx. change (inject_Z (Z.of_nat 63)) with 63 in Hx.
    exists x, y, (Fin W / of_nat 64)%js, h, (63 * (W / 64 + 2)).
    split; [exact Er |]. split; [| split; [exact Hx |]].
    + eapply den_eq; [apply den_add; [exact Hx | exact Hbw] |]. field.
    + intros HW. unfold Qdiv. change (/ 64) with (1 # 64). lra.
Qed.

(** A canvas 400 wide and 100 high with the analyser's 1024 bins. *)
Lemma visualizer_bars_witness :
  exists drawn,
    forall w, exists w',
      Visualizer.drawFrequencyBars (repeat "000"%byte 1024) (Fin 400) (Fin 100) w
      = (w', Return tt)
      /\ Canvas.ops (CanvasOverlay.ctx w')
         = Canvas.ops (CanvasOverlay.ctx w) ++ drawn.
Proof.
  destruct (visualizer_bars_overflow_the_canvas 400 100 (repeat "000"%byte 1024))
    as (drawn & H & _).
  - discriminate.
  - rewrite repeat_length. lia.
  - exists drawn. exact H.
Defined.

(** ** The animation loop *)

Section AnimationLoop.
Import AudioAnalyzer Lifecycle.
Context {M : MathLib} {contract : MathContract M}.

Lemma animate_sound (cw ch dpr : Q) (a : t) (tick : Animation.Tick) :
  ~ dpr == 0 -> sound a -> finite_frame (Animation.audio tick) ->
  exists a' shown,
    Animation.animate (Fin cw) (Fin ch) (Fin dpr) a tick = Return (a', shown)
    /\ sound a'
    /\ level_reading (Animation.displayDBA shown)
    /\ getDBALevel (Animation.displayDBA shown) = Return (Animation.level shown)
    /\ returns (Animation.visualizer shown)
    /\ (isReady a = false ->
        forall w, Animation.visualizer shown w = (w, Return tt)).
Proof.
  intros Hdpr Hs Henv. unfold Animation.animate.
  destruct (calculateDBA_sound a (Animation.audio tick) Hs Henv)
    as (a1 & r & E1 & Hs1 & _).
  rewrite E1.
  assert (isReady a = false -> analyser a1 = None) as Hinert.
  { intros Hn. unfold calculateDBA in E1. unfold isReady in Hn.
    destruct (analyser a) eqn:Ea; [discriminate |].
    injection E1 as <- _. exact Ea. }
  destruct (getDisplayDBA_sound a1 (Animation.now tick) Hs1) as [Hs2 Hd].
  destruct (getDisplayDBA a1 (Animation.now tick)) as [a2 d] eqn:E2.
  cbn [fst snd] in Hs2, Hd.
  assert (analyser a2 = analyser a1) as Hsame2.
  { unfold getDisplayDBA in E2. injection E2 as <- _.
    match goal with |- context [if ?c then _ else _] => destruct c end;
      reflexivity. }
  destruct (getDBALevel_total d) as (band & _ & E3). rewrite E3.
  destruct (getTimeDomainData_sound a2 (Animation.audio tick) Hs2)
    as (a3 & time & E4 & Hs3 & Ht).
  rewrite E4.
  assert (analyser a3 = analyser a2) as Hsame3.
  { unfold getTimeDomainData in E4.
    destruct (analyser a2) eqn:Ea2; [destruct (timeDataArray a2) |];
      try discriminate; injection E4 as <- _;
      cbn [set_timeDataArray analyser]; exact Ea2. }
  destruct (getFrequencyData_sound a3 (Animation.audio tick) Hs3)
    as (a4 & freq & E5 & Hs4 & Hf).
  rewrite E5.
  assert (analyser a4 = analyser a3) as Hsame4.
  { unfold getFrequencyData in E5.
    destruct (analyser a3) eqn:Ea3; [destruct (dataArray a3) |];
      try discriminate; injection E5 as <- _;
      cbn [set_dataArray analyser]; exact Ea3. }
  unfold getVisualizerColor.
  destruct (getDBALevel_total (currentDBA a4)) as (band' & _ & E6). rewrite E6.
  eexists _, _. split; [reflexivity |].
  cbn [Animation.displayDBA Animation.level Animation.visualizer].
  split; [exact Hs4 |]. split; [exact Hd |]. split; [exact E3 |]. split.
  - destruct time as [time |]; [| apply returns_ret].
    destruct freq as [freq |]; [| apply returns_ret].
    apply visualizer_draw_returns; [exact Hdpr |].
    destruct Hs4 as (_ & _ & Ha & _ & Hn).
    destruct (analyser a4) eqn:Ean.
    + destruct Ha as (_ & data & t0 & Ed & _ & L & _); [discriminate |].
      rewrite <- Hf in Ed. injection Ed as ->. rewrite L. lia.
    + destruct Hn as [Hn _]; [reflexivity |]. rewrite <- Hf in Hn. discriminate.
  - intros Hn w.
    assert (analyser a3 = None) as Hnone
        by (rewrite Hsame3, Hsame2; now apply Hinert).
    destruct Hs3 as (_ & _ & _ & _ & Hn3). destruct (Hn3 Hnone) as [_ Et].
    rewrite Ht, Et. reflexivity.
Qed.

End AnimationLoop.

(** X17.  The animation loop never stops on an exception.  Starting from an
    analyser in any state its methods can leave it in, with finite samples
    from the audio graph and a visualizer canvas of any finite size at a
    non-zero pixel ratio, every frame of [animate] returns; what it hands to
    the display is an integer level of [0, 120] with the band of that level,
    and the visualizer's drawing of the frame returns as well. *)
Theorem animation_never_stops_on_an_exception :
  forall (M : MathLib) (canvas_width canvas_height devicePixelRatio : Q)
         (ticks : list Animation.Tick) (a : AudioAnalyzer.t),
    MathContract M ->
    ~ devicePixelRatio == 0 ->
    Lifecycle.sound a ->
    Forall (fun tick => finite_frame (Animation.audio tick)) ticks ->
    exists a' frames,
      @Animation.animation M (Fin canvas_width) (Fin canvas_height)
        (Fin devicePixelRatio) a ticks = Return (a', frames)
      /\ Lifecycle.sound a'
      /\ List.length frames = List.length ticks
      /\ Forall (fun shown =>
                   level_reading (Animation.displayDBA shown)
                   /\ AudioAnalyzer.getDBALevel (Animation.displayDBA shown)
                      = Return (Animation.level shown)
                   /\ returns (Animation.visualizer shown)) frames.
Proof.
  intros M cw ch dpr ticks a contract Hdpr Hs Hticks. revert a Hs.
  induction Hticks as [| tick rest Htick _ IH]; intros a Hs;
    cbn [Animation.animation].
  - exists a, []. split; [reflexivity |]. split; [exact Hs |].
    split; [reflexivity | constructor].
  - destruct (animate_sound cw ch dpr a tick Hdpr Hs Htick)
      as (a1 & shown & E & Hs1 & Hd & Hl & Hv & _).
    rewrite E. destruct (IH a1 Hs1) as (a2 & frames & E2 & Hs2 & Hlen & Hall).
    rewrite E2. exists a2, (shown :: frames).
    split; [reflexivity |]. split; [exact Hs2 |].
    split; [cbn [List.length]; now rewrite Hlen |].
    constructor; [repeat split; assumption | exact Hall].
Qed.

(** Two silent frames on a new analyser set up at 48 kHz. *)
Lemma animation_witness :
  exists a' frames,
    @Animation.animation coarse_math (Fin 800) (Fin 300) (Fin 2)
      (AudioAnalyzer.setup AudioAnalyzer.constructor (fin 48000))
      [{| Animation.audio := silent_frame; Animation.now := fin 1000 |};
       {| Animation.audio := silent_frame; Animation.now := fin 1016 |}]
    = Return (a', frames)
    /\ List.length frames = 2%nat.
Proof.
  destruct (animation_never_stops_on_an_exception coarse_math 800 300 2
              [{| Animation.audio := silent_frame; Animation.now := fin 1000 |};
               {| Animation.audio := silent_frame; Animation.now := fin 1016 |}]
              (AudioAnalyzer.setup AudioAnalyzer.constructor (fin 48000))
              coarse_math_contract)
    as (a' & frames & E & _ & Hlen & _).
  - discriminate.
  - apply setup_sound. apply constructor_sound.
  - repeat (apply Forall_cons; [exact silent_frame_finite |]). apply Forall_nil.
  - exists a', frames. split; [exact E | exact Hlen].
Defined.

(** ** The layout of the overlay in closed form *)

Section ClosedLayout.
Import Canvas CanvasOverlay.

Ltac constants :=
  unfold Qdiv in *;
  change (/ 720) with (1 # 720) in *; change (/ 1920) with (1 # 1920) in *;
  change (/ 2) with (1 # 2) in *.

(** The scale and the padding of a surface, piece by piece. *)
Lemma scale_padding_cases (W : Q) (portrait : bool) :
  let s := Layout.scale_of W portrait in
  let p := Layout.padding_of W portrait in
  let b := Layout.baseWidth portrait in
  (W * 2 <= b /\ s == 1 # 2 /\ p == 20)
  \/ (b <= W * 2 /\ W * 3 <= b * 2 /\ s == W / b /\ p == 20)
  \/ (b * 2 <= W * 3 /\ s == W / b /\ p == 30 * (W / b)).
Proof.
  intros s p b. subst s p b. unfold Layout.padding_of, Layout.scale_of.
  pose proof (Q.max_spec 0.5 (W / Layout.baseWidth portrait)) as S1.
  revert S1. generalize (Qmax 0.5 (W / Layout.baseWidth portrait)). intros s S1.
  pose proof (Q.max_spec 20 (30 * s)) as S2.
  revert S2. generalize (Qmax 20 (30 * s)). intros p S2.
  destruct portrait; cbn [Layout.baseWidth] in *; constants.
  - destruct S1 as [[L1 E1] | [L1 E1]], S2 as [[L2 E2] | [L2 E2]];
      [right; right | right; left | exfalso | left];
      repeat split; try assumption; lra.
  - destruct S1 as [[L1 E1] | [L1 E1]], S2 as [[L2 E2] | [L2 E2]];
      [right; right | right; left | exfalso | left];
      repeat split; try assumption; lra.
Qed.

Lemma badge_fits_closed (W H : Q) :
  Layout.badge_fits W H
  = if Layout.isPortrait W H then Qltb 237.5 W else Qltb 312.5 W.
Proof.
  unfold Layout.badge_fits, Layout.recX, Layout.recWidth, Layout.dbaX,
    Layout.infoBoxWidth, Layout.dbaBoxWidth, Layout.padding, Layout.scale.
  pose proof (scale_padding_cases W (Layout.isPortrait W H)) as C.
  cbv zeta in C. revert C.
  generalize (Layout.scale_of W (Layout.isPortrait W H)),
    (Layout.padding_of W (Layout.isPortrait W H)).
  intros s p C.
  destruct (Layout.isPortrait W H); cbn [Layout.baseWidth] in C; constants.
  - pose proof (Q.min_spec (200 * s) (W - 120 * s - p * 3)) as S3.
    revert S3. generalize (Qmin (200 * s) (W - 120 * s - p * 3)). intros m S3.
    destruct (Qltb_spec (p + m + 10 * s + 60 * s) (W - 120 * s - p - 5 * s)),
      (Qltb_spec 237.5 W); try reflexivity; exfalso; lra.
  - destruct (Qltb_spec (p + 280 * s + 10 * s + 90 * s) (W - 160 * s - p - 5 * s)),
      (Qltb_spec 312.5 W); try reflexivity; exfalso; lra.
Qed.

Lemma boxes_apart (W H : Q) :
  (Layout.isPortrait W H = true ->
   Layout.padding W H + Layout.infoBoxWidth W H + Layout.padding W H
   <= Layout.dbaX W H
   /\ (0 <= Layout.infoBoxWidth W H <-> 120 <= W))
  /\ (Layout.isPortrait W H = false ->
      (Layout.padding W H + Layout.infoBoxWidth W H <= Layout.dbaX W H
       <-> 260 <= W)).
Proof.
  unfold Layout.dbaX, Layout.infoBoxWidth, Layout.dbaBoxWidth, Layout.padding,
    Layout.scale.
  pose proof (scale_padding_cases W (Layout.isPortrait W H)) as C.
  cbv zeta in C. revert C.
  generalize (Layout.scale_of W (Layout.isPortrait W H)),
    (Layout.padding_of W (Layout.isPortrait W H)).
  intros s p C.
  destruct (Layout.isPortrait W H); cbn [Layout.baseWidth] in C; constants;
    (split; [intros E | intros E]); try discriminate E.
  - pose proof (Q.min_spec (200 * s) (W - 120 * s - p * 3)) as S3.
    revert S3. generalize (Qmin (200 * s) (W - 120 * s - p * 3)). intros m S3.
    repeat split; intros; lra.
  - split; intros; lra.
Qed.

End ClosedLayout.

(** X18.  The recording badge is drawn exactly on the surfaces wider than
    237.5 pixels in portrait and wider than 312.5 pixels in landscape: that
    is what the test [recX + recWidth >= dbaX - 5 * scale] of
    [drawRecordingIndicator] comes to once the scale and the padding of
    [calculateScale] are put in.  On such a surface [draw] of a snapshot
    with [isRecording] runs the calls of the badge after [drawInfoBox], on
    any other it goes on with the mini-visualizer. *)
Theorem recording_badge_is_drawn_above_a_width :
  forall (env : Canvas.Env) (W H : Q) (data : CanvasOverlay.OverlayData)
         (w : CanvasOverlay.World),
    let wide := if Drawn.isPortrait W H then Qltb 237.5 W else Qltb 312.5 W in
    CanvasOverlay.draw env (Fin W) (Fin H) data w
    = CanvasOverlay.bind
        (CanvasOverlay.drawDBABox env (Fin W) (Fin H) (Drawn.scale W H)
           (Drawn.fontSize W H) (Drawn.padding W H) (Drawn.isPortrait W H) data)
        (fun _ =>
     CanvasOverlay.bind
        (CanvasOverlay.drawInfoBox env (Fin W) (Fin H) (Drawn.scale W H)
           (Drawn.fontSize W H) (Drawn.padding W H) (Drawn.isPortrait W H) data)
        (fun _ =>
     CanvasOverlay.bind
        (if CanvasOverlay.isRecording data && wide
         then Drawn.badge W H else CanvasOverlay.ret tt)
        (fun _ =>
     CanvasOverlay.bind
        (CanvasOverlay.drawMiniVisualizer (Fin W) (Fin H) (Drawn.scale W H)
           (Drawn.padding W H) (Drawn.isPortrait W H) data)
        (fun _ =>
        CanvasOverlay.drawWatermark (Fin W) (Fin H) (Drawn.scale W H)
           (Drawn.fontSize W H))))) w
    /\ (wide = true <->
        (if Drawn.isPortrait W H then 237.5 else 312.5) < W)
    /\ (CanvasOverlay.frequencyData data = None ->
        draws (CanvasOverlay.draw env (Fin W) (Fin H) data)
              ([Canvas.Num (Math_round (CanvasOverlay.currentDBA data));
                Canvas.Str "dBA";
                Canvas.Str (LevelInfo.text (CanvasOverlay.level data));
                Canvas.Str ("⏱ " ++ Canvas.dateStr env)%string;
                Canvas.Str (CanvasOverlay.locationStr data)]
               ++ (if CanvasOverlay.isRecording data && wide
                   then [Canvas.Str "REC"] else [])
               ++ [Canvas.Str "DBA Noise Meter"])).
Proof.
  intros env W H data w wide.
  assert (wide = Layout.badge_fits W H) as Hwide
      by (subst wide; rewrite badge_fits_closed, isPortrait_layout; reflexivity).
  split; [| split].
  - rewrite Hwide. apply draw_badge.
  - subst wide. destruct (Drawn.isPortrait W H).
    + destruct (Qltb_spec 237.5 W); split; intros K;
        try assumption; try reflexivity; try discriminate K. exfalso. lra.
    + destruct (Qltb_spec 312.5 W); split; intros K;
        try assumption; try reflexivity; try discriminate K. exfalso. lra.
  - intros Hf. rewrite Hwide. apply draw_draws_without_buffers. now left.
Qed.

(** A phone held upright, 360 by 640, while recording and before the
    analyser has data. *)
Lemma recording_badge_witness :
  draws (CanvasOverlay.draw sample_env (Fin 360) (Fin 640) (recording_data None None))
        [Canvas.Num (Fin 58); Canvas.Str "dBA"; Canvas.Str "Yên tĩnh";
         Canvas.Str "⏱ 14:05:09 02/11/2026"; Canvas.Str "⌖ N/A";
         Canvas.Str "REC"; Canvas.Str "DBA Noise Meter"].
Proof.
  apply (recording_badge_is_drawn_above_a_width sample_env 360 640
           (recording_data None None) blank_world).
  reflexivity.
Defined.

(** X19.  The info box keeps clear of the dBA box except on narrow
    landscape surfaces.  [drawInfoBox] records the box it draws and the left
    edge of the dBA box; in portrait the right edge of the info box stays
    at least one padding left of the dBA box, the width of the info box
    being cut down for that, below 0 on surfaces narrower than 120 pixels;
    in landscape the width is not cut down and the two boxes overlap exactly
    on the surfaces narrower than 260 pixels. *)
Theorem info_box_keeps_clear_of_the_dba_box :
  forall (env : Canvas.Env) (W H : Q) (data : CanvasOverlay.OverlayData)
         (w : CanvasOverlay.World),
  exists (box : CanvasOverlay.Box.t) (dbaX : number) (x width left padding : Q),
    CanvasOverlay.this
      (fst (CanvasOverlay.drawInfoBox env (Fin W) (Fin H) (Drawn.scale W H)
              (Drawn.fontSize W H) (Drawn.padding W H) (Drawn.isPortrait W H)
              data w))
    = {| CanvasOverlay._lastInfoBox := Some box;
         CanvasOverlay._lastDbaX := Some dbaX |}
    /\ den (CanvasOverlay.Box.x box) x
    /\ den (CanvasOverlay.Box.width box) width
    /\ den dbaX left
    /\ den (Drawn.padding W H) padding
    /\ x == padding
    /\ (Drawn.isPortrait W H = true ->
        x + width + padding <= left /\ (0 <= width <-> 120 <= W))
    /\ (Drawn.isPortrait W H = false ->
        (x + width <= left <-> 260 <= W)).
Proof.
  intros env W H data w.
  destruct (drawn_infoBox_den W H) as (Hx & _ & Hw & _).
  destruct (drawn_scale_den W H) as (_ & _ & Hp).
  destruct (boxes_apart W H) as [Hport Hland].
  exists (Drawn.infoBox W H), (Drawn.dbaX W H), (Layout.padding W H),
    (Layout.infoBoxWidth W H), (Layout.dbaX W H), (Layout.padding W H).
  split; [apply drawInfoBox_stores |].
  split; [exact Hx |]. split; [exact Hw |]. split; [apply drawn_dbaX_den |].
  split; [exact Hp |]. split; [reflexivity |].
  rewrite isPortrait_layout. split; assumption.
Qed.

(** A landscape surface of 240 by 180: the info box ends at 160, the dBA
    box starts at 140. *)
Lemma info_box_witness :
  exists (box : CanvasOverlay.Box.t) (dbaX : number) (x width left : Q),
    CanvasOverlay.this
      (fst (CanvasOverlay.drawInfoBox sample_env (Fin 240) (Fin 180)
              (Drawn.scale 240 180) (Drawn.fontSize 240 180)
              (Drawn.padding 240 180) (Drawn.isPortrait 240 180)
              (recording_data None None) blank_world))
    = {| CanvasOverlay._lastInfoBox := Some box;
         CanvasOverlay._lastDbaX := Some dbaX |}
    /\ den (CanvasOverlay.Box.x box) x
    /\ den (CanvasOverlay.Box.width box) width
    /\ den dbaX left
    /\ ~ x + width <= left.
Proof.
  destruct (info_box_keeps_clear_of_the_dba_box sample_env 240 180
              (recording_data None None) blank_world)
    as (box & dbaX & x & width & left & padding & E & Hx & Hw & Hl & _ & _ & _ & Hland).
  exists box, dbaX, x, width, left.
  split; [exact E |]. split; [exact Hx |]. split; [exact Hw |].
  split; [exact Hl |].
  intros K. apply Hland in K; [| reflexivity].
  exact (Qlt_not_le 240 260 eq_refl K).
Defined.

(** ** The canvas state after [draw] *)

Section CanvasStateTraces.
Import Canvas CanvasOverlay CanvasState.

















Variable env : Env.











End CanvasStateTraces.



(** ** The facing mode of the camera *)

Lemma switches_from (outcomes : list bool) (mode : string) :
  mode = "environment" \/ mode = "user" ->
  fold_left (fun facingMode started => fst (App.switchCamera facingMode started))
            outcomes mode
  = if Nat.even (count_occ Bool.bool_dec outcomes true) then mode
    else App.flipFacingMode mode.
Proof.
  revert mode. induction outcomes as [| ok rest IH]; intros mode Hmode;
    [reflexivity |].
  cbn [fold_left count_occ].
  destruct ok; cbn [Bool.bool_dec bool_rec bool_rect].
  - rewrite IH by (destruct Hmode as [-> | ->]; [right | left]; reflexivity).
    rewrite Nat.even_succ, <- Nat.negb_even.
    destruct (Nat.even (count_occ Bool.bool_dec rest true));
      destruct Hmode as [-> | ->]; reflexivity.
  - destruct (Bool.bool_dec false true) as [E | _]; [discriminate E |].
    assert (fst (App.switchCamera mode false) = mode) as ->
        by (destruct Hmode as [-> | ->]; reflexivity).
    now apply IH.
Qed.

(** X21.  The camera's facing mode only ever is ['environment'] or
    ['user'].  Starting from the default, after any series of
    [switchCamera] calls it is ['environment'] when an even number of them
    got their stream and ['user'] otherwise: a switch that succeeds goes to
    the other mode, one that fails puts the mode back and says so.  The
    putting back relies on the two values: from any other string a failed
    switch ends at ['user']. *)
Theorem switchCamera_alternates_between_two_modes :
  forall outcomes : list bool,
    Camera.switches outcomes
    = (if Nat.even (count_occ Bool.bool_dec outcomes true)
       then "environment" else "user")
    /\ (forall mode : string,
          mode = "environment" \/ mode = "user" ->
          App.switchCamera mode false = (mode, "Không thể đổi camera")
          /\ exists other,
               App.switchCamera mode true = (other, "Đã đổi camera")
               /\ other <> mode
               /\ (other = "environment" \/ other = "user"))
    /\ (forall mode : string,
          mode <> "environment" ->
          App.switchCamera mode false = ("user", "Không thể đổi camera")).
Proof.
  intros outcomes. split; [| split].
  - unfold Camera.switches. rewrite switches_from by (now left). reflexivity.
  - intros mode [-> | ->]; (split; [reflexivity |]); eexists;
      (split; [reflexivity |]); split; try discriminate; auto.
  - intros mode Hne. unfold App.switchCamera, App.flipFacingMode.
    destruct (String.eqb_spec mode "environment") as [E | _]; [contradiction |].
    reflexivity.
Qed.

(** A switch to the front camera that fails. *)
Lemma switchCamera_witness :
  App.switchCamera "user" false = ("user", "Không thể đổi camera").
Proof.
  destruct (switchCamera_alternates_between_two_modes []) as (_ & H & _).
  apply H. right. reflexivity.
Defined.

(** ** How fast the level settles *)

Section Settling.

Lemma pow92_succ (n : nat) :
  0.92 ^ Z.of_nat (S n) == 0.92 * 0.92 ^ Z.of_nat n.
Proof.
  rewrite Nat2Z.inj_succ, <- Z.add_1_l.
  rewrite Qpower_plus by discriminate. reflexivity.
Qed.

Lemma pow92_range (n : nat) : 0 < 0.92 ^ Z.of_nat n /\ 0.92 ^ Z.of_nat n <= 1.
Proof.
  induction n as [| n [IH0 IH1]].
  - split; [reflexivity | discriminate].
  - rewrite pow92_succ. split; nra.
Qed.

Lemma pow92_add (n k : nat) :
  0.92 ^ Z.of_nat (n + k) == 0.92 ^ Z.of_nat n * 0.92 ^ Z.of_nat k.
Proof.
  rewrite Nat2Z.inj_add. apply Qpower_plus. discriminate.
Qed.

Lemma pow92_58 : 0.92 ^ 58 * 120 < 1.
Proof. vm_compute. reflexivity. Qed.

Lemma smoothed_closed (n : nat) (current v : number) (c b : Q) :
  den current c -> den v b ->
  den (smoothed n current v) (b + 0.92 ^ Z.of_nat n * (c - b)).
Proof.
  intros Hc Hv. induction n as [| n IH].
  - cbn [smoothed]. eapply den_eq; [exact Hc |].
    change (0.92 ^ Z.of_nat 0) with 1. ring.
  - cbn [smoothed]. eapply den_eq; [apply smooth_den; [exact IH | exact Hv] |].
    rewrite pow92_succ. ring.
Qed.

End Settling.

(** X22.  A steady sound is read within 1 dB after 58 frames.  When every
    [calculateDBA] clamps to the same level [v], the smoothed level after
    [n] calls is [v + 0.92^n * (c - v)], [c] being the level before the
    first of them; with both in [0, 120], as the analyser keeps them, the
    distance to [v] is below 1 from the 58th call on. *)
Theorem level_settles_within_58_frames :
  forall (current v : number) (c b : Q) (n : nat),
    den current c -> den v b ->
    0 <= c -> c <= 120 -> 0 <= b -> b <= 120 ->
    exists x : Q,
      den (smoothed n current v) x
      /\ x - b == 0.92 ^ Z.of_nat n * (c - b)
      /\ ((58 <= n)%nat -> - (1) < x - b /\ x - b < 1).
Proof.
  intros current v c b n Hc Hv Hc0 Hc1 Hb0 Hb1.
  exists (b + 0.92 ^ Z.of_nat n * (c - b)).
  split; [now apply smoothed_closed |]. split; [ring |].
  intros Hn. replace n with (58 + (n - 58))%nat by lia.
  rewrite pow92_add. change (Z.of_nat 58) with 58%Z.
  pose proof pow92_58 as H58.
  destruct (pow92_range (n - 58)) as [K0 K1].
  destruct (pow92_range 58) as [P0 _]. change (Z.of_nat 58) with 58%Z in P0.
  revert H58 K0 K1 P0.
  generalize (0.92 ^ 58), (0.92 ^ Z.of_nat (n - 58)). intros p k H58 K0 K1 P0.
  assert (0 < p * k /\ p * k <= p) as [M0 M1] by (split; nra).
  revert M0 M1. generalize (p * k). intros m M0 M1.
  split; nra.
Qed.

(** From silence at the floor of 20 dB to a steady 80 dB. *)
Lemma level_settles_witness :
  exists x : Q,
    den (smoothed 58 (Fin 20) (Fin 80)) x /\ - (1) < x - 80 /\ x - 80 < 1.
Proof.
  assert (0 <= 20 /\ 20 <= 120 /\ 0 <= 80 /\ 80 <= 120) as (H1 & H2 & H3 & H4)
      by (repeat split; discriminate).
  destruct (level_settles_within_58_frames (Fin 20) (Fin 80) 20 80 58
              (den_Fin 20) (den_Fin 80) H1 H2 H3 H4)
    as (x & Hx & _ & H).
  exists x. split; [exact Hx |]. apply H. apply le_n.
Defined.
